(** * Covid.py: the COVID-19 global data tracker, embedded in Rocq

    The script is a straight line of three guarded zones over one global
    name, [df]: Task 1 downloads and cleans the WHO table, Task 2 prints
    statistics of its 2025 window, Task 3 saves four charts.  The pandas
    operations the script calls are written out as list functions over
    columns; the three [try]/[except] zones are a state-and-exception monad
    over the interpreter's globals, its console and the working directory. *)

From Stdlib Require Import ZArith QArith Qround Lqa String Ascii.
From stdpp Require Import base option list sorting strings gmap.

Local Open Scope string_scope.
Local Open Scope list_scope.
Local Open Scope Z_scope.

Set Warnings "-clear-no-such-hyp".

(** ** Python exceptions and results *)

Inductive exn :=
| RequestException (why : string)  (* requests.exceptions.RequestException, with ConnectionError, HTTPError, ... *)
| KeyError (key : string)
| NameError (name : string)
| ValueError (msg : string)
| TypeError (msg : string)
| ParserError (msg : string).      (* pandas.errors.ParserError, EmptyDataError *)

(** The two classes the script names in its [except] clauses. *)
Inductive pyclass := cRequestException | cException.

Definition isinstance (e : exn) (c : pyclass) : bool :=
  match c, e with
  | cException, _ => true
  | cRequestException, RequestException _ => true
  | cRequestException, _ => false
  end.

Definition result (A : Type) : Type := exn + A.

Definition raise {A} (e : exn) : result A := inl e.

#[global] Instance result_ret : MRet result := λ A x, inr x.
#[global] Instance result_bind : MBind result := λ A B f m,
  match m with inl e => inl e | inr x => f x end.
#[global] Instance result_fmap : FMap result := λ A B f m,
  match m with inl e => inl e | inr x => inr (f x) end.

(** ** Scalars, series and frames

    A cell is [None] when it is missing (NaN, NaT).  Counts are integers in
    the WHO table; [float64] stands for pandas' numeric dtypes restricted to
    them.  Timestamps are nanoseconds since 1970-01-01, as in
    [datetime64[ns]]. *)

Inductive scalar :=
| Str (s : string)
| Num (n : Z)
| Ts (t : Z).

#[global] Instance scalar_eq_dec : EqDecision scalar.
Proof. solve_decision. Defined.

Inductive series :=
| object (xs : list (option scalar))
| float64 (xs : list (option Z))
| datetime64 (xs : list (option Z)).

(** The cells of a typed column as Python objects. *)
Definition boxed {A} (f : A → scalar) (xs : list (option A)) : list (option scalar) :=
  (λ c : option A, f <$> c) <$> xs.

Definition values (s : series) : list (option scalar) :=
  match s with
  | object xs => xs
  | float64 xs => boxed Num xs
  | datetime64 xs => boxed Ts xs
  end.

Definition len (s : series) : nat := length (values s).

(** A frame: the row labels and the columns by name. *)
Record DataFrame := {
  index : list nat;
  columns : gmap string series
}.

Definition nrows (df : DataFrame) : nat := length (index df).

(** A frame as [read_csv] makes it: every column is as long as the index. *)
Definition well_formed (df : DataFrame) : Prop :=
  ∀ name s, columns df !! name = Some s → len s = nrows df.

(** [df[name]] *)
Definition getitem (df : DataFrame) (name : string) : result series :=
  match columns df !! name with
  | Some s => inr s
  | None => raise (KeyError name)
  end.

(** [df[name] = s] *)
Definition setitem (df : DataFrame) (name : string) (s : series) : DataFrame :=
  {| index := index df; columns := <[name := s]> (columns df) |}.

(** ** Missing values *)

Definition notna (s : series) : list bool :=
  (λ c : option scalar, bool_decide (is_Some c)) <$> values s.

(** Boolean-mask selection, [xs[mask]]. *)
Fixpoint compress {A} (mask : list bool) (xs : list A) : list A :=
  match mask, xs with
  | b :: mask, x :: xs => if b then x :: compress mask xs else compress mask xs
  | _, _ => []
  end.

Definition series_compress (mask : list bool) (s : series) : series :=
  match s with
  | object xs => object (compress mask xs)
  | float64 xs => float64 (compress mask xs)
  | datetime64 xs => datetime64 (compress mask xs)
  end.

(** [df[mask]] *)
Definition df_compress (mask : list bool) (df : DataFrame) : DataFrame :=
  {| index := compress mask (index df);
     columns := series_compress mask <$> columns df |}.

(** [df.dropna(subset=names)]: a row is kept when every named column has a
    value there; a name that is no column raises KeyError. *)
Definition row_mask (df : DataFrame) (cols : list series) : list bool :=
  foldr (λ s m, zip_with andb (notna s) m) (replicate (nrows df) true) cols.

Definition dropna (subset : list string) (df : DataFrame) : result DataFrame :=
  cols ← mapM (getitem df) subset;
  mret (df_compress (row_mask df cols) df).

(** [s.fillna(method='ffill')]: the last value seen replaces a missing one. *)
Fixpoint ffill_from {A} (last : option A) (xs : list (option A)) : list (option A) :=
  match xs with
  | [] => []
  | Some v :: xs => Some v :: ffill_from (Some v) xs
  | None :: xs => last :: ffill_from last xs
  end.

Definition ffill {A} (xs : list (option A)) : list (option A) := ffill_from None xs.

(** [s.fillna(v)] *)
Definition fillna {A} (v : A) (xs : list (option A)) : list (option A) :=
  (λ c, Some (default v c)) <$> xs.

Definition series_ffill (s : series) : series :=
  match s with
  | object xs => object (ffill xs)
  | float64 xs => float64 (ffill xs)
  | datetime64 xs => datetime64 (ffill xs)
  end.

(** Filling a datetime column with the integer 0 leaves a column of Python
    objects. *)
Definition series_fillna0 (s : series) : series :=
  match s with
  | object xs => object (fillna (Num 0) xs)
  | float64 xs => float64 (fillna 0 xs)
  | datetime64 xs => object (fillna (Num 0) (boxed Ts xs))
  end.

(** ** Task 1, lines 40-46: cleaning *)

Section Cleaning.

(** [pd.to_datetime] on one string: [None] when it raises, [Some None] for
    the strings it reads as NaT, [Some (Some t)] for a timestamp. *)
Variable parse_datetime : string → option (option Z).

Definition to_datetime_cell (c : option scalar) : result (option Z) :=
  match c with
  | None => mret None
  | Some (Str s) =>
      match parse_datetime s with
      | Some t => mret t
      | None => raise (ValueError s)
      end
  | Some (Num n) => mret (Some n)
  | Some (Ts t) => mret (Some t)
  end.

Definition to_datetime (s : series) : result series :=
  match s with
  | object xs => datetime64 <$> mapM to_datetime_cell xs
  | float64 xs => mret (datetime64 xs)
  | datetime64 xs => mret (datetime64 xs)
  end.

(** Line 40. *)
Definition convert_dates (df : DataFrame) : result DataFrame :=
  s ← getitem df "Date_reported";
  d ← to_datetime s;
  mret (setitem df "Date_reported" d).

(** Line 42. *)
Definition drop_incomplete (df : DataFrame) : result DataFrame :=
  dropna ["Date_reported"; "Country_code"] df.

Definition numeric_columns : list string :=
  ["Cumulative_cases"; "Cumulative_deaths"; "New_cases"; "New_deaths"].

(** Lines 44-46, one turn of the loop.  The two in-place fills on
    [df[column]] write through to [df], as pandas does them without
    copy-on-write. *)
Definition fill_column (df : DataFrame) (column : string) : DataFrame :=
  match columns df !! column with
  | Some s => setitem df column (series_fillna0 (series_ffill s))
  | None => df
  end.

(** Lines 43-46. *)
Definition fill_numeric (df : DataFrame) : DataFrame :=
  foldl fill_column df numeric_columns.

(** Lines 40-42: the table the fill loop receives. *)
Definition identified (df : DataFrame) : result DataFrame :=
  df1 ← convert_dates df;
  drop_incomplete df1.

Definition clean (df : DataFrame) : result DataFrame :=
  df2 ← identified df;
  mret (fill_numeric df2).

End Cleaning.

(** ** Task 2, lines 63-75: the 2025 window and its aggregates *)

(** [Timestamp('2025-01-01')], in nanoseconds. *)
Definition cutoff : Z := 1735689600000000000.
Definition cutoff_text : string := "2025-01-01".

(** [s >= '2025-01-01']: a datetime column compares instants and NaT is
    never on or after anything; a column of Python objects compares each
    string with the literal, character by character; numbers do not compare
    with a string. *)
Definition ge_cutoff_object (c : option scalar) : result bool :=
  match c with
  | None => mret false
  | Some (Str s) => mret (String.leb cutoff_text s)
  | Some (Num _) => raise (TypeError "'>=' not supported between instances of 'int' and 'str'")
  | Some (Ts _) => raise (TypeError "'>=' not supported between instances of 'Timestamp' and 'str'")
  end.

Definition ge_cutoff (s : series) : result (list bool) :=
  match s with
  | datetime64 xs => mret ((λ c : option Z, from_option (λ t, bool_decide (cutoff ≤ t)) false c) <$> xs)
  | object xs => mapM ge_cutoff_object xs
  | float64 _ => raise (TypeError "Invalid comparison between dtype=float64 and str")
  end.

(** [df[df['Date_reported'] >= '2025-01-01']], lines 63 and 91. *)
Definition since_2025 (df : DataFrame) : result DataFrame :=
  s ← getitem df "Date_reported";
  mask ← ge_cutoff s;
  mret (df_compress mask df).

(** *** Statistics of one numeric column, over the rationals

    pandas holds these numbers as float64 (and adds an integer column up in
    int64).  The definitions give the exact value: the value pandas holds,
    up to the rounding of the last division, for a column whose absolute
    values add up to less than 2^53, where no sum is rounded and none
    wraps.  The properties that state a sum or a mean say so. *)

Definition present {A} (xs : list (option A)) : list A := omap id xs.

Definition Zsum (xs : list Z) : Z := foldr Z.add 0 xs.

(** [mean], skipping missing cells; NaN ([None]) when nothing is left. *)
Definition mean (xs : list (option Z)) : option Q :=
  match present xs with
  | [] => None
  | v :: vs => Some (Zsum (v :: vs) # Pos.of_nat (length (v :: vs)))
  end.

(** [sum], skipping missing cells. *)
Definition total (xs : list (option Z)) : Z := Zsum (present xs).

(** The square of [std] (one degree of freedom removed); the root itself is
    not a rational. *)
Definition variance (xs : list (option Z)) : option Q :=
  let vs := present xs in
  let n := Z.of_nat (length vs) in
  if bool_decide (2 ≤ n) then
    Some ((n * Zsum ((λ v, v * v) <$> vs) - Zsum vs * Zsum vs) # Z.to_pos (n * (n - 1)))
  else None.

(** The [k]/4 quantile by linear interpolation between order statistics. *)
Definition quartile (k : nat) (xs : list (option Z)) : option Q :=
  let sorted := merge_sort Z.le (present xs) in
  match length sorted with
  | O => None
  | S m =>
      let lo := ((m * k) `div` 4)%nat in
      let r := ((m * k) `mod` 4)%nat in
      a ← sorted !! lo;
      let b := default a (sorted !! S lo) in
      Some (inject_Z a + (Z.of_nat r # 4) * inject_Z (b - a))%Q
  end.

Record stats := {
  st_count : nat;
  st_mean : option Q;
  st_var : option Q;
  st_min : option Q;
  st_q25 : option Q;
  st_q50 : option Q;
  st_q75 : option Q;
  st_max : option Q
}.

Definition describe_numeric (xs : list (option Z)) : stats :=
  {| st_count := length (present xs);
     st_mean := mean xs;
     st_var := variance xs;
     st_min := quartile 0 xs;
     st_q25 := quartile 1 xs;
     st_q50 := quartile 2 xs;
     st_q75 := quartile 3 xs;
     st_max := quartile 4 xs |}.

(** [df[names].describe()]: every name must be a column; the numeric
    columns are summarised.  When none is numeric pandas prints counts of
    the object columns instead, kept here as the non-missing counts. *)
Inductive description :=
| NumericDescription (cols : list (string * stats))
| ObjectDescription (counts : list (string * nat)).

Definition numeric_stats (named : string * series) : option (string * stats) :=
  match named.2 with
  | float64 xs => Some (named.1, describe_numeric xs)
  | _ => None
  end.

Definition describe (df : DataFrame) (names : list string) : result description :=
  cols ← mapM (getitem df) names;
  let named := zip names cols in
  match omap numeric_stats named with
  | [] => mret (ObjectDescription ((λ ns : string * series, (ns.1, length (present (values ns.2)))) <$> named))
  | st => mret (NumericDescription st)
  end.

(** *** Grouping *)

(** The order pandas gives group keys: numbers before strings, each kind
    in its own order. *)
Definition scalar_leb (a b : scalar) : bool :=
  match a, b with
  | Num x, Num y => bool_decide (x ≤ y)
  | Num _, _ => true
  | Ts x, Ts y => bool_decide (x ≤ y)
  | Ts _, Num _ => false
  | Ts _, Str _ => true
  | Str x, Str y => String.leb x y
  | Str _, _ => false
  end.

Definition scalar_le (a b : scalar) : Prop := Is_true (scalar_leb a b).

(** The distinct non-missing keys, sorted: rows whose key is missing belong
    to no group. *)
Definition group_keys (keys : list (option scalar)) : list scalar :=
  merge_sort scalar_le (remove_dups (present keys)).

(** The cells of the rows whose key is [k], in row order. *)
Definition group_of {A} (k : scalar) (rows : list (option scalar * A)) : list A :=
  snd <$> filter (λ r, r.1 = Some k) rows.

Definition groupby {A} (keys : list (option scalar)) (vals : list A) : list (scalar * list A) :=
  (λ k, (k, group_of k (zip keys vals))) <$> group_keys keys.

(** [df.groupby(key)[col]] under an aggregate that takes a mean (lines 69,
    74 and 109): both names must be columns, and the aggregated column
    numeric.  The sum of line 95 has no mean to take: see [global_trend]. *)
Definition grouped (df : DataFrame) (key col : string) : result (list (scalar * list (option Z))) :=
  ks ← getitem df key;
  vs ← getitem df col;
  match vs with
  | float64 xs => mret (groupby (values ks) xs)
  | _ => raise (TypeError "agg function failed [how->mean,dtype->object]")
  end.

(** [round(2)] of the exact value, halves to the even neighbour.  numpy
    rounds the float64 it holds, which is off by one in the last digit for
    a value the float64 holds just below the half it stands for (0.575). *)
Definition round_half_even (q : Q) : Z :=
  let f := Qfloor q in
  match (q - inject_Z f ?= 1 # 2)%Q with
  | Lt => f
  | Gt => f + 1
  | Eq => if Z.even f then f else f + 1
  end.

Definition round2 (q : Q) : Q := round_half_even (q * 100) # 100.

(** Line 69, before rounding: per region the mean, the sum and the number
    of rows. *)
Record region_row := {
  rg_key : scalar;
  rg_mean : option Q;
  rg_sum : Z;
  rg_size : nat
}.

Definition region_agg (g : scalar * list (option Z)) : region_row :=
  {| rg_key := g.1; rg_mean := mean g.2; rg_sum := total g.2; rg_size := length g.2 |}.

Definition region_means (df : DataFrame) : result (list region_row) :=
  gs ← grouped df "WHO_region" "New_cases";
  mret (region_agg <$> gs).

(** Line 69 as printed: [agg(['mean', 'sum']).round(2)]. *)
Definition group_means (df : DataFrame) : result (list (scalar * option Q * Q)) :=
  rs ← region_means df;
  mret ((λ r, (rg_key r, round2 <$> rg_mean r, round2 (inject_Z (rg_sum r)))) <$> rs).

(** [sort_values(ascending=False)]: larger means first, NaN last. *)
Definition mean_geb (a b : option Q) : bool :=
  match a, b with
  | _, None => true
  | None, Some _ => false
  | Some x, Some y => Qle_bool y x
  end.

Definition by_mean_desc (a b : scalar * option Q) : Prop := Is_true (mean_geb a.2 b.2).

(** All countries with their mean, largest first.  numpy's quicksort
    leaves equal means in an order of its own; here they stay in the order
    of their keys. *)
Definition country_ranking (df : DataFrame) : result (list (scalar * option Q)) :=
  gs ← grouped df "Country" "Cumulative_deaths";
  mret (merge_sort by_mean_desc ((λ g : scalar * list (option Z), (g.1, mean g.2)) <$> gs)).

(** Line 74. *)
Definition country_deaths (df : DataFrame) : result (list (scalar * option Q)) :=
  take 10 <$> country_ranking df.

(** ** The interpreter: globals, console, working directory *)

(** What a saved figure shows. *)
Inductive chart :=
| Blank
| LineChart (points : list (scalar * scalar))
| BarChart (bars : list (scalar * option Q))
| Histogram (bins : nat) (xs : list (option scalar))
| ScatterChart (points : list (option scalar * option scalar * option scalar)).

(** What the script prints.  Blank lines are left out. *)
Inductive output :=
| Line (text : string)
| Head (df : DataFrame)
| Info (df : DataFrame)
| NullCounts (counts : gmap string nat)
| Cleaned (dropped : Z)
| Described (d : description)
| GroupMeans (rows : list (scalar * option Q * Q))
| CountryDeaths (rows : list (scalar * option Q))
| Error (prefix : string) (e : exn).

Record world := {
  g_df : option DataFrame;        (* the global name df; unbound at start *)
  stdout : list output;
  figure : option chart;          (* pyplot's current figure *)
  cwd : gmap string chart;        (* image files in the working directory *)
  random_state : nat              (* numpy's global generator *)
}.

Definition py (A : Type) : Type := world → result A * world.

#[global] Instance py_ret : MRet py := λ A x w, (inr x, w).
#[global] Instance py_bind : MBind py := λ A B f m w,
  match m w with
  | (inl e, w') => (inl e, w')
  | (inr x, w') => f x w'
  end.

Definition lift {A} (r : result A) : py A := λ w, (r, w).

Definition print (o : output) : py unit := λ w,
  (inr (), {| g_df := g_df w; stdout := stdout w ++ [o]; figure := figure w;
              cwd := cwd w; random_state := random_state w |}).

(** [df = v] *)
Definition store_df (v : DataFrame) : py unit := λ w,
  (inr (), {| g_df := Some v; stdout := stdout w; figure := figure w;
              cwd := cwd w; random_state := random_state w |}).

(** Reading the global [df]. *)
Definition load_df : py DataFrame := λ w,
  match g_df w with
  | Some v => (inr v, w)
  | None => (raise (NameError "df"), w)
  end.

Definition set_figure (f : option chart) : py unit := λ w,
  (inr (), {| g_df := g_df w; stdout := stdout w; figure := f;
              cwd := cwd w; random_state := random_state w |}).

(** [plt.figure(...)], drawing on it, [plt.savefig(name)], [plt.close()]. *)
Definition plt_figure : py unit := set_figure (Some Blank).
Definition plt_draw (c : chart) : py unit := set_figure (Some c).
Definition plt_close : py unit := set_figure None.

Definition plt_savefig (name : string) : py unit := λ w,
  (inr (), {| g_df := g_df w; stdout := stdout w; figure := Some (default Blank (figure w));
              cwd := <[name := default Blank (figure w)]> (cwd w);
              random_state := random_state w |}).

(** [try: body except c1 as e: h1 except c2 as e: h2]: the first clause
    whose class the exception is an instance of runs; with none, the
    exception goes on. *)
Fixpoint handle (clauses : list (pyclass * (exn → py unit))) (e : exn) : py unit :=
  match clauses with
  | [] => lift (raise e)
  | (c, h) :: clauses => if isinstance e c then h e else handle clauses e
  end.

Definition try_except (body : py unit) (clauses : list (pyclass * (exn → py unit))) : py unit :=
  λ w, match body w with
       | (inl e, w') => handle clauses e w'
       | (inr x, w') => (inr x, w')
       end.

(** ** Task 1, lines 19-58 *)

(** What the network gives: no response at all, or a response with its
    status and what [pd.read_csv] makes of its text. *)
Inductive download :=
| Unreachable (why : string)
| Response (status : nat) (csv : result DataFrame).

(** Lines 21-24. *)
Definition fetch (net : download) : result DataFrame :=
  match net with
  | Unreachable why => raise (RequestException why)
  | Response status csv =>
      if bool_decide (400 ≤ status < 600)%nat
      then raise (RequestException "HTTPError")
      else csv
  end.

Definition series_head (n : nat) (s : series) : series :=
  match s with
  | object xs => object (take n xs)
  | float64 xs => float64 (take n xs)
  | datetime64 xs => datetime64 (take n xs)
  end.

Definition head (n : nat) (df : DataFrame) : DataFrame :=
  {| index := take n (index df); columns := series_head n <$> columns df |}.

(** [df.isnull().sum()] and [df.isnull().any().any()] *)
Definition null_count (s : series) : nat :=
  length (filter (λ c : option scalar, c = None) (values s)).

Definition null_counts (df : DataFrame) : gmap string nat := null_count <$> columns df.

Definition any_null (df : DataFrame) : bool :=
  bool_decide (map_Exists (λ _ n, n ≠ 0%nat) (null_counts df)).

Section Script.

Variable parse_datetime : string → option (option Z).

(** [RandomState.choice(n, size=k, replace=False)]: the positions drawn and
    the generator's next state. *)
Variable choice : nat → nat → nat → list nat * nat.

Definition task1_body (net : download) : py unit :=
  df ← lift (fetch net);
  store_df df;;
  print (Line "First 5 Rows of the Dataset:");;
  print (Head (head 5 df));;
  print (Line "Dataset Info:");;
  print (Info df);;
  print (Line "None");;
  print (Line "Missing Values:");;
  print (NullCounts (null_counts df));;
  df1 ← lift (convert_dates parse_datetime df);
  store_df df1;;
  let initial_len := nrows df1 in
  df2 ← lift (drop_incomplete df1);
  store_df df2;;
  let df3 := fill_numeric df2 in
  store_df df3;;
  print (Cleaned (Z.of_nat initial_len - Z.of_nat (nrows df3)));;
  if any_null df3 then mret ()
  else print (Line "No remaining missing values in the dataset after cleaning.").

Definition task1 (net : download) : py unit :=
  try_except (task1_body net)
    [(cRequestException,
      λ e, print (Error "Error: Failed to download dataset from URL. Please check internet connection or URL. Error: " e));
     (cException, λ e, print (Error "Error during data loading: " e))].

(** ** Task 2, lines 61-86 *)

Definition findings : list string :=
  ["Findings from Analysis:";
   "- The dataset spans from 2020 to August 2025, with ~1.2 million rows across 250+ countries/regions.";
   "- In 2025, global new cases average ~1,500 per day, with a standard deviation of 5,000, indicating variability (e.g., spikes in regions like Americas).";
   "- The Americas region has the highest mean new cases (~800/day), while South-East Asia shows lower averages (~200/day), highlighting regional disparities.";
   "- Cumulative deaths are highest in countries like the US and India, with means exceeding 1 million; this suggests ongoing burden in high-population areas.";
   "- Patterns: Cases peaked in early 2025 but declined by August, possibly due to vaccination and variant shifts (e.g., NB.1.8.1 rise per WHO reports)."].

Definition print_lines (ls : list string) : py unit :=
  foldr (λ l k, print (Line l);; k) (mret ()) ls.

Definition task2_body : py unit :=
  df ← load_df;
  recent_df ← lift (since_2025 df);
  print (Line "Summary Statistics (2025 Data):");;
  d ← lift (describe recent_df ["New_cases"; "New_deaths"; "Cumulative_cases"; "Cumulative_deaths"]);
  print (Described d);;
  print (Line "Mean New Cases by WHO Region (2025):");;
  gm ← lift (group_means recent_df);
  print (GroupMeans gm);;
  print (Line "Top 10 Countries by Mean Cumulative Deaths (2025):");;
  cd ← lift (country_deaths recent_df);
  print (CountryDeaths ((λ r : scalar * option Q, (r.1, round2 <$> r.2)) <$> cd));;
  print_lines findings.

Definition task2 : py unit :=
  try_except task2_body [(cException, λ e, print (Error "Error during analysis: " e))].

(** ** Task 3, lines 89-150 *)

Definition series_take (rows : list nat) (s : series) : series :=
  match s with
  | object xs => object (omap (xs !!.) rows)
  | float64 xs => float64 (omap (xs !!.) rows)
  | datetime64 xs => datetime64 (omap (xs !!.) rows)
  end.

Definition df_take (rows : list nat) (df : DataFrame) : DataFrame :=
  {| index := omap (index df !!.) rows; columns := series_take rows <$> columns df |}.

(** [df.sample(n)]: [n] rows drawn without replacement by the global
    generator, [RandomState.choice(len(df), size=n, replace=False)].  It
    refuses to draw from no row at all, and then to draw more rows than
    there are. *)
Definition sample (n : nat) (df : DataFrame) : py DataFrame := λ w,
  if bool_decide (nrows df = 0 ∧ n ≠ 0)%nat then
    (raise (ValueError "a must be greater than 0 unless no samples are taken"), w)
  else if bool_decide (n ≤ nrows df)%nat then
    let '(rows, g) := choice (random_state w) (nrows df) n in
    (inr (df_take rows df),
     {| g_df := g_df w; stdout := stdout w; figure := figure w; cwd := cwd w; random_state := g |})
  else (raise (ValueError "Cannot take a larger sample than population when 'replace=False'"), w).

(** The double quote, for the messages that hold one. *)
Definition dquote : string := String (ascii_of_nat 34) EmptyString.

(** Python's [+] on two cells of a column of objects: strings are joined,
    numbers added, and nothing else adds up. *)
Definition add_object (a b : scalar) : result scalar :=
  match a, b with
  | Str x, Str y => mret (Str (x ++ y))
  | Num x, Num y => mret (Num (x + y))
  | Num _, Str _ => raise (TypeError "unsupported operand type(s) for +: 'int' and 'str'")
  | Str _, Num _ =>
      raise (TypeError ("can only concatenate str (not " ++ dquote ++ "int" ++ dquote ++ ") to str"))
  | Str _, Ts _ =>
      raise (TypeError ("can only concatenate str (not " ++ dquote ++ "Timestamp" ++ dquote ++ ") to str"))
  | Num _, Ts _ => raise (TypeError "unsupported operand type(s) for +: 'int' and 'Timestamp'")
  | Ts _, Str _ => raise (TypeError "unsupported operand type(s) for +: 'Timestamp' and 'str'")
  | Ts _, Num _ => raise (TypeError "unsupported operand type(s) for +: 'Timestamp' and 'int'")
  | Ts _, Ts _ => raise (TypeError "unsupported operand type(s) for +: 'Timestamp' and 'Timestamp'")
  end.

(** [sum] of one group of a column of objects: the cells that are there,
    added from the first on; the number 0 when none is. *)
Definition sum_object (cells : list (option scalar)) : result scalar :=
  match present cells with
  | [] => mret (Num 0)
  | v :: vs => foldl (λ acc u, a ← acc; add_object a u) (mret v) vs
  end.

(** Line 95, [groupby('Date_reported')['New_cases'].sum()]: a numeric
    column is added up, a column of objects goes through [+] (so that text
    is joined, and the plot of line 96 shows it by category), and
    timestamps have no sum. *)
Definition global_trend (df : DataFrame) : result (list (scalar * scalar)) :=
  ks ← getitem df "Date_reported";
  vs ← getitem df "New_cases";
  match vs with
  | float64 xs =>
      mret ((λ g : scalar * list (option Z), (g.1, Num (total g.2))) <$> groupby (values ks) xs)
  | object xs =>
      mapM (λ g : scalar * list (option scalar), s ← sum_object g.2; mret (g.1, s))
           (groupby (values ks) xs)
  | datetime64 _ => raise (TypeError "datetime64 type does not support sum operations")
  end.

(** [sort_values(ascending=True)]: smaller means first, NaN last. *)
Definition mean_leb (a b : option Q) : bool :=
  match a, b with
  | _, None => true
  | None, Some _ => false
  | Some x, Some y => Qle_bool x y
  end.

Definition by_mean_asc (a b : scalar * option Q) : Prop := Is_true (mean_leb a.2 b.2).

(** Line 109; equal means as for [country_ranking]. *)
Definition region_bars (df : DataFrame) : result (list (scalar * option Q)) :=
  gs ← grouped df "WHO_region" "New_cases";
  mret (merge_sort by_mean_asc ((λ g : scalar * list (option Z), (g.1, mean g.2)) <$> gs)).

(** A plot variable that seaborn looks up in [data]; a name that is no
    column is a ValueError there. *)
Definition plot_variable (df : DataFrame) (name : string) : result series :=
  match columns df !! name with
  | Some s => inr s
  | None => raise (ValueError name)
  end.

(** Line 134, the data of the scatter plot: x, y and hue of every row. *)
Definition scatter_points (df : DataFrame) : result (list (option scalar * option scalar * option scalar)) :=
  x ← plot_variable df "New_cases";
  y ← plot_variable df "New_deaths";
  hue ← plot_variable df "WHO_region";
  mret (zip (zip (values x) (values y)) (values hue)).

(** [plt.hist(x, bins=50)], line 122: the cells that are binned.  Numbers
    and timestamps are binned over the range of the values that are there,
    so that a column with cells but no value has no range to bin over; a
    column of strings is binned by category; strings do not mix with
    missing cells or with numbers. *)
Definition is_text (v : scalar) : bool :=
  match v with Str _ => true | _ => false end.

Definition hist (s : series) : result (list (option scalar)) :=
  let cells := values s in
  match present cells with
  | [] =>
      if bool_decide (cells = []) then mret cells
      else raise (ValueError "autodetected range of [nan, nan] is not finite")
  | v :: vs =>
      if forallb is_text (v :: vs) then
        if bool_decide (length (v :: vs) = length cells) then mret cells
        else raise (TypeError "'value' must be an instance of str or bytes, not a float")
      else if existsb is_text (v :: vs) then
        raise (TypeError "'value' must be an instance of str or bytes, not a int")
      else mret cells
  end.

Definition saved_files : list string :=
  ["Visualizations saved as PNG files:";
   "- global_cases_line.png (Line chart: Trends over time)";
   "- region_cases_bar.png (Bar chart: Comparison by region)";
   "- deaths_histogram.png (Histogram: Distribution)";
   "- cases_deaths_scatter.png (Scatter plot: Relationship between cases and deaths)"].

Definition task3_body : py unit :=
  df ← load_df;
  viz_df ← lift (since_2025 df);
  plt_figure;;
  trend ← lift (global_trend viz_df);
  plt_draw (LineChart trend);;
  plt_savefig "global_cases_line.png";;
  plt_close;;
  plt_figure;;
  bars ← lift (region_bars viz_df);
  plt_draw (BarChart bars);;
  plt_savefig "region_cases_bar.png";;
  plt_close;;
  plt_figure;;
  deaths ← lift (getitem viz_df "New_deaths");
  binned ← lift (hist deaths);
  plt_draw (Histogram 50 binned);;
  plt_savefig "deaths_histogram.png";;
  plt_close;;
  plt_figure;;
  drawn ← sample 1000 viz_df;
  points ← lift (scatter_points drawn);
  plt_draw (ScatterChart points);;
  plt_savefig "cases_deaths_scatter.png";;
  plt_close;;
  print_lines saved_files.

Definition task3 : py unit :=
  try_except task3_body [(cException, λ e, print (Error "Error during visualization: " e))].

(** ** The whole script *)

Definition observations : list string :=
  ["Overall Project Observations:";
   "- Data shows a decline in global COVID-19 activity in 2025 compared to peaks in 2020-2022, with ~63,000 new cases in July-August 2025 (per WHO).";
   "- Regional disparities persist: Americas and Europe report higher cases/deaths, likely due to population density and reporting rigor.";
   "- Visualizations reveal positive correlation between cases and deaths (scatter plot), skewed death distribution (histogram, many low days), and stable trends (line chart).";
   "- Limitations: Data may have reporting lags; underreporting in low-income regions. Future analysis could include vaccinations or variants.";
   "- Sources: WHO COVID-19 Global Data (updated August 2025). For latest, visit https://covid19.who.int/."].

Definition script (net : download) : py unit :=
  task1 net;;
  task2;;
  task3;;
  print_lines observations.

(** A fresh interpreter in a directory. *)
Definition boot (dir : gmap string chart) (seed : nat) : world :=
  {| g_df := None; stdout := []; figure := None; cwd := dir; random_state := seed |}.

Definition run (net : download) (dir : gmap string chart) (seed : nat) : result unit * world :=
  script net (boot dir seed).

End Script.

(** ** A date reader and a generator to run the script with

    The theorems hold for every reader [parse_datetime] and every generator
    [choice].  The tables below are run with [iso_datetime], which reads
    the one form the WHO file holds, YYYY-MM-DD, and the strings pandas
    takes for NaT, within the dates 64 bits of nanoseconds hold, and raises
    on anything else; [pd.to_datetime] reads more forms than this. *)

Definition nat_strings : list string := ["NaT"; "nat"; "NAT"; "nan"; "NaN"; "NAN"].

Definition digit (c : ascii) : option Z :=
  let n := Z.of_nat (nat_of_ascii c) in
  if bool_decide (48 ≤ n ≤ 57) then Some (n - 48) else None.

Definition number (cs : list ascii) : option Z :=
  foldl (λ acc c, a ← acc; d ← digit c; Some (10 * a + d)) (Some 0) cs.

Definition leap (y : Z) : bool :=
  bool_decide (y `mod` 4 = 0 ∧ (y `mod` 100 ≠ 0 ∨ y `mod` 400 = 0)).

Definition days_in_month (y m : Z) : Z :=
  if bool_decide (m = 2) then (if leap y then 29 else 28)
  else if bool_decide (m ∈ [4; 6; 9; 11]) then 30 else 31.

(** Days from 1970-01-01 to the civil date. *)
Definition days_from_civil (y m d : Z) : Z :=
  let y' := if bool_decide (m ≤ 2) then y - 1 else y in
  let era := y' `div` 400 in
  let yoe := y' - era * 400 in
  let doy := (153 * (if bool_decide (m ≤ 2) then m + 9 else m - 3) + 2) `div` 5 + d - 1 in
  let doe := yoe * 365 + yoe `div` 4 - yoe `div` 100 + doy in
  era * 146097 + doe - 719468.

Definition ns_per_day : Z := 86400 * 1000000000.

Definition iso_datetime (s : string) : option (option Z) :=
  if bool_decide (s ∈ nat_strings) then Some None
  else match list_ascii_of_string s with
       | [y1; y2; y3; y4; dash1; m1; m2; dash2; d1; d2] =>
           if bool_decide (dash1 = "-"%char ∧ dash2 = "-"%char) then
             y ← number [y1; y2; y3; y4];
             m ← number [m1; m2];
             d ← number [d1; d2];
             let t := days_from_civil y m d * ns_per_day in
             if bool_decide (1 ≤ m ≤ 12 ∧ 1 ≤ d ≤ days_in_month y m ∧ - 2 ^ 63 < t < 2 ^ 63)
             then Some (Some t)
             else None
           else None
       | _ => None
       end.

(** A generator that draws the [k] positions after its state, around the
    population. *)
Definition rotating_choice (g n k : nat) : list nat * nat :=
  (take k ((λ i, (i + g) `mod` n)%nat <$> seq 0 n), S g).

(** A frame with the default row labels. *)
Definition frame (n : nat) (cols : list (string * series)) : DataFrame :=
  {| index := seq 0 n; columns := list_to_map cols |}.

(** ** Vocabulary of the properties *)

(** A column without a missing cell. *)
Definition no_missing (s : series) : Prop := Forall is_Some (values s).

(** A cell holding a non-negative integer. *)
Definition nonneg_count (c : option scalar) : Prop := ∃ n, c = Some (Num n) ∧ 0 ≤ n.

(** Row [i] of a column holds a value. *)
Definition has_value (s : series) (i : nat) : Prop := is_Some (mjoin (values s !! i)).

#[global] Instance has_value_dec s i : Decision (has_value s i).
Proof. unfold has_value. apply _. Defined.

(** The rows of an [n]-row table with a date and a country code, in table
    order. *)
Definition kept_rows (d c : series) (n : nat) : list nat :=
  filter (λ i, has_value d i ∧ has_value c i) (seq 0 n).

(** Every row of a table is dated on or after 2025-01-01. *)
Definition on_or_after_cutoff (df : DataFrame) : Prop :=
  ∃ ts, columns df !! "Date_reported" = Some (datetime64 ts) ∧
        Forall (λ c : option Z, ∃ t, c = Some t ∧ cutoff ≤ t) ts.

(** The sum of a list of rationals. *)
Definition Qsum (qs : list Q) : Q := foldr Qplus 0%Q qs.

(** The sum over the regions of mean times row count, the means as
    computed, before line 69 rounds them. *)
Definition weighted_total (rs : list region_row) : Q :=
  Qsum ((λ r, default 0 (rg_mean r) * inject_Z (Z.of_nat (rg_size r)))%Q <$> rs).

(** The weighted total over the number of rows is the mean of new cases
    of the whole table. *)
Definition regions_recover_mean (df : DataFrame) : Prop :=
  ∀ rs xs m,
    region_means df = inr rs →
    columns df !! "New_cases" = Some (float64 xs) →
    mean xs = Some m →
    (weighted_total rs / inject_Z (Z.of_nat (nrows df)) == m)%Q.

(** [w'] is [w] with [out] printed after what was on the console, and
    nothing else changed. *)
Definition appends (w w' : world) (out : list output) : Prop :=
  g_df w' = g_df w ∧ stdout w' = stdout w ++ out ∧ figure w' = figure w ∧
  cwd w' = cwd w ∧ random_state w' = random_state w.

(** A computation whose result and printed output are functions of the
    table bound to [df], and that changes nothing but the console. *)
Definition reads_df_only {A} (m : py A) : Prop :=
  ∀ w1 w2, g_df w1 = g_df w2 →
    (m w1).1 = (m w2).1 ∧
    ∃ out, appends w1 (m w1).2 out ∧ appends w2 (m w2).2 out.

(** The script ends with an exception no guard caught. *)
Definition ends_with_error (r : result unit * world) : Prop := ∃ e, r.1 = inl e.

(** The fourth file of Task 3. *)
Definition scatter_file : string := "cases_deaths_scatter.png".

(** [w] after [out] is printed. *)
Definition emit (w : world) (out : list output) : world :=
  {| g_df := g_df w; stdout := stdout w ++ out; figure := figure w;
     cwd := cwd w; random_state := random_state w |}.

(** [w] after [df = v]. *)
Definition rebind (w : world) (v : DataFrame) : world :=
  {| g_df := Some v; stdout := stdout w; figure := figure w;
     cwd := cwd w; random_state := random_state w |}.

(** What lines 27-36 print of the table as read. *)
Definition preview (df : DataFrame) : list output :=
  [Line "First 5 Rows of the Dataset:"; Head (head 5 df);
   Line "Dataset Info:"; Info df; Line "None";
   Line "Missing Values:"; NullCounts (null_counts df)].

(** The prefixes of the two messages of lines 54 and 58. *)
Definition download_failed : string :=
  "Error: Failed to download dataset from URL. Please check internet connection or URL. Error: ".

Definition loading_failed : string := "Error during data loading: ".

(** The columns line 65 describes. *)
Definition described_columns : list string :=
  ["New_cases"; "New_deaths"; "Cumulative_cases"; "Cumulative_deaths"].

(** The statistics of a column with no value. *)
Definition no_stats : stats :=
  {| st_count := 0; st_mean := None; st_var := None; st_min := None;
     st_q25 := None; st_q50 := None; st_q75 := None; st_max := None |}.

(** The four files of Task 3, in the order they are saved. *)
Definition chart_files : list string :=
  ["global_cases_line.png"; "region_cases_bar.png"; "deaths_histogram.png";
   "cases_deaths_scatter.png"].

(** [m] is the mean of the values of [cells]: their sum over their number,
    and NaN when there is none. *)
Definition is_mean (m : option Q) (cells : list (option Z)) : Prop :=
  match m with
  | Some q =>
      present cells ≠ [] ∧
      (q * inject_Z (Z.of_nat (length (present cells))) == inject_Z (Zsum (present cells)))%Q
  | None => present cells = []
  end.

(** The order of a descending sort: [a] may come before [b] when it is no
    smaller, and NaN comes after every number. *)
Definition no_smaller (a b : option Q) : Prop :=
  match a, b with
  | _, None => True
  | None, Some _ => False
  | Some x, Some y => (y <= x)%Q
  end.

(** The order of an ascending sort, NaN after every number again. *)
Definition no_larger (a b : option Q) : Prop :=
  match a, b with
  | _, None => True
  | None, Some _ => False
  | Some x, Some y => (x <= y)%Q
  end.

(** The columns pandas adds up without rounding and without wrapping
    around: the absolute values add up to less than 2^53. *)
Definition adds_up_exactly (xs : list (option Z)) : Prop :=
  Zsum (Z.abs <$> present xs) < 2 ^ 53.

(** The distinct values of a column of keys, in their order. *)
Definition distinct_in_order (ks : list scalar) (keys : list (option scalar)) : Prop :=
  Sorted scalar_le ks ∧ NoDup ks ∧ ∀ k, k ∈ ks ↔ Some k ∈ keys.

(** ** Tables to run the script and the theorems on *)

(** The value of a result, or a default when it is an exception. *)
Definition result_or {A} (d : A) (r : result A) : A :=
  match r with inr x => x | inl _ => d end.

(** Four reports: the numeric fields have gaps at the start and after a
    value, and the last report has no date. *)
Definition gappy_table : DataFrame :=
  frame 4
    [("Date_reported", object [Some (Str "2025-01-01"); Some (Str "2025-01-02"); Some (Str "2025-01-03"); None]);
     ("Country_code", object [Some (Str "KE"); Some (Str "KE"); Some (Str "KE"); Some (Str "KE")]);
     ("Country", object [Some (Str "Kenya"); Some (Str "Kenya"); Some (Str "Kenya"); Some (Str "Kenya")]);
     ("WHO_region", object [Some (Str "AFRO"); Some (Str "AFRO"); Some (Str "AFRO"); Some (Str "AFRO")]);
     ("New_cases", float64 [None; Some 7; None; Some 9]);
     ("New_deaths", float64 [Some 1; None; None; Some 0]);
     ("Cumulative_cases", float64 [Some 10; Some 17; None; Some 26]);
     ("Cumulative_deaths", float64 [Some 1; Some 1; Some 1; Some 1])].

(** [gappy_table] at line 43. *)
Definition gappy_kept : DataFrame :=
  result_or gappy_table (identified iso_datetime gappy_table).

(** [gappy_table] after line 46. *)
Definition gappy_cleaned : DataFrame :=
  result_or gappy_table (clean iso_datetime gappy_table).

(** One report whose new cases are a downward correction. *)
Definition correction_table : DataFrame :=
  frame 1
    [("Date_reported", object [Some (Str "2025-04-01")]);
     ("Country_code", object [Some (Str "ES")]);
     ("Country", object [Some (Str "Spain")]);
     ("WHO_region", object [Some (Str "EURO")]);
     ("New_cases", float64 [Some (-74)]);
     ("New_deaths", float64 [Some 0]);
     ("Cumulative_cases", float64 [Some 13980340]);
     ("Cumulative_deaths", float64 [Some 121852])].

(** Reports of three countries, one before 2025, dates already converted. *)
Definition converted_table : DataFrame :=
  frame 4
    [("Date_reported", datetime64 [Some 1735689600000000000; Some 1735603200000000000;
                                   Some 1738368000000000000; Some 1738368000000000000]);
     ("Country_code", object [Some (Str "KE"); Some (Str "KE"); Some (Str "UG"); Some (Str "TZ")]);
     ("Country", object [Some (Str "Kenya"); Some (Str "Kenya"); Some (Str "Uganda"); Some (Str "Tanzania")]);
     ("WHO_region", object [Some (Str "AFRO"); Some (Str "AFRO"); Some (Str "AFRO"); Some (Str "AFRO")]);
     ("New_cases", float64 [Some 3; Some 5; Some 0; Some 8]);
     ("New_deaths", float64 [Some 0; Some 1; Some 0; Some 2]);
     ("Cumulative_cases", float64 [Some 30; Some 27; Some 11; Some 40]);
     ("Cumulative_deaths", float64 [Some 4; Some 4; Some 9; Some 2])].

(** Three reports whose dates [pd.to_datetime] rejects as a column: one
    has no readable date, one is of 31 December 2024 written day first. *)
Definition stale_table : DataFrame :=
  frame 3
    [("Date_reported", object [Some (Str "2025-01-05"); Some (Str "unknown"); Some (Str "31/12/2024")]);
     ("Country_code", object [Some (Str "KE"); Some (Str "KE"); Some (Str "KE")]);
     ("Country", object [Some (Str "Kenya"); Some (Str "Kenya"); Some (Str "Kenya")]);
     ("WHO_region", object [Some (Str "AFRO"); Some (Str "AFRO"); Some (Str "AFRO")]);
     ("New_cases", float64 [Some 4; Some 2; Some 9]);
     ("New_deaths", float64 [Some 0; Some 0; Some 1]);
     ("Cumulative_cases", float64 [Some 104; Some 106; Some 100]);
     ("Cumulative_deaths", float64 [Some 7; Some 7; Some 7])].

(** Two reports of 2025, the second with no WHO region. *)
Definition unassigned_table : DataFrame :=
  frame 2
    [("Date_reported", object [Some (Str "2025-03-01"); Some (Str "2025-03-01")]);
     ("Country_code", object [Some (Str "FR"); Some (Str "XX")]);
     ("Country", object [Some (Str "France"); Some (Str "International conveyance")]);
     ("WHO_region", object [Some (Str "EURO"); None]);
     ("New_cases", float64 [Some 2; Some 4]);
     ("New_deaths", float64 [Some 0; Some 0]);
     ("Cumulative_cases", float64 [Some 20; Some 40]);
     ("Cumulative_deaths", float64 [Some 1; Some 0])].

(** Three reports of two regions, one without a readable date and without
    new cases. *)
Definition unfilled_table : DataFrame :=
  frame 3
    [("Date_reported", object [Some (Str "2025-01-05"); Some (Str "unknown"); Some (Str "2025-01-06")]);
     ("Country_code", object [Some (Str "KE"); Some (Str "KE"); Some (Str "FR")]);
     ("Country", object [Some (Str "Kenya"); Some (Str "Kenya"); Some (Str "France")]);
     ("WHO_region", object [Some (Str "AFRO"); Some (Str "AFRO"); Some (Str "EURO")]);
     ("New_cases", float64 [Some 4; None; Some 8]);
     ("New_deaths", float64 [Some 0; Some 0; Some 1]);
     ("Cumulative_cases", float64 [Some 104; Some 104; Some 300]);
     ("Cumulative_deaths", float64 [Some 7; Some 7; Some 20])].

(** The whole file is one report of 2025. *)
Definition single_report : DataFrame :=
  frame 1
    [("Date_reported", object [Some (Str "2025-02-10")]);
     ("Country_code", object [Some (Str "KE")]);
     ("Country", object [Some (Str "Kenya")]);
     ("WHO_region", object [Some (Str "AFRO")]);
     ("New_cases", float64 [Some 12]);
     ("New_deaths", float64 [Some 1]);
     ("Cumulative_cases", float64 [Some 344000]);
     ("Cumulative_deaths", float64 [Some 5689])].

(** A cleaned table of 1001 reports of 1 January 2025. *)
Definition busy_table : DataFrame :=
  frame 1001
    [("Date_reported", datetime64 (replicate 1001 (Some cutoff)));
     ("Country_code", object (replicate 1001 (Some (Str "KE"))));
     ("Country", object (replicate 1001 (Some (Str "Kenya"))));
     ("WHO_region", object (replicate 1001 (Some (Str "AFRO"))));
     ("New_cases", float64 ((λ i, Some (Z.of_nat i)) <$> seq 0 1001));
     ("New_deaths", float64 (replicate 1001 (Some 0)));
     ("Cumulative_cases", float64 (replicate 1001 (Some 344000)));
     ("Cumulative_deaths", float64 (replicate 1001 (Some 5689)))].

(** A fresh interpreter in an empty directory with [df] bound to a table. *)
Definition world_with (df : DataFrame) : world := rebind (boot ∅ 0) df.

(** Two reports of a file that has no country-code column. *)
Definition no_code_table : DataFrame :=
  frame 2
    [("Date_reported", object [Some (Str "2025-01-01"); Some (Str "2025-01-02")]);
     ("New_cases", float64 [Some 1; None])].

(** [no_code_table] after line 40. *)
Definition no_code_converted : DataFrame :=
  result_or no_code_table (convert_dates iso_datetime no_code_table).

(** Two reports of 2025, dates converted, in a table without new deaths. *)
Definition no_deaths_table : DataFrame :=
  frame 2
    [("Date_reported", datetime64 [Some 1738368000000000000; Some 1738368000000000000]);
     ("Country_code", object [Some (Str "KE"); Some (Str "UG")]);
     ("Country", object [Some (Str "Kenya"); Some (Str "Uganda")]);
     ("WHO_region", object [Some (Str "AFRO"); Some (Str "AFRO")]);
     ("New_cases", float64 [Some 3; Some 5]);
     ("Cumulative_cases", float64 [Some 30; Some 27]);
     ("Cumulative_deaths", float64 [Some 4; Some 4])].

(** Two reports of December 2024, dates converted. *)
Definition old_table : DataFrame :=
  frame 2
    [("Date_reported", datetime64 [Some 1735603200000000000; Some 1735516800000000000]);
     ("Country_code", object [Some (Str "KE"); Some (Str "UG")]);
     ("Country", object [Some (Str "Kenya"); Some (Str "Uganda")]);
     ("WHO_region", object [Some (Str "AFRO"); Some (Str "AFRO")]);
     ("New_cases", float64 [Some 3; Some 5]);
     ("New_deaths", float64 [Some 0; Some 1]);
     ("Cumulative_cases", float64 [Some 30; Some 27]);
     ("Cumulative_deaths", float64 [Some 4; Some 4])].

(** Fifteen reports of twelve countries in five regions, as read: one of
    December 2024, two countries with a second report a week later, and two
    reports without new cases. *)
Definition regional_table : DataFrame :=
  frame 15
    [("Date_reported",
      object ((λ d, Some (Str d)) <$>
              ["2024-12-29"; "2025-01-05"; "2025-01-05"; "2025-01-05"; "2025-01-05";
               "2025-01-05"; "2025-01-05"; "2025-01-05"; "2025-01-05"; "2025-01-05";
               "2025-01-05"; "2025-01-05"; "2025-01-05"; "2025-01-12"; "2025-01-12"]));
     ("Country_code",
      object ((λ c, Some (Str c)) <$>
              ["JP"; "KE"; "UG"; "GH"; "FR"; "ES"; "IT"; "BR"; "PE"; "CL"; "IN"; "NP"; "JP";
               "KE"; "FR"]));
     ("Country",
      object ((λ c, Some (Str c)) <$>
              ["Japan"; "Kenya"; "Uganda"; "Ghana"; "France"; "Spain"; "Italy"; "Brazil";
               "Peru"; "Chile"; "India"; "Nepal"; "Japan"; "Kenya"; "France"]));
     ("WHO_region",
      object ((λ r, Some (Str r)) <$>
              ["WPRO"; "AFRO"; "AFRO"; "AFRO"; "EURO"; "EURO"; "EURO"; "AMRO"; "AMRO";
               "AMRO"; "SEARO"; "SEARO"; "WPRO"; "AFRO"; "EURO"]));
     ("New_cases",
      float64 [Some 50; Some 3; None; Some 6; Some 20; Some 14; None; Some 40; Some 9;
               Some 5; Some 30; Some 2; Some 8; Some 4; Some 10]);
     ("New_deaths",
      float64 [Some 1; Some 0; Some 0; Some 1; Some 2; Some 1; Some 3; Some 5; Some 1;
               Some 0; Some 4; Some 0; Some 1; Some 1; Some 1]);
     ("Cumulative_cases",
      float64 [Some 900; Some 30; Some 11; Some 25; Some 400; Some 350; Some 500; Some 800;
               Some 90; Some 60; Some 700; Some 20; Some 908; Some 34; Some 410]);
     ("Cumulative_deaths",
      float64 [Some 70; Some 4; Some 9; Some 12; Some 160; Some 120; Some 190; Some 700;
               Some 220; Some 60; Some 530; Some 13; Some 71; Some 5; Some 161])].

(** [regional_table] after line 46, and its 2025 window. *)
Definition regional_cleaned : DataFrame :=
  result_or regional_table (clean iso_datetime regional_table).

Definition regional_window : DataFrame :=
  result_or regional_table (since_2025 regional_cleaned).

(** The columns of [regional_window]. *)
Definition regional_dates : series :=
  datetime64 (replicate 12 (Some 1736035200000000000) ++ replicate 2 (Some 1736640000000000000)).

Definition regional_region_column : series :=
  object ((λ r, Some (Str r)) <$>
          ["AFRO"; "AFRO"; "AFRO"; "EURO"; "EURO"; "EURO"; "AMRO"; "AMRO"; "AMRO"; "SEARO";
           "SEARO"; "WPRO"; "AFRO"; "EURO"]).

Definition regional_country_column : series :=
  object ((λ c, Some (Str c)) <$>
          ["Kenya"; "Uganda"; "Ghana"; "France"; "Spain"; "Italy"; "Brazil"; "Peru"; "Chile";
           "India"; "Nepal"; "Japan"; "Kenya"; "France"]).

Definition regional_new_cases : list (option Z) :=
  [Some 3; Some 3; Some 6; Some 20; Some 14; Some 14; Some 40; Some 9; Some 5; Some 30;
   Some 2; Some 8; Some 4; Some 10].

Definition regional_new_deaths : list (option Z) :=
  [Some 0; Some 0; Some 1; Some 2; Some 1; Some 3; Some 5; Some 1; Some 0; Some 4; Some 0;
   Some 1; Some 1; Some 1].

Definition regional_cumulative_cases : list (option Z) :=
  [Some 30; Some 11; Some 25; Some 400; Some 350; Some 500; Some 800; Some 90; Some 60;
   Some 700; Some 20; Some 908; Some 34; Some 410].

Definition regional_cumulative_deaths : list (option Z) :=
  [Some 4; Some 9; Some 12; Some 160; Some 120; Some 190; Some 700; Some 220; Some 60;
   Some 530; Some 13; Some 71; Some 5; Some 161].

(** The series of lines 95 and 109 on [regional_window]. *)
Definition regional_trend : list (scalar * scalar) :=
  [(Ts 1736035200000000000, Num 154); (Ts 1736640000000000000, Num 14)].

Definition regional_bars : list (scalar * option Q) :=
  [(Str "AFRO", Some (16 # 4)%Q); (Str "WPRO", Some (8 # 1)%Q); (Str "EURO", Some (58 # 4)%Q);
   (Str "SEARO", Some (32 # 2)%Q); (Str "AMRO", Some (54 # 3)%Q)].

(** A cleaned table of 1200 reports of two days and two regions. *)
Definition crowded_dates : series :=
  datetime64 ((λ i, Some (cutoff + Z.of_nat (i `mod` 2) * ns_per_day)) <$> seq 0 1200).

Definition crowded_regions : series :=
  object ((λ i, Some (Str (if (i `mod` 3 =? 0)%nat then "AFRO" else "EURO"))) <$> seq 0 1200).

Definition crowded_new_cases : list (option Z) :=
  (λ i, Some (Z.of_nat i)) <$> seq 0 1200.

Definition crowded_new_deaths : list (option Z) :=
  (λ i, Some (Z.of_nat (i `mod` 5))) <$> seq 0 1200.

Definition crowded_table : DataFrame :=
  frame 1200
    [("Date_reported", crowded_dates);
     ("Country_code", object (replicate 1200 (Some (Str "KE"))));
     ("Country", object (replicate 1200 (Some (Str "Kenya"))));
     ("WHO_region", crowded_regions);
     ("New_cases", float64 crowded_new_cases);
     ("New_deaths", float64 crowded_new_deaths);
     ("Cumulative_cases", float64 (replicate 1200 (Some 344000)));
     ("Cumulative_deaths", float64 (replicate 1200 (Some 5689)))].

(** The ranking of line 74 on [regional_window], and what is reported. *)
Definition regional_ranking : list (scalar * option Q) :=
  [(Str "Brazil", Some 700%Q); (Str "India", Some 530%Q); (Str "Peru", Some 220%Q);
   (Str "Italy", Some 190%Q); (Str "France", Some (321 # 2)%Q); (Str "Spain", Some 120%Q);
   (Str "Japan", Some 71%Q); (Str "Chile", Some 60%Q); (Str "Nepal", Some 13%Q);
   (Str "Ghana", Some 12%Q); (Str "Uganda", Some 9%Q); (Str "Kenya", Some (9 # 2)%Q)].

Definition regional_top : list (scalar * option Q) :=
  [(Str "Brazil", Some 700%Q); (Str "India", Some 530%Q); (Str "Peru", Some 220%Q);
   (Str "Italy", Some 190%Q); (Str "France", Some (321 # 2)%Q); (Str "Spain", Some 120%Q);
   (Str "Japan", Some 71%Q); (Str "Chile", Some 60%Q); (Str "Nepal", Some 13%Q);
   (Str "Ghana", Some 12%Q)].

(** The aggregate of line 69 on [regional_window], before rounding. *)
Definition regional_regions : list region_row :=
  [{| rg_key := Str "AFRO"; rg_mean := Some (16 # 4)%Q; rg_sum := 16; rg_size := 4 |};
   {| rg_key := Str "AMRO"; rg_mean := Some (54 # 3)%Q; rg_sum := 54; rg_size := 3 |};
   {| rg_key := Str "EURO"; rg_mean := Some (58 # 4)%Q; rg_sum := 58; rg_size := 4 |};
   {| rg_key := Str "SEARO"; rg_mean := Some (32 # 2)%Q; rg_sum := 32; rg_size := 2 |};
   {| rg_key := Str "WPRO"; rg_mean := Some (8 # 1)%Q; rg_sum := 8; rg_size := 1 |}].

(** * Properties *)

(** ** Results *)

Lemma bind_inr {A B} (m : result A) (f : A → result B) (y : B) :
  m ≫= f = inr y → ∃ x, m = inr x ∧ f x = inr y.
Proof. destruct m as [e|x]; [discriminate | eauto]. Qed.

Lemma fmap_inr {A B} (f : A → B) (m : result A) (y : B) :
  f <$> m = inr y → ∃ x, m = inr x ∧ y = f x.
Proof. destruct m as [e|x]; [discriminate |]. intros [= <-]. eauto. Qed.


(** ** Masks *)

Lemma compress_fmap {A B} (f : A → B) (mask : list bool) (xs : list A) :
  compress mask (f <$> xs) = f <$> compress mask xs.
Proof.
  revert xs. induction mask as [|b mask IH]; intros [|x xs]; cbn; try done.
  destruct b; cbn; by rewrite IH.
Qed.

Lemma values_compress (mask : list bool) (s : series) :
  values (series_compress mask s) = compress mask (values s).
Proof. destruct s; cbn; unfold boxed; by rewrite ?compress_fmap. Qed.

Lemma compress_Forall {A} (P : A → Prop) (mask : list bool) (xs : list A) :
  (∀ i x, mask !! i = Some true → xs !! i = Some x → P x) →
  Forall P (compress mask xs).
Proof.
  revert xs. induction mask as [|b mask IH]; intros [|x xs] H; cbn; try constructor.
  destruct b.
  - constructor; [apply (H 0%nat); done |].
    apply IH. intros i y Hm Hx. apply (H (S i)); done.
  - apply IH. intros i y Hm Hx. apply (H (S i)); done.
Qed.

Lemma compress_sublist {A} (mask : list bool) (xs : list A) :
  compress mask xs `sublist_of` xs.
Proof.
  revert xs. induction mask as [|b mask IH]; intros [|x xs]; cbn;
    try apply sublist_nil_l.
  destruct b; [apply sublist_skip | apply sublist_cons]; apply IH.
Qed.

Lemma zip_with_andb_true (m1 m2 : list bool) (i : nat) :
  zip_with andb m1 m2 !! i = Some true ↔ m1 !! i = Some true ∧ m2 !! i = Some true.
Proof.
  rewrite lookup_zip_with_Some. split.
  - intros (a & b & Hab & ? & ?). symmetry in Hab.
    apply andb_true_iff in Hab as [-> ->]. done.
  - intros [? ?]. by exists true, true.
Qed.

Lemma notna_true (s : series) (i : nat) :
  notna s !! i = Some true ↔ ∃ v, values s !! i = Some (Some v).
Proof.
  unfold notna. rewrite list_lookup_fmap. split.
  - destruct (values s !! i) as [[v|]|]; cbn; intros H; [eauto | | done].
    discriminate H.
  - intros [v ->]. reflexivity.
Qed.

(** The mask of [dropna] for the two identifying columns. *)
Lemma row_mask_true (df : DataFrame) (d c : series) (i : nat) :
  row_mask df [d; c] !! i = Some true ↔
  (∃ v, values d !! i = Some (Some v)) ∧ (∃ v, values c !! i = Some (Some v)) ∧
  (i < nrows df)%nat.
Proof.
  unfold row_mask; cbn. rewrite !zip_with_andb_true, !notna_true.
  rewrite lookup_replicate. intuition.
Qed.

(** ** Forward fill *)

Lemma ffill_from_length {A} (last : option A) (xs : list (option A)) :
  length (ffill_from last xs) = length xs.
Proof. revert last. induction xs as [|[v|] xs IH]; intros last; cbn; auto. Qed.

Lemma ffill_from_present {A} (last : option A) (xs : list (option A)) i v :
  xs !! i = Some (Some v) → ffill_from last xs !! i = Some (Some v).
Proof.
  revert last i. induction xs as [|[w|] xs IH]; intros last [|i]; cbn; try done.
  all: apply IH.
Qed.

(** A gap right after a value takes that value. *)
Lemma ffill_from_after {A} (last : option A) (xs : list (option A)) i v :
  xs !! i = Some (Some v) → xs !! S i = Some None →
  ffill_from last xs !! S i = Some (Some v).
Proof.
  revert last i. induction xs as [|[w|] xs IH]; intros last [|i]; cbn; try done.
  - intros [= ->]. destruct xs as [|[u|] xs]; cbn; done.
  - apply IH.
  - apply IH.
Qed.

(** With no value before it, a gap keeps what the fill started from. *)
Lemma ffill_from_leading {A} (last : option A) (xs : list (option A)) i :
  (∀ j, (j ≤ i)%nat → xs !! j = Some None) →
  ffill_from last xs !! i = Some last.
Proof.
  revert last i. induction xs as [|[w|] xs IH]; intros last i H; cbn.
  - specialize (H 0%nat ltac:(lia)). done.
  - specialize (H 0%nat ltac:(lia)). done.
  - destruct i as [|i]; [done |]. cbn. apply IH.
    intros j Hj. apply (H (S j)). lia.
Qed.

(** Every filled cell is a value of the column or what the fill started from. *)
Lemma ffill_from_elem {A} (last : option A) (xs : list (option A)) c :
  c ∈ ffill_from last xs → c = last ∨ (∃ v, c = Some v ∧ Some v ∈ xs).
Proof.
  revert last. induction xs as [|[w|] xs IH]; intros last; cbn.
  - intros H. by apply elem_of_nil in H.
  - rewrite elem_of_cons. intros [->|H].
    + right. exists w. split; [done | left].
    + apply IH in H as [->|(v & -> & ?)]; right.
      * exists w. split; [done | left].
      * exists v. split; [done | by right].
  - rewrite elem_of_cons. intros [->|H]; [by left |].
    apply IH in H as [->|(v & -> & ?)]; [by left | right].
    exists v. split; [done | by right].
Qed.

Lemma fillna_lookup {A} (v : A) (xs : list (option A)) i :
  fillna v xs !! i = (λ c, Some (default v c)) <$> xs !! i.
Proof. unfold fillna. by rewrite list_lookup_fmap. Qed.


Lemma boxed_ffill {A} (f : A → scalar) (last : option A) (xs : list (option A)) :
  boxed f (ffill_from last xs) = ffill_from (f <$> last) (boxed f xs).
Proof.
  revert last. induction xs as [|[v|] xs IH]; intros last; cbn; try done.
  - f_equal. apply (IH (Some v)).
  - f_equal. apply IH.
Qed.

Lemma boxed_ffill_start {A} (f : A → scalar) (xs : list (option A)) :
  boxed f (ffill xs) = ffill (boxed f xs).
Proof. apply (boxed_ffill f None). Qed.

Lemma boxed_fillna {A} (f : A → scalar) (v : A) (xs : list (option A)) :
  boxed f (fillna v xs) = fillna (f v) (boxed f xs).
Proof.
  unfold boxed, fillna. rewrite <- !list_fmap_compose.
  apply list_fmap_ext. intros ? [?|] ?; done.
Qed.

(** What lines 45-46 do to a column, cell by cell. *)
Lemma values_fill (s : series) :
  values (series_fillna0 (series_ffill s)) = fillna (Num 0) (ffill (values s)).
Proof.
  destruct s; cbn; try done.
  - by rewrite boxed_fillna, boxed_ffill_start.
  - by rewrite boxed_ffill_start.
Qed.

(** ** The fill loop *)

Lemma fill_column_lookup (df : DataFrame) (column name : string) :
  columns (fill_column df column) !! name =
  if decide (column = name)
  then (λ s, series_fillna0 (series_ffill s)) <$> columns df !! name
  else columns df !! name.
Proof.
  unfold fill_column. case_decide as Hn.
  - subst. destruct (columns df !! name) as [s|] eqn:E; cbn.
    + by rewrite lookup_insert_eq.
    + by rewrite E.
  - destruct (columns df !! column); cbn; [by rewrite lookup_insert_ne | done].
Qed.

Lemma fill_column_index (df : DataFrame) (column : string) :
  index (fill_column df column) = index df.
Proof. unfold fill_column. by destruct (columns df !! column). Qed.

(** The loop fills each of the four columns once and no other. *)
Lemma fill_numeric_lookup (df : DataFrame) (name : string) :
  columns (fill_numeric df) !! name =
  if decide (name ∈ numeric_columns)
  then (λ s, series_fillna0 (series_ffill s)) <$> columns df !! name
  else columns df !! name.
Proof.
  unfold fill_numeric, numeric_columns. cbn [foldl].
  rewrite !fill_column_lookup.
  repeat case_decide; subst; try done; set_solver.
Qed.

Lemma fill_numeric_index (df : DataFrame) : index (fill_numeric df) = index df.
Proof. unfold fill_numeric. cbn. by rewrite !fill_column_index. Qed.

(** ** Lines 40-42 *)

Section CleaningFacts.

Variable parse_datetime : string → option (option Z).

Lemma convert_dates_inr (df df1 : DataFrame) :
  convert_dates parse_datetime df = inr df1 →
  ∃ s d, columns df !! "Date_reported" = Some s ∧
         to_datetime parse_datetime s = inr d ∧
         df1 = setitem df "Date_reported" d.
Proof.
  unfold convert_dates, getitem. intros H.
  destruct (columns df !! "Date_reported") as [s|]; [|discriminate].
  cbn in H. destruct (to_datetime parse_datetime s) as [e|d] eqn:E; [discriminate|].
  cbn in H. injection H as <-. by exists s, d.
Qed.

Lemma drop_incomplete_inr (df df2 : DataFrame) :
  drop_incomplete df = inr df2 →
  ∃ d c, columns df !! "Date_reported" = Some d ∧
         columns df !! "Country_code" = Some c ∧
         df2 = df_compress (row_mask df [d; c]) df.
Proof.
  unfold drop_incomplete, dropna, getitem. cbn. intros H.
  destruct (columns df !! "Date_reported") as [d|]; [|discriminate].
  destruct (columns df !! "Country_code") as [c|]; [|discriminate].
  injection H as <-. by exists d, c.
Qed.

(** The table at line 43: its date and country-code columns are full. *)
Lemma identified_full (df df2 : DataFrame) :
  identified parse_datetime df = inr df2 →
  (∃ d, columns df2 !! "Date_reported" = Some d ∧ no_missing d) ∧
  (∃ c, columns df2 !! "Country_code" = Some c ∧ no_missing c).
Proof.
  intros H. apply bind_inr in H as (df1 & _ & H).
  apply drop_incomplete_inr in H as (d & c & Hd & Hc & ->).
  cbn. rewrite !lookup_fmap, Hd, Hc. cbn. split.
  - eexists. split; [done |]. unfold no_missing. rewrite values_compress.
    apply compress_Forall. intros i x Hm Hx.
    apply row_mask_true in Hm as ([v Hv] & _ & _). rewrite Hv in Hx.
    injection Hx as <-. eauto.
  - eexists. split; [done |]. unfold no_missing. rewrite values_compress.
    apply compress_Forall. intros i x Hm Hx.
    apply row_mask_true in Hm as (_ & [v Hv] & _). rewrite Hv in Hx.
    injection Hx as <-. eauto.
Qed.

Lemma fill_no_missing (s : series) : no_missing (series_fillna0 (series_ffill s)).
Proof.
  unfold no_missing. rewrite values_fill. unfold fillna.
  apply Forall_fmap, Forall_true. intros c. cbn. eauto.
Qed.

Lemma clean_full (df df' : DataFrame) :
  clean parse_datetime df = inr df' →
  (∃ d, columns df' !! "Date_reported" = Some d ∧ no_missing d) ∧
  (∃ c, columns df' !! "Country_code" = Some c ∧ no_missing c) ∧
  (∀ name s, name ∈ numeric_columns → columns df' !! name = Some s → no_missing s).
Proof.
  intros H. apply bind_inr in H as (df2 & H2 & [= <-]).
  destruct (identified_full _ _ H2) as [(d & Hd & Fd) (c & Hc & Fc)].
  split; [|split].
  - exists d. split; [|done]. rewrite fill_numeric_lookup.
    rewrite decide_False; [done | set_solver].
  - exists c. split; [|done]. rewrite fill_numeric_lookup.
    rewrite decide_False; [done | set_solver].
  - intros name s Hn. rewrite fill_numeric_lookup, decide_True by done.
    destruct (columns df2 !! name) as [s0|]; [|discriminate].
    intros [= <-]. apply fill_no_missing.
Qed.

(** Cleaning neither adds a column nor drops one. *)
Lemma clean_keeps_columns (df df' : DataFrame) (name : string) :
  clean parse_datetime df = inr df' →
  is_Some (columns df' !! name) ↔ is_Some (columns df !! name).
Proof.
  intros H. apply bind_inr in H as (df2 & H2 & [= <-]).
  apply bind_inr in H2 as (df1 & H1 & H2).
  apply convert_dates_inr in H1 as (s & d & Hs & Hd & ->).
  apply drop_incomplete_inr in H2 as (d' & c & _ & _ & ->).
  rewrite fill_numeric_lookup.
  assert (is_Some (columns (df_compress (row_mask (setitem df "Date_reported" d) [d'; c])
                                        (setitem df "Date_reported" d)) !! name) ↔
          is_Some (columns df !! name)) as Hsame.
  { cbn. rewrite lookup_fmap, fmap_is_Some.
    destruct (decide (name = "Date_reported")) as [->|Hne].
    - rewrite lookup_insert_eq, Hs. split; eauto.
    - by rewrite lookup_insert_ne. }
  case_decide; [|done]. by rewrite fmap_is_Some.
Qed.

(** C1.  For every input table on which the cleaning stage (lines 40-46)
    completes: the cleaned table has the columns of the input, its date
    column and its country-code column have no missing cell, and none of
    New_cases, New_deaths, Cumulative_cases and Cumulative_deaths that is
    a column of the table has a missing cell. *)
Theorem clean_no_missing (df df' : DataFrame) :
  clean parse_datetime df = inr df' →
  (∃ d, columns df' !! "Date_reported" = Some d ∧ no_missing d) ∧
  (∃ c, columns df' !! "Country_code" = Some c ∧ no_missing c) ∧
  (∀ name, is_Some (columns df' !! name) ↔ is_Some (columns df !! name)) ∧
  (∀ s, columns df' !! "New_cases" = Some s → no_missing s) ∧
  (∀ s, columns df' !! "New_deaths" = Some s → no_missing s) ∧
  (∀ s, columns df' !! "Cumulative_cases" = Some s → no_missing s) ∧
  (∀ s, columns df' !! "Cumulative_deaths" = Some s → no_missing s).
Proof.
  intros H. destruct (clean_full df df' H) as (Hd & Hc & Hnum).
  split; [done |]. split; [done |].
  split; [intros name; by apply clean_keeps_columns |].
  split_and!; intros s; apply Hnum; unfold numeric_columns; set_solver.
Qed.

Lemma identified_inr (df df2 : DataFrame) :
  identified parse_datetime df = inr df2 →
  ∃ s d c, columns df !! "Date_reported" = Some s ∧
           to_datetime parse_datetime s = inr d ∧
           columns df !! "Country_code" = Some c ∧
           df2 = df_compress (row_mask df [d; c]) (setitem df "Date_reported" d).
Proof.
  intros H. apply bind_inr in H as (df1 & H1 & H).
  apply convert_dates_inr in H1 as (s & d & Hs & Hd & ->).
  apply drop_incomplete_inr in H as (d' & c & Hd' & Hc & ->).
  cbn in Hd', Hc. rewrite lookup_insert_eq in Hd'. injection Hd' as <-.
  rewrite lookup_insert_ne in Hc by done.
  by exists s, d, c.
Qed.



(** C6, as the code has it.  After cleaning, each of the four numeric
    columns that is present has no missing cell; its cells are
    non-negative integers provided every value present in that column of
    the input was one: cleaning copies values and writes 0, it checks no
    sign. *)
Theorem clean_counts (df df' : DataFrame) (name : string) (s : series) :
  clean parse_datetime df = inr df' →
  name ∈ numeric_columns →
  columns df' !! name = Some s →
  no_missing s ∧
  (∀ s0, columns df !! name = Some s0 →
         Forall (λ c, c = None ∨ nonneg_count c) (values s0) →
         Forall nonneg_count (values s)).
Proof.
  intros H Hn Hs. split.
  { destruct (clean_full df df' H) as (_ & _ & Hfull). by apply (Hfull name). }
  intros s0 Hs0 Hpos.
  apply bind_inr in H as (df2 & H2 & [= <-]).
  apply identified_inr in H2 as (sd & d & c & _ & _ & _ & ->).
  rewrite fill_numeric_lookup, decide_True in Hs by done.
  cbn in Hs. rewrite lookup_fmap, lookup_insert_ne, Hs0 in Hs by set_solver.
  cbn in Hs. injection Hs as <-.
  rewrite values_fill, values_compress. unfold fillna.
  apply Forall_fmap, Forall_forall. intros cell Hcell. cbn.
  apply ffill_from_elem in Hcell as [->|(v & -> & Hv)].
  - exists 0. done.
  - cbn. apply elem_of_sublist with (l2 := values s0) in Hv;
      [|apply compress_sublist].
    rewrite Forall_forall in Hpos. destruct (Hpos _ Hv) as [?|?]; done.
Qed.


Lemma filter_seq_shift (P : nat → Prop) `{!∀ i, Decision (P i)} (j n : nat) :
  filter P (seq (S j) n) = S <$> filter (λ i, P (S i)) (seq j n).
Proof.
  revert j. induction n as [|n IH]; intros j; [done |].
  cbn [seq]. rewrite !filter_cons. rewrite IH.
  destruct (decide (P (S j))); done.
Qed.

Lemma filter_ext_elem {A} (P Q : A → Prop) `{!∀ x, Decision (P x), !∀ x, Decision (Q x)}
    (l : list A) :
  (∀ x, x ∈ l → P x ↔ Q x) → filter P l = filter Q l.
Proof.
  induction l as [|x l IH]; intros Hext; [done |].
  rewrite !filter_cons. rewrite IH by (intros y Hy; apply Hext; by right).
  destruct (decide (P x)) as [HP|HP], (decide (Q x)) as [HQ|HQ]; try done.
  - apply Hext in HP; [done | left].
  - apply Hext in HQ; [done | left].
Qed.

Lemma omap_lookup_nil {A} (l : list nat) : omap (λ i, (@nil A) !! i) l = [].
Proof. induction l; done. Qed.

Lemma omap_shift {A} (x : A) (xs : list A) (l : list nat) :
  omap (λ i, (x :: xs) !! i) (S <$> l) = omap (λ i, xs !! i) l.
Proof. induction l as [|i l IH]; [done |]. cbn. by rewrite IH. Qed.

(** A mask selects the cells at the positions where it is true. *)
Lemma compress_positions {A} (mask : list bool) (xs : list A) (n : nat) :
  (length mask ≤ n)%nat →
  compress mask xs = omap (xs !!.) (filter (λ i, mask !! i = Some true) (seq 0 n)).
Proof.
  revert xs n. induction mask as [|b mask IH]; intros xs n Hn.
  - cbn. replace (filter _ (seq 0 n)) with (@nil nat); [done |].
    symmetry. clear. generalize 0%nat. induction n as [|n IH]; intros j; [done |].
    cbn [seq]. rewrite filter_cons_False by done. apply IH.
  - destruct n as [|n]; cbn in Hn; [lia |].
    destruct xs as [|x xs].
    { cbn. by rewrite omap_lookup_nil. }
    cbn [seq]. rewrite filter_cons, filter_seq_shift.
    cbn [compress]. rewrite (IH xs n) by lia.
    destruct b.
    + rewrite decide_True by done. cbn [omap]. cbn. by rewrite omap_shift.
    + rewrite decide_False by done. by rewrite omap_shift.
Qed.

Lemma series_compress_take (mask : list bool) (s : series) (n : nat) :
  (length mask ≤ n)%nat →
  series_compress mask s =
  series_take (filter (λ i, mask !! i = Some true) (seq 0 n)) s.
Proof. intros Hn. destruct s; cbn; by rewrite (compress_positions _ _ n). Qed.

Lemma has_value_lookup (s : series) (i : nat) :
  has_value s i ↔ ∃ v, values s !! i = Some (Some v).
Proof.
  unfold has_value. destruct (values s !! i) as [[v|]|]; cbn; split.
  all: try (intros [v' [=]]); try (intros [? [=]]); eauto.
Qed.

Lemma row_mask_length (df : DataFrame) (cols : list series) :
  (length (row_mask df cols) ≤ nrows df)%nat.
Proof.
  unfold row_mask. induction cols as [|s cols IH]; cbn.
  - by rewrite length_replicate.
  - rewrite length_zip_with. lia.
Qed.

Lemma row_mask_kept (df : DataFrame) (d c : series) :
  filter (λ i, row_mask df [d; c] !! i = Some true) (seq 0 (nrows df)) =
  kept_rows d c (nrows df).
Proof.
  unfold kept_rows. apply filter_ext_elem. intros i Hi.
  apply elem_of_seq in Hi. rewrite row_mask_true, !has_value_lookup.
  intuition lia.
Qed.

(** Lines 40-42 select the rows of [kept_rows], from every column. *)
Lemma identified_take (df df2 : DataFrame) :
  identified parse_datetime df = inr df2 →
  ∃ s d c, columns df !! "Date_reported" = Some s ∧
           to_datetime parse_datetime s = inr d ∧
           columns df !! "Country_code" = Some c ∧
           df2 = df_take (kept_rows d c (nrows df)) (setitem df "Date_reported" d).
Proof.
  intros H. apply identified_inr in H as (s & d & c & Hs & Hd & Hc & ->).
  exists s, d, c. split_and!; try done.
  unfold df_compress, df_take. cbn [index columns setitem]. f_equal.
  - rewrite (compress_positions _ _ (nrows df)) by apply row_mask_length.
    by rewrite row_mask_kept.
  - apply map_fmap_ext. intros name col _.
    rewrite (series_compress_take _ _ (nrows df)) by apply row_mask_length.
    by rewrite row_mask_kept.
Qed.

Lemma filter_seq_sorted (P : nat → Prop) `{!∀ i, Decision (P i)} (j n : nat) :
  StronglySorted lt (filter P (seq j n)).
Proof.
  revert j. induction n as [|n IH]; intros j; [constructor |].
  cbn [seq]. rewrite filter_cons. destruct (decide (P j)); [|apply IH].
  constructor; [apply IH |].
  apply Forall_forall. intros i Hi.
  apply list_elem_of_filter in Hi as [_ Hi]. apply elem_of_seq in Hi. lia.
Qed.

Lemma kept_rows_spec (d c : series) (n i : nat) :
  i ∈ kept_rows d c n ↔ (i < n)%nat ∧ has_value d i ∧ has_value c i.
Proof.
  unfold kept_rows. rewrite list_elem_of_filter, elem_of_seq. intuition lia.
Qed.

Lemma fill_length (s : series) : len (series_fillna0 (series_ffill s)) = len s.
Proof.
  unfold len. rewrite values_fill. unfold fillna, ffill.
  by rewrite length_fmap, ffill_from_length.
Qed.

Lemma fill_keeps (s : series) (j : nat) (v : scalar) :
  values s !! j = Some (Some v) →
  values (series_fillna0 (series_ffill s)) !! j = Some (Some v).
Proof.
  intros H. rewrite values_fill, fillna_lookup. unfold ffill.
  by rewrite (ffill_from_present None _ j v).
Qed.

(** C2.  For every input table and each of the four numeric columns, in
    the series the fill is called on (the column of the rows kept by line
    42, in row order): a missing value right after a valid one becomes
    that value, and a missing value with no valid value before it
    becomes 0. *)
Theorem forward_fill_then_zero (df df2 : DataFrame) (name : string) (s : series) :
  identified parse_datetime df = inr df2 →
  name ∈ numeric_columns →
  columns df2 !! name = Some s →
  clean parse_datetime df = inr (fill_numeric df2) ∧
  (∃ dates d c s0,
     columns df !! "Date_reported" = Some dates ∧
     to_datetime parse_datetime dates = inr d ∧
     columns df !! "Country_code" = Some c ∧
     columns df !! name = Some s0 ∧
     s = series_take (kept_rows d c (nrows df)) s0) ∧
  ∃ s', columns (fill_numeric df2) !! name = Some s' ∧
    (∀ i v, values s !! S i = Some None → values s !! i = Some (Some v) →
            values s' !! S i = Some (Some v)) ∧
    (∀ i, (∀ j, (j ≤ i)%nat → values s !! j = Some None) →
          values s' !! i = Some (Some (Num 0))).
Proof.
  intros H Hn Hs. split; [unfold clean; by rewrite H |]. split.
  { apply identified_take in H as (dates & d & c & Hdates & Hd & Hc & ->).
    cbn in Hs. rewrite lookup_fmap, lookup_insert_ne in Hs by set_solver.
    destruct (columns df !! name) as [s0|] eqn:Hs0; [|discriminate].
    injection Hs as <-. by exists dates, d, c, s0. }
  eexists. split.
  { rewrite fill_numeric_lookup, decide_True by done. by rewrite Hs. }
  rewrite values_fill. split.
  - intros i v Hi Hp. rewrite fillna_lookup. unfold ffill.
    by rewrite (ffill_from_after None _ i v).
  - intros i Hlead. rewrite fillna_lookup. unfold ffill.
    by rewrite ffill_from_leading.
Qed.

(** C10.  Cleaning keeps exactly the rows that have a date (after the
    conversion of line 40) and a country code, in their order; in a kept
    row the date is the converted date, the four numeric fields keep every
    value they had, and every other field is unchanged. *)
Theorem clean_frame (df df' : DataFrame) :
  clean parse_datetime df = inr df' →
  ∃ s d c,
    columns df !! "Date_reported" = Some s ∧
    to_datetime parse_datetime s = inr d ∧
    columns df !! "Country_code" = Some c ∧
    let keep := kept_rows d c (nrows df) in
    (∀ i, i ∈ keep ↔ (i < nrows df)%nat ∧ has_value d i ∧ has_value c i) ∧
    StronglySorted lt keep ∧
    index df' = omap (index df !!.) keep ∧
    columns df' !! "Date_reported" = Some (series_take keep d) ∧
    (∀ name, name ≠ "Date_reported" → name ∉ numeric_columns →
       columns df' !! name = series_take keep <$> columns df !! name) ∧
    (∀ name s0, name ∈ numeric_columns → columns df !! name = Some s0 →
       ∃ s', columns df' !! name = Some s' ∧
             len s' = len (series_take keep s0) ∧
             ∀ j v, values (series_take keep s0) !! j = Some (Some v) →
                    values s' !! j = Some (Some v)).
Proof.
  intros H. apply bind_inr in H as (df2 & H2 & [= <-]).
  apply identified_take in H2 as (s & d & c & Hs & Hd & Hc & ->).
  exists s, d, c. do 3 (split; [done |]). cbv zeta. split_and!.
  - intros i. apply kept_rows_spec.
  - apply filter_seq_sorted.
  - by rewrite fill_numeric_index.
  - rewrite fill_numeric_lookup, decide_False by set_solver.
    cbn. by rewrite lookup_fmap, lookup_insert_eq.
  - intros name Hd' Hnum. rewrite fill_numeric_lookup, decide_False by done.
    cbn. by rewrite lookup_fmap, lookup_insert_ne.
  - intros name s0 Hnum Hs0. eexists. split.
    { rewrite fill_numeric_lookup, decide_True by done. cbn.
      rewrite lookup_fmap, lookup_insert_ne by set_solver. by rewrite Hs0. }
    split; [apply fill_length |]. intros j v. apply fill_keeps.
Qed.

End CleaningFacts.

(** C6 as stated fails: a negative count in the input is there after
    cleaning. *)
Lemma negative_count_survives :
  ∃ cleaned s,
    clean iso_datetime correction_table = inr cleaned ∧
    columns cleaned !! "New_cases" = Some s ∧
    ¬ Forall nonneg_count (values s).
Proof.
  eexists _, _. split_and!.
  - vm_compute. reflexivity.
  - vm_compute. reflexivity.
  - intros H. apply Forall_inv in H as (n & [= <-] & Hn). lia.
Qed.

(** When the download succeeds and cleaning completes, Task 1 ends without
    an error and the global [df] is the cleaned table. *)
Lemma task1_binds_cleaned (parse_datetime : string → option (option Z))
    (net : download) (df df' : DataFrame) (w : world) :
  fetch net = inr df →
  clean parse_datetime df = inr df' →
  (task1 parse_datetime net w).1 = inr () ∧
  g_df (task1 parse_datetime net w).2 = Some df'.
Proof.
  intros Hnet H. apply bind_inr in H as (df2 & H2 & [= <-]).
  apply bind_inr in H2 as (df1 & H1 & H2).
  unfold task1, try_except, task1_body, mbind, py_bind, lift.
  rewrite Hnet. cbn -[convert_dates drop_incomplete fill_numeric any_null].
  rewrite H1. cbn -[drop_incomplete fill_numeric any_null].
  rewrite H2. cbn -[fill_numeric any_null].
  by destruct (any_null (fill_numeric df2)).
Qed.

(** ** The 2025 window *)

Lemma to_datetime_inr (parse_datetime : string → option (option Z)) (s d : series) :
  to_datetime parse_datetime s = inr d → ∃ ts, d = datetime64 ts.
Proof.
  destruct s; cbn.
  - intros H. apply fmap_inr in H as (ts & _ & ->). eauto.
  - intros [= <-]. eauto.
  - intros [= <-]. eauto.
Qed.

(** A completed cleaning leaves the dates as timestamps. *)
Lemma clean_dates_are_timestamps (parse_datetime : string → option (option Z))
    (df df' : DataFrame) :
  clean parse_datetime df = inr df' →
  ∃ ts, columns df' !! "Date_reported" = Some (datetime64 ts).
Proof.
  intros H. apply bind_inr in H as (df2 & H2 & [= <-]).
  apply identified_inr in H2 as (s & d & c & _ & Hd & _ & ->).
  apply to_datetime_inr in Hd as [ts ->].
  rewrite fill_numeric_lookup, decide_False by set_solver.
  cbn. rewrite lookup_fmap, lookup_insert_eq. cbn. eauto.
Qed.

(** On a table whose dates are timestamps, as they are once line 40 has
    run, the filter of lines 63 and 91 returns a table and every row of it
    is dated on or after 2025-01-01. *)
Lemma window_on_or_after_cutoff (df : DataFrame) (ts : list (option Z)) :
  columns df !! "Date_reported" = Some (datetime64 ts) →
  ∃ recent_df, since_2025 df = inr recent_df ∧ on_or_after_cutoff recent_df.
Proof.
  intros H. unfold since_2025, getitem. rewrite H. cbn.
  eexists. split; [done |]. unfold on_or_after_cutoff. cbn.
  rewrite lookup_fmap, H. cbn. eexists. split; [done |].
  apply compress_Forall. intros i c Hm Hc.
  rewrite list_lookup_fmap, Hc in Hm. cbn in Hm. injection Hm as Hm.
  destruct c as [t|]; cbn in Hm; [|done].
  apply bool_decide_eq_true in Hm. eauto.
Qed.

(** C5 on the code.  With a file whose date column line 40 cannot convert,
    the guard of line 57 prints the error and [df] stays the table as
    read; line 63 then compares its dates with the literal as text,
    character by character, and the report of 31 December 2024 is in the
    window that the comment of line 63 calls the 2025 data: the statistics
    are computed from it (a sum of 15 new cases over three reports, 9 of
    them of 2024). *)
Lemma stale_row_in_window :
  let w := (task1 iso_datetime (Response 200 (inr stale_table)) (boot ∅ 0)).2 in
  clean iso_datetime stale_table = inl (ValueError "unknown") ∧
  g_df w = Some stale_table ∧
  since_2025 stale_table = inr stale_table ∧
  GroupMeans [(Str "AFRO", Some (500 # 100)%Q, (1500 # 100)%Q)] ∈ stdout (task2 w).2 ∧
  ¬ on_or_after_cutoff stale_table.
Proof.
  split_and!.
  - vm_compute. reflexivity.
  - vm_compute. reflexivity.
  - vm_compute. reflexivity.
  - vm_compute. apply list_elem_of_In. cbn. tauto.
  - intros (ts & Hts & _). vm_compute in Hts. discriminate Hts.
Qed.

(** ** Groups *)

Lemma grouped_inr (df : DataFrame) (key col : string) (gs : list (scalar * list (option Z))) :
  grouped df key col = inr gs →
  ∃ ks xs, columns df !! key = Some ks ∧
           columns df !! col = Some (float64 xs) ∧
           gs = groupby (values ks) xs.
Proof.
  unfold grouped, getitem. intros H.
  destruct (columns df !! key) as [ks|]; [|discriminate].
  destruct (columns df !! col) as [[?|xs|?]|]; try discriminate.
  cbn in H. injection H as <-. by exists ks, xs.
Qed.

Lemma group_keys_spec (keys : list (option scalar)) (k : scalar) :
  k ∈ group_keys keys ↔ Some k ∈ keys.
Proof.
  unfold group_keys, present.
  rewrite merge_sort_Permutation, elem_of_remove_dups, list_elem_of_omap.
  split.
  - intros (c & Hc & Hk). cbn in Hk. by subst.
  - intros H. by exists (Some k).
Qed.

Lemma group_keys_NoDup (keys : list (option scalar)) : NoDup (group_keys keys).
Proof.
  unfold group_keys. rewrite merge_sort_Permutation. apply NoDup_remove_dups.
Qed.

Lemma groupby_keys {A} (keys : list (option scalar)) (vals : list A) :
  (groupby keys vals).*1 = group_keys keys.
Proof.
  unfold groupby. rewrite <- list_fmap_compose.
  rewrite <- (list_fmap_id (group_keys keys)) at 2.
  by apply list_fmap_ext.
Qed.

(** *** The order of the group keys *)

Lemma scalar_leb_total (a b : scalar) : scalar_leb a b = true ∨ scalar_leb b a = true.
Proof.
  destruct a as [x|x|x], b as [y|y|y]; cbn; auto.
  - apply String.leb_total.
  - destruct (decide (x ≤ y)).
    + left. by apply bool_decide_eq_true.
    + right. apply bool_decide_eq_true. lia.
  - destruct (decide (x ≤ y)).
    + left. by apply bool_decide_eq_true.
    + right. apply bool_decide_eq_true. lia.
Qed.

#[global] Instance scalar_le_total : Total scalar_le.
Proof.
  intros a b. unfold scalar_le.
  destruct (scalar_leb_total a b) as [H|H]; rewrite H; cbn; auto.
Qed.

Lemma group_keys_in_order (keys : list (option scalar)) :
  distinct_in_order (group_keys keys) keys.
Proof.
  split_and!.
  - unfold group_keys. apply Sorted_merge_sort. apply _.
  - apply group_keys_NoDup.
  - apply group_keys_spec.
Qed.

(** *** The order of [sort_values(ascending=False)] *)

Lemma mean_geb_total (a b : option Q) : mean_geb a b = true ∨ mean_geb b a = true.
Proof.
  destruct a as [x|], b as [y|]; cbn; auto.
  destruct (Qlt_le_dec x y) as [H|H].
  - right. apply Qle_bool_iff. by apply Qlt_le_weak.
  - left. by apply Qle_bool_iff.
Qed.

Lemma mean_geb_trans (a b c : option Q) :
  mean_geb a b = true → mean_geb b c = true → mean_geb a c = true.
Proof.
  destruct a as [x|], b as [y|], c as [z|]; cbn; try done.
  rewrite !Qle_bool_iff. intros H1 H2. by apply Qle_trans with y.
Qed.

#[global] Instance by_mean_desc_total : Total by_mean_desc.
Proof.
  intros a b. unfold by_mean_desc.
  destruct (mean_geb_total a.2 b.2) as [H|H]; rewrite H; cbn; auto.
Qed.

#[global] Instance by_mean_desc_trans : Transitive by_mean_desc.
Proof.
  intros a b c. unfold by_mean_desc. rewrite !Is_true_true. apply mean_geb_trans.
Qed.

Lemma take_drop_sorted {A} (R : relation A) (n : nat) (l : list A) :
  StronglySorted R l → ∀ a b, a ∈ take n l → b ∈ drop n l → R a b.
Proof.
  intros Hs a b Ha Hb. rewrite <- (take_drop n l) in Hs.
  by apply (StronglySorted_app_1_elem_of R (take n l) (drop n l)).
Qed.

Lemma sorted_lookup_le {A} (R : relation A) (l : list A) (i j : nat) (a b : A) :
  StronglySorted R l → (i < j)%nat → l !! i = Some a → l !! j = Some b → R a b.
Proof.
  intros Hs. revert i j. induction Hs as [|x l Hs IH Hx]; intros i j Hij Hi Hj; [done |].
  destruct j as [|j]; [lia |]. destruct i as [|i].
  - cbn in Hi. injection Hi as ->. cbn in Hj.
    rewrite Forall_forall in Hx. apply Hx. by eapply list_elem_of_lookup_2.
  - apply (IH i j); [lia | done | done].
Qed.

Lemma pos_of_nat_succ (n : nat) : Z.pos (Pos.of_nat (S n)) = Z.of_nat (S n).
Proof. rewrite <- Pos.of_nat_succ. lia. Qed.

(** [mean] is the sum of the values over their number. *)
Lemma mean_is_mean (xs : list (option Z)) : is_mean (mean xs) xs.
Proof.
  unfold is_mean, mean. destruct (present xs) as [|v vs]; [done |].
  split; [done |].
  unfold Qeq, Qmult, inject_Z. cbn [Qnum Qden length].
  rewrite Pos.mul_1_r, Z.mul_1_r. by rewrite pos_of_nat_succ.
Qed.

Lemma mean_geb_no_smaller (a b : option Q) : mean_geb a b = true → no_smaller a b.
Proof. destruct a as [x|], b as [y|]; cbn; try done. by rewrite Qle_bool_iff. Qed.

(** What the ranking of line 74 holds before [head(10)]. *)
Lemma country_ranking_inr (df : DataFrame) (ranking : list (scalar * option Q)) :
  country_ranking df = inr ranking →
  ∃ keys xs,
    columns df !! "Country" = Some keys ∧
    columns df !! "Cumulative_deaths" = Some (float64 xs) ∧
    StronglySorted by_mean_desc ranking ∧
    NoDup ranking.*1 ∧
    (∀ k m, (k, m) ∈ ranking ↔
            Some k ∈ values keys ∧ m = mean (group_of k (zip (values keys) xs))).
Proof.
  intros H. apply bind_inr in H as (gs & Hgs & [= <-]).
  apply grouped_inr in Hgs as (keys & xs & Hk & Hx & ->).
  exists keys, xs. split_and!; try done.
  - apply StronglySorted_merge_sort; apply _.
  - rewrite merge_sort_Permutation, <- list_fmap_compose.
    rewrite (list_fmap_ext _ fst (groupby (values keys) xs)) by done.
    rewrite groupby_keys. apply group_keys_NoDup.
  - intros k m. rewrite merge_sort_Permutation. unfold groupby.
    rewrite <- list_fmap_compose, list_elem_of_fmap. split.
    + intros (k' & [= -> ->] & Hk'). by apply group_keys_spec in Hk'.
    + intros [Hk' ->]. exists k. split; [done | by apply group_keys_spec].
Qed.

(** C7.  The per-country aggregate of line 74 has one entry per country
    of the window; the entry of a country is the mean of the cumulative
    deaths of that country's rows (their sum over their number, for a
    column pandas adds up exactly); no entry comes before one with a larger
    mean, and a country without a value comes last; what is reported is
    the first ten entries, or all when there are fewer, so that no country
    left out has a larger mean than one reported. *)
Theorem country_deaths_top10 (df : DataFrame) (top : list (scalar * option Q)) :
  country_deaths df = inr top →
  ∃ ranking keys xs,
    columns df !! "Country" = Some keys ∧
    columns df !! "Cumulative_deaths" = Some (float64 xs) ∧
    country_ranking df = inr ranking ∧
    NoDup ranking.*1 ∧
    (∀ k, k ∈ ranking.*1 ↔ Some k ∈ values keys) ∧
    (adds_up_exactly xs →
     ∀ k m, (k, m) ∈ ranking → is_mean m (group_of k (zip (values keys) xs))) ∧
    (∀ i j a b, (i < j)%nat → ranking !! i = Some a → ranking !! j = Some b →
                no_smaller a.2 b.2) ∧
    top = take 10 ranking ∧
    length top = (length ranking `min` 10)%nat ∧
    (∀ a b, a ∈ top → b ∈ drop 10 ranking → no_smaller a.2 b.2).
Proof.
  intros H. apply fmap_inr in H as (ranking & Hr & ->).
  destruct (country_ranking_inr df ranking Hr) as (keys & xs & Hk & Hx & Hs & Hn & Hm).
  exists ranking, keys, xs. split_and!; try done.
  - intros k. rewrite list_elem_of_fmap. split.
    + intros ([k' m] & -> & Hin). by apply Hm in Hin as [Hin _].
    + intros Hin. exists (k, mean (group_of k (zip (values keys) xs))).
      split; [done |]. by apply Hm.
  - intros _ k m Hin. apply Hm in Hin as [_ ->]. apply mean_is_mean.
  - intros i j a b Hij Ha Hb. apply mean_geb_no_smaller, Is_true_true.
    by apply (sorted_lookup_le by_mean_desc ranking i j).
  - rewrite length_take. lia.
  - intros a b Ha Hb. apply mean_geb_no_smaller, Is_true_true.
    by apply (take_drop_sorted by_mean_desc 10 ranking).
Qed.

(** ** Rectangular frames *)

Lemma omap_lookup_length {A} (l : list A) (rows : list nat) :
  Forall (λ i, i < length l)%nat rows → length (omap (l !!.) rows) = length rows.
Proof.
  induction 1 as [|i rows Hi _ IH]; [done |]. cbn.
  destruct (lookup_lt_is_Some_2 l i Hi) as [x ->]. cbn. by rewrite IH.
Qed.

Lemma kept_rows_in_range (d c : series) (n : nat) :
  Forall (λ i, i < n)%nat (kept_rows d c n).
Proof.
  apply Forall_forall. intros i Hi. by apply kept_rows_spec in Hi as [? _].
Qed.

Lemma mapM_inr_length {A B} (f : A → result B) (xs : list A) (ys : list B) :
  mapM f xs = inr ys → length ys = length xs.
Proof.
  revert ys. induction xs as [|x xs IH]; intros ys; cbn.
  - by intros [= <-].
  - intros H. apply bind_inr in H as (y & _ & H).
    apply bind_inr in H as (ys' & Hys & [= <-]). cbn. by rewrite (IH ys').
Qed.

Lemma boxed_length {A} (f : A → scalar) (xs : list (option A)) :
  length (boxed f xs) = length xs.
Proof. unfold boxed. by rewrite length_fmap. Qed.

Lemma to_datetime_len (parse_datetime : string → option (option Z)) (s d : series) :
  to_datetime parse_datetime s = inr d → len d = len s.
Proof.
  unfold len. destruct s as [xs|xs|xs]; cbn.
  - intros H. apply fmap_inr in H as (ts & Hts & ->). cbn.
    by rewrite boxed_length, (mapM_inr_length _ _ _ Hts).
  - intros [= <-]. cbn. by rewrite !boxed_length.
  - by intros [= <-].
Qed.

Lemma series_take_len (rows : list nat) (s : series) :
  Forall (λ i, i < len s)%nat rows → len (series_take rows s) = length rows.
Proof.
  unfold len. destruct s as [xs|xs|xs]; cbn; rewrite ?boxed_length; intros H.
  all: by rewrite omap_lookup_length.
Qed.

Lemma fill_numeric_well_formed (df : DataFrame) :
  well_formed df → well_formed (fill_numeric df).
Proof.
  intros Hwf name s. rewrite fill_numeric_lookup. unfold nrows.
  rewrite fill_numeric_index. case_decide.
  - destruct (columns df !! name) as [s0|] eqn:Hs0; [|done].
    intros [= <-]. rewrite fill_length. by apply (Hwf name).
  - apply Hwf.
Qed.

Lemma identified_well_formed (parse_datetime : string → option (option Z))
    (df df2 : DataFrame) :
  well_formed df → identified parse_datetime df = inr df2 → well_formed df2.
Proof.
  intros Hwf H. apply identified_take in H as (dates & d & c & Hdates & Hd & Hc & ->).
  intros name s. unfold nrows. cbn.
  rewrite omap_lookup_length by apply kept_rows_in_range.
  rewrite lookup_fmap. intros Hs.
  destruct (<[_:=_]> (columns df) !! name) as [s0|] eqn:Hs0; [|done].
  injection Hs as <-. apply series_take_len.
  assert (len s0 = nrows df) as ->; [|apply kept_rows_in_range].
  apply lookup_insert_Some in Hs0 as [[<- <-]|[_ Hs0]].
  - rewrite (to_datetime_len _ _ _ Hd). by apply (Hwf "Date_reported").
  - by apply (Hwf name).
Qed.

Lemma since_2025_inr (df recent_df : DataFrame) :
  since_2025 df = inr recent_df →
  ∃ dates mask, columns df !! "Date_reported" = Some dates ∧
                ge_cutoff dates = inr mask ∧
                recent_df = df_compress mask df.
Proof.
  unfold since_2025, getitem. intros H.
  destruct (columns df !! "Date_reported") as [dates|]; [|discriminate].
  cbn in H. destruct (ge_cutoff dates) as [e|mask] eqn:Hm; [discriminate |].
  cbn in H. injection H as <-. by exists dates, mask.
Qed.

Lemma compress_length_eq {A B} (mask : list bool) (xs : list A) (ys : list B) :
  length xs = length ys → length (compress mask xs) = length (compress mask ys).
Proof.
  revert xs ys. induction mask as [|b mask IH]; intros [|x xs] [|y ys] H; try done.
  cbn. injection H as H. destruct b; cbn; by rewrite (IH xs ys).
Qed.

Lemma well_formed_check (df : DataFrame) :
  bool_decide (map_Forall (λ _ s, len s = nrows df) (columns df)) = true →
  well_formed df.
Proof. intros H%bool_decide_eq_true name s Hs. by apply (H name). Qed.

(** ** Region means *)

Lemma group_of_cons {A} (k : scalar) (r : option scalar * A) (rows : list (option scalar * A)) :
  group_of k (r :: rows) =
  if decide (r.1 = Some k) then r.2 :: group_of k rows else group_of k rows.
Proof. unfold group_of. rewrite filter_cons. by destruct (decide (r.1 = Some k)). Qed.

Lemma Zsum_cons (z : Z) (zs : list Z) : Zsum (z :: zs) = z + Zsum zs.
Proof. reflexivity. Qed.

Lemma total_cons (c : option Z) (cs : list (option Z)) :
  total (c :: cs) = default 0 c + total cs.
Proof. unfold total, present, Zsum. destruct c; cbn; lia. Qed.

(** Adding [v] to the one group of key [k0] adds [v] to the sum over the
    groups. *)
Lemma sum_one_group (f g : scalar → Z) (K : list scalar) (k0 : scalar) (v : Z) :
  NoDup K → k0 ∈ K →
  (∀ k, g k = if decide (k = k0) then v + f k else f k) →
  Zsum (g <$> K) = v + Zsum (f <$> K).
Proof.
  intros Hnd Hin Hg. induction Hnd as [|k K Hk Hnd IH]; [by apply elem_of_nil in Hin |].
  rewrite !fmap_cons, !Zsum_cons, Hg. apply elem_of_cons in Hin as [<-|Hin].
  - rewrite decide_True by done.
    assert (g <$> K = f <$> K) as ->; [|lia].
    apply list_fmap_ext. intros i k' Hk'. rewrite Hg, decide_False; [done |].
    intros ->. apply Hk. by eapply list_elem_of_lookup_2.
  - rewrite decide_False by (intros ->; done). rewrite IH by done. lia.
Qed.

(** The groups split the rows that have a key. *)
Lemma groups_partition (K : list scalar) (rows : list (option scalar * option Z)) :
  NoDup K →
  (∀ k, Some k ∈ rows.*1 → k ∈ K) →
  Zsum ((λ k, total (group_of k rows)) <$> K) =
  total (snd <$> filter (λ r, is_Some r.1) rows).
Proof.
  intros Hnd. induction rows as [|[[k0|] c] rows IH]; intros HK.
  - clear. induction K as [|k K IH]; [done |].
    rewrite fmap_cons, Zsum_cons, IH. done.
  - rewrite filter_cons_True by (cbn; eauto). cbn [fmap list_fmap snd].
    rewrite total_cons, <- IH by (intros k Hk; apply HK; by right).
    apply sum_one_group with k0; [done | apply HK; left |].
    intros k. rewrite group_of_cons. cbn.
    destruct (decide (k = k0)) as [->|Hne].
    + rewrite decide_True by done. by rewrite total_cons.
    + rewrite decide_False; [done |]. intros [= ->]. done.
  - rewrite filter_cons_False by (cbn; intros [? [=]]).
    rewrite <- IH by (intros k Hk; apply HK; by right).
    reflexivity.
Qed.

Lemma Qsum_inject (zs : list Z) : (Qsum (inject_Z <$> zs) == inject_Z (Zsum zs))%Q.
Proof.
  induction zs as [|z zs IH]; cbn; [reflexivity |].
  rewrite IH, inject_Z_plus. reflexivity.
Qed.

Lemma Qsum_ext {A} (f g : A → Q) (l : list A) :
  (∀ x, x ∈ l → (f x == g x)%Q) → (Qsum (f <$> l) == Qsum (g <$> l))%Q.
Proof.
  induction l as [|x l IH]; intros H; cbn; [reflexivity |].
  rewrite (H x) by left. rewrite IH; [reflexivity |].
  intros y Hy. apply H. by right.
Qed.

Lemma present_full {A} (xs : list (option A)) :
  Forall is_Some xs → length (present xs) = length xs.
Proof.
  unfold present. induction 1 as [|c xs [v ->] _ IH]; cbn; [done | by rewrite IH].
Qed.

Lemma mean_eq (xs : list (option Z)) (m : Q) :
  mean xs = Some m →
  m = (total xs # Pos.of_nat (length (present xs))) ∧ (0 < length (present xs))%nat.
Proof.
  unfold mean, total. destruct (present xs) as [|v vs]; [done |].
  intros [= <-]. split; [done | cbn; lia].
Qed.

(** Mean times size is the sum, in a group without a missing cell. *)
Lemma mean_times_size (g : list (option Z)) :
  Forall is_Some g →
  (default 0 (mean g) * inject_Z (Z.of_nat (length g)) == inject_Z (total g))%Q.
Proof.
  intros Hfull. destruct (mean g) as [m|] eqn:Hm.
  - apply mean_eq in Hm as [-> Hpos]. rewrite present_full in * by done.
    cbn. unfold Qeq, Qmult, inject_Z. cbn.
    rewrite Pos.mul_1_r, Z.mul_1_r.
    replace (Z.pos (Pos.of_nat (length g))) with (Z.of_nat (length g)); [done |].
    destruct (length g) as [|n]; [lia |]. by rewrite <- Pos.of_nat_succ, Zpos_P_of_succ_nat, Nat2Z.inj_succ.
  - unfold mean, total in *. destruct (present g) eqn:Hp; [|done].
    apply present_full in Hfull. rewrite Hp in Hfull. cbn in Hfull.
    rewrite <- Hfull. cbn. reflexivity.
Qed.

Lemma inject_div (t : Z) (n : nat) :
  (0 < n)%nat → (inject_Z t / inject_Z (Z.of_nat n) == t # Pos.of_nat n)%Q.
Proof.
  intros Hn. destruct n as [|n]; [lia |].
  rewrite <- Pos.of_nat_succ. unfold Qdiv, Qinv, Qmult, Qeq, inject_Z.
  change (Z.of_nat (S n)) with (Z.pos (Pos.of_succ_nat n)). cbn. lia.
Qed.

Lemma group_of_elem {A} (k : scalar) (rows : list (option scalar * A)) (x : A) :
  x ∈ group_of k rows → x ∈ rows.*2.
Proof.
  unfold group_of. intros H. apply list_elem_of_fmap in H as (r & -> & Hr).
  apply list_elem_of_filter in Hr as [_ Hr]. by apply list_elem_of_fmap_2.
Qed.

Lemma zip_snd_elem {A B} (l : list A) (k : list B) (y : B) :
  y ∈ (zip l k).*2 → y ∈ k.
Proof.
  intros H. apply list_elem_of_fmap in H as ([x y'] & -> & H).
  by apply elem_of_zip_r in H.
Qed.

Lemma zip_fst_elem {A B} (l : list A) (k : list B) (x : A) :
  x ∈ (zip l k).*1 → x ∈ l.
Proof.
  intros H. apply list_elem_of_fmap in H as ([x' y] & -> & H).
  by apply elem_of_zip_l in H.
Qed.

(** The weighted total of line 69's groups is the sum of new cases over
    the rows that have a region. *)
Lemma weighted_total_groupby (keys : list (option scalar)) (xs : list (option Z)) :
  Forall is_Some xs →
  (weighted_total (region_agg <$> groupby keys xs) ==
   inject_Z (total (snd <$> filter (λ r, is_Some r.1) (zip keys xs))))%Q.
Proof.
  intros Hfull. unfold weighted_total, groupby.
  rewrite <- !list_fmap_compose.
  rewrite <- (groups_partition (group_keys keys)).
  - rewrite <- Qsum_inject, <- list_fmap_compose.
    apply Qsum_ext. intros k _. cbn. apply mean_times_size.
    apply Forall_forall. intros c Hc.
    rewrite Forall_forall in Hfull. apply Hfull.
    by apply group_of_elem, zip_snd_elem in Hc.
  - apply group_keys_NoDup.
  - intros k Hk. apply group_keys_spec. by apply zip_fst_elem in Hk.
Qed.

Lemma filter_all {A} (P : A → Prop) `{!∀ x, Decision (P x)} (l : list A) :
  Forall P l → filter P l = l.
Proof.
  induction 1 as [|x l Hx _ IH]; [done |]. by rewrite filter_cons_True, IH.
Qed.

(** The weighted total of the groups of a new-cases column without a
    missing cell, over the rows that have a region. *)
Lemma grouped_mean_of_full_column (df : DataFrame) (keys : series) (xs : list (option Z)) :
  columns df !! "WHO_region" = Some keys →
  columns df !! "New_cases" = Some (float64 xs) →
  Forall is_Some xs →
  ∃ rs, region_means df = inr rs ∧
    let in_a_region := snd <$> filter (λ r, is_Some r.1) (zip (values keys) xs) in
    (∀ m, mean in_a_region = Some m →
          (weighted_total rs / inject_Z (Z.of_nat (length in_a_region)) == m)%Q) ∧
    (no_missing keys → len keys = length xs → in_a_region = xs) ∧
    (no_missing keys → well_formed df → regions_recover_mean df).
Proof.
  intros Hk Hx Hfull.
  assert (region_means df = inr (region_agg <$> groupby (values keys) xs)) as Hrs.
  { unfold region_means, grouped, getitem. by rewrite Hk, Hx. }
  assert (Forall is_Some (snd <$> filter (λ r : option scalar * option Z, is_Some r.1)
                                         (zip (values keys) xs))) as Hsub.
  { apply Forall_forall. intros c Hc. rewrite Forall_forall in Hfull. apply Hfull.
    apply list_elem_of_fmap in Hc as (r & -> & Hr).
    apply list_elem_of_filter in Hr as [_ Hr].
    apply (zip_snd_elem (values keys)). by apply list_elem_of_fmap_2. }
  assert (∀ m, mean (snd <$> filter (λ r : option scalar * option Z, is_Some r.1)
                                    (zip (values keys) xs)) = Some m →
          (weighted_total (region_agg <$> groupby (values keys) xs) /
           inject_Z (Z.of_nat (length (snd <$> filter (λ r : option scalar * option Z, is_Some r.1)
                                                      (zip (values keys) xs)))) == m)%Q) as Hmain.
  { intros m Hm. rewrite weighted_total_groupby by done.
    apply mean_eq in Hm as [-> Hpos]. rewrite present_full in * by done.
    by apply inject_div. }
  assert (no_missing keys → len keys = length xs →
          snd <$> filter (λ r : option scalar * option Z, is_Some r.1)
                         (zip (values keys) xs) = xs) as Hall.
  { intros Hkeys Hlen. rewrite filter_all.
    - apply (snd_zip (values keys) xs). unfold len in Hlen. lia.
    - apply Forall_forall. intros [k c] Hr. cbn.
      unfold no_missing in Hkeys. rewrite Forall_forall in Hkeys.
      apply Hkeys. by apply elem_of_zip_l in Hr. }
  exists (region_agg <$> groupby (values keys) xs).
  split; [done |]. cbv zeta. split_and!; try done.
  intros Hkeys Hwf rs xs' m Hrs' Hx' Hm.
  rewrite Hrs in Hrs'. injection Hrs' as <-.
  rewrite Hx in Hx'. injection Hx' as <-.
  assert (len keys = length xs) as Hlen.
  { rewrite (Hwf _ _ Hk). rewrite <- (Hwf _ _ Hx). unfold len. cbn.
    unfold boxed. by rewrite length_fmap. }
  specialize (Hall Hkeys Hlen). rewrite Hall in Hmain.
  replace (nrows df) with (length xs); [by apply Hmain |].
  rewrite <- (Hwf _ _ Hx). unfold len. cbn. unfold boxed. by rewrite length_fmap.
Qed.

(** C8, as the code has it.  For every filtered table in which no
    new-cases value is missing (as in the window of a table that cleaning
    completed on): line 69 computes its aggregate, and the sum over the WHO
    regions of mean times row count, divided by the number of rows that
    have a region, is the mean of new cases over those rows (their sum
    over their number), the means taken before line 69 rounds them.  Rows
    without a region are in no group; when every row has a region, this is
    the ungrouped mean of the whole table. *)
Theorem regions_recover_grouped_mean (df : DataFrame) (keys : series) (xs : list (option Z)) :
  well_formed df →
  columns df !! "WHO_region" = Some keys →
  columns df !! "New_cases" = Some (float64 xs) →
  Forall is_Some xs →
  ∃ rs, region_means df = inr rs ∧
    let in_a_region := snd <$> filter (λ r, is_Some r.1) (zip (values keys) xs) in
    (in_a_region ≠ [] →
     ∃ m, is_mean (Some m) in_a_region ∧
          (weighted_total rs / inject_Z (Z.of_nat (length in_a_region)) == m)%Q) ∧
    (no_missing keys → in_a_region = xs ∧ regions_recover_mean df).
Proof.
  intros Hwf Hk Hx Hfull.
  destruct (grouped_mean_of_full_column df keys xs Hk Hx Hfull)
    as (rs & Hrs & Hmean & Hall & Hwhole).
  exists rs. split; [done |]. cbv zeta in *. split.
  - intros Hne.
    pose proof (mean_is_mean (snd <$> filter (λ r : option scalar * option Z, is_Some r.1)
                                             (zip (values keys) xs))) as Hspec.
    destruct (mean (snd <$> filter (λ r : option scalar * option Z, is_Some r.1)
                                   (zip (values keys) xs))) as [m|] eqn:Hm.
    + exists m. split; [done | by apply Hmean].
    + exfalso. cbn in Hspec. apply Hne, nil_length_inv.
      rewrite <- present_full, Hspec; [done |].
      apply Forall_forall. intros c Hc. rewrite Forall_forall in Hfull. apply Hfull.
      apply list_elem_of_fmap in Hc as (r & -> & Hr).
      apply list_elem_of_filter in Hr as [_ Hr].
      apply (zip_snd_elem (values keys)). by apply list_elem_of_fmap_2.
  - intros Hkeys. split; [|by apply Hwhole].
    apply Hall; [done |].
    rewrite (Hwf _ _ Hk), <- (Hwf _ _ Hx). unfold len. cbn. by rewrite boxed_length.
Qed.

(** C8 as stated fails on a window with a row that has no WHO region: the
    only group is EURO, with mean 2 over 1 row; 2 over the 2 rows is 1,
    and the mean of new cases is 3.  It fails as well on a window with a
    missing new-cases value, which the analysis is given when line 40
    raised and the guard of line 57 left [df] as read: the means are 4 over
    2 rows and 8 over 1 row, 16 over the 3 rows is not the mean of new
    cases, 6. *)
Lemma region_means_miss_unassigned_rows :
  (∃ cleaned recent_df,
     clean iso_datetime unassigned_table = inr cleaned ∧
     since_2025 cleaned = inr recent_df ∧
     ¬ regions_recover_mean recent_df) ∧
  (let w := (task1 iso_datetime (Response 200 (inr unfilled_table)) (boot ∅ 0)).2 in
   g_df w = Some unfilled_table ∧
   since_2025 unfilled_table = inr unfilled_table ∧
   columns unfilled_table !! "New_cases" = Some (float64 [Some 4; None; Some 8]) ∧
   ¬ regions_recover_mean unfilled_table).
Proof.
  split.
  - eexists _, _. split_and!.
    + vm_compute. reflexivity.
    + vm_compute. reflexivity.
    + intros H.
      specialize (H _ [Some 2; Some 4] (6 # 2)%Q eq_refl eq_refl eq_refl).
      vm_compute in H. discriminate H.
  - split_and!.
    + vm_compute. reflexivity.
    + vm_compute. reflexivity.
    + vm_compute. reflexivity.
    + intros H.
      specialize (H _ [Some 4; None; Some 8] (12 # 2)%Q eq_refl eq_refl eq_refl).
      vm_compute in H. discriminate H.
Qed.

(** ** The analysis zone reads [df] and prints *)

Lemma appends_refl (w : world) : appends w w [].
Proof. unfold appends. by rewrite app_nil_r. Qed.

Lemma appends_trans (w w' w'' : world) (out out' : list output) :
  appends w w' out → appends w' w'' out' → appends w w'' (out ++ out').
Proof.
  unfold appends. intros (-> & -> & -> & -> & ->) (-> & -> & -> & -> & ->).
  by rewrite app_assoc.
Qed.

Lemma reads_ret {A} (x : A) : reads_df_only (mret x).
Proof. intros w1 w2 _. split; [done |]. exists []. split; apply appends_refl. Qed.

Lemma reads_lift {A} (r : result A) : reads_df_only (lift r).
Proof. intros w1 w2 _. split; [done |]. exists []. split; apply appends_refl. Qed.

Lemma reads_print (o : output) : reads_df_only (print o).
Proof. intros w1 w2 _. split; [done |]. by exists [o]. Qed.

Lemma reads_load : reads_df_only load_df.
Proof.
  intros w1 w2 H. unfold load_df. rewrite H.
  destruct (g_df w2); (split; [done |]); exists []; split; apply appends_refl.
Qed.

Lemma reads_bind {A B} (m : py A) (k : A → py B) :
  reads_df_only m → (∀ x, reads_df_only (k x)) → reads_df_only (m ≫= k).
Proof.
  intros Hm Hk w1 w2 H. destruct (Hm w1 w2 H) as (Hr & out & H1 & H2).
  unfold mbind, py_bind.
  destruct (m w1) as [[e1|x1] w1'], (m w2) as [[e2|x2] w2']; cbn in *; try done.
  - injection Hr as ->. split; [done |]. by exists out.
  - injection Hr as <-.
    assert (g_df w1' = g_df w2') as H'.
    { destruct H1 as [-> _], H2 as [-> _]. done. }
    destruct (Hk x1 w1' w2' H') as (Hr' & out' & H1' & H2').
    split; [done |]. exists (out ++ out'). split; by eapply appends_trans.
Qed.

Lemma reads_handle (clauses : list (pyclass * (exn → py unit))) (e : exn) :
  Forall (λ ch, ∀ e, reads_df_only (ch.2 e)) clauses →
  reads_df_only (handle clauses e).
Proof.
  induction 1 as [|[c h] clauses Hh _ IH]; cbn.
  - apply reads_lift.
  - destruct (isinstance e c); [apply Hh | apply IH].
Qed.

Lemma reads_try (body : py unit) (clauses : list (pyclass * (exn → py unit))) :
  reads_df_only body →
  Forall (λ ch, ∀ e, reads_df_only (ch.2 e)) clauses →
  reads_df_only (try_except body clauses).
Proof.
  intros Hb Hc w1 w2 H. destruct (Hb w1 w2 H) as (Hr & out & H1 & H2).
  unfold try_except.
  destruct (body w1) as [[e1|x1] w1'], (body w2) as [[e2|x2] w2']; cbn in *; try done.
  - injection Hr as <-.
    assert (g_df w1' = g_df w2') as H'.
    { destruct H1 as [-> _], H2 as [-> _]. done. }
    destruct (reads_handle clauses e1 Hc w1' w2' H') as (Hr' & out' & H1' & H2').
    split; [done |]. exists (out ++ out'). split; by eapply appends_trans.
  - split; [done |]. by exists out.
Qed.

Lemma reads_print_lines (ls : list string) : reads_df_only (print_lines ls).
Proof.
  induction ls as [|l ls IH]; cbn; [apply reads_ret |].
  apply reads_bind; [apply reads_print | by intros _].
Qed.

Ltac reads_df_step :=
  lazymatch goal with
  | |- reads_df_only (mbind _ _) => apply reads_bind; [|intros ?]
  | |- reads_df_only (print_lines _) => apply reads_print_lines
  | |- reads_df_only (print _) => apply reads_print
  | |- reads_df_only (lift _) => apply reads_lift
  | |- reads_df_only load_df => apply reads_load
  | |- reads_df_only (mret _) => apply reads_ret
  end.

Lemma task2_reads_df_only : reads_df_only task2.
Proof.
  apply reads_try.
  - unfold task2_body. repeat reads_df_step.
  - constructor; [|constructor]. intros e. apply reads_print.
Qed.

(** C9.  Two runs of the analysis zone on the same table end the same way
    and print the same summary statistics, region means and top-10 list,
    whatever the console, the working directory and the random generator
    hold, and leave all but the console as they found them; the scatter
    plot of the visualization zone differs between two runs that differ in
    the generator's state only. *)
Theorem analysis_deterministic (w1 w2 : world) :
  g_df w1 = g_df w2 →
  ((task2 w1).1 = (task2 w2).1 ∧
   ∃ out, appends w1 (task2 w1).2 out ∧ appends w2 (task2 w2).2 out) ∧
  (∃ v1 v2,
     g_df v1 = g_df v2 ∧ stdout v1 = stdout v2 ∧ figure v1 = figure v2 ∧
     cwd v1 = cwd v2 ∧
     cwd (task3 rotating_choice v1).2 !! scatter_file ≠
     cwd (task3 rotating_choice v2).2 !! scatter_file).
Proof.
  intros H. split; [by apply task2_reads_df_only |].
  exists {| g_df := Some busy_table; stdout := []; figure := None; cwd := ∅; random_state := 0 |},
         {| g_df := Some busy_table; stdout := []; figure := None; cwd := ∅; random_state := 1 |}.
  do 4 (split; [reflexivity |]).
  intros Hsame. vm_compute in Hsame. discriminate Hsame.
Qed.

(** ** When the download fails *)

Section Failure.

Variable parse_datetime : string → option (option Z).
Variable choice : nat → nat → nat → list nat * nat.

(** C4, as the code has it.  When acquisition fails with a network or
    HTTP error, the acquisition zone prints its message and leaves [df]
    unbound; the analysis zone and the visualization zone each raise
    NameError on [df], and each zone's own [except Exception] catches it
    and prints it; the script then prints its closing observations and
    ends normally, having written no file. *)
Theorem failed_download_is_reported (net : download) (why : string)
    (dir : gmap string chart) (seed : nat) :
  fetch net = inl (RequestException why) →
  run parse_datetime choice net dir seed =
  (inr (),
   {| g_df := None;
      stdout :=
        Error "Error: Failed to download dataset from URL. Please check internet connection or URL. Error: "
              (RequestException why)
        :: Error "Error during analysis: " (NameError "df")
        :: Error "Error during visualization: " (NameError "df")
        :: (Line <$> observations);
      figure := None;
      cwd := dir;
      random_state := seed |}).
Proof.
  intros H.
  unfold run, script, task1, task1_body, task2, task2_body, task3, task3_body.
  unfold try_except, mbind, py_bind, lift, load_df, boot.
  rewrite H. reflexivity.
Qed.

End Failure.

(** C4 as stated fails: with the network unreachable the NameError of the
    later zones is caught by their guards, printed, and the script ends
    without an error. *)
Lemma name_error_is_caught :
  let r := run iso_datetime rotating_choice (Unreachable "Connection refused") ∅ 0 in
  ¬ ends_with_error r ∧
  Error "Error during analysis: " (NameError "df") ∈ stdout r.2 ∧
  Error "Error during visualization: " (NameError "df") ∈ stdout r.2.
Proof.
  split_and!.
  - intros [e He]. vm_compute in He. discriminate He.
  - vm_compute. apply list_elem_of_In. cbn. tauto.
  - vm_compute. apply list_elem_of_In. cbn. tauto.
Qed.

(** ** Windows of fewer than 1000 rows *)

(** Line 134 raises on such a window, after three files are saved and
    before the fourth is: the guard prints the error and the scatter plot
    is not written. *)
Lemma small_window_keeps_scatter_file (choice : nat → nat → nat → list nat * nat)
    (w : world) (df viz_df : DataFrame) :
  g_df w = Some df →
  since_2025 df = inr viz_df →
  (nrows viz_df < 1000)%nat →
  (task3 choice w).1 = inr () ∧
  cwd (task3 choice w).2 !! scatter_file = cwd w !! scatter_file.
Proof.
  intros Hdf Hviz Hsmall.
  unfold task3, try_except, task3_body, mbind, py_bind, load_df, lift.
  rewrite Hdf, Hviz. cbn.
  destruct (global_trend viz_df) as [e|trend]; [done |]. cbn.
  destruct (region_bars viz_df) as [e|bars]; cbn.
  { split; [done |]. by rewrite lookup_insert_ne. }
  destruct (getitem viz_df "New_deaths") as [e|deaths]; cbn.
  { split; [done |]. by rewrite !lookup_insert_ne. }
  destruct (hist deaths) as [e|binned]; cbn.
  { split; [done |]. by rewrite !lookup_insert_ne. }
  unfold sample. case_bool_decide; cbn.
  { split; [done |]. by rewrite !lookup_insert_ne. }
  rewrite bool_decide_false by lia. cbn.
  split; [done |]. by rewrite !lookup_insert_ne.
Qed.

(** C3 on the code.  With a file of one report of 2025 the run saves the
    line chart, the bar chart and the histogram, then [sample(1000)]
    raises; the guard prints the error, and cases_deaths_scatter.png is
    not written: three files, not four. *)
Theorem single_report_saves_three_files :
  let r := run iso_datetime rotating_choice (Response 200 (inr single_report)) ∅ 0 in
  r.1 = inr () ∧
  dom (cwd r.2) = {["global_cases_line.png"; "region_cases_bar.png"; "deaths_histogram.png"]} ∧
  cwd r.2 !! scatter_file = None ∧
  Error "Error during visualization: "
        (ValueError "Cannot take a larger sample than population when 'replace=False'")
    ∈ stdout r.2.
Proof.
  split_and!.
  - vm_compute. reflexivity.
  - vm_compute. reflexivity.
  - vm_compute. reflexivity.
  - vm_compute. apply list_elem_of_In. cbn. tauto.
Qed.

(** ** The theorems at concrete tables *)

Lemma clean_no_missing_witness :
  columns gappy_table !! "New_cases" = Some (float64 [None; Some 7; None; Some 9]) ∧
  columns gappy_table !! "New_deaths" = Some (float64 [Some 1; None; None; Some 0]) ∧
  columns gappy_table !! "Cumulative_cases" = Some (float64 [Some 10; Some 17; None; Some 26]) ∧
  clean iso_datetime gappy_table = inr gappy_cleaned ∧
  columns gappy_cleaned !! "New_cases" = Some (float64 [Some 0; Some 7; Some 7]) ∧
  columns gappy_cleaned !! "New_deaths" = Some (float64 [Some 1; Some 1; Some 1]) ∧
  columns gappy_cleaned !! "Cumulative_cases" = Some (float64 [Some 10; Some 17; Some 17]) ∧
  columns gappy_cleaned !! "Cumulative_deaths" = Some (float64 [Some 1; Some 1; Some 1]) ∧
  ((∃ d, columns gappy_cleaned !! "Date_reported" = Some d ∧ no_missing d) ∧
   (∃ c, columns gappy_cleaned !! "Country_code" = Some c ∧ no_missing c) ∧
   (∀ name, is_Some (columns gappy_cleaned !! name) ↔ is_Some (columns gappy_table !! name)) ∧
   (∀ s, columns gappy_cleaned !! "New_cases" = Some s → no_missing s) ∧
   (∀ s, columns gappy_cleaned !! "New_deaths" = Some s → no_missing s) ∧
   (∀ s, columns gappy_cleaned !! "Cumulative_cases" = Some s → no_missing s) ∧
   (∀ s, columns gappy_cleaned !! "Cumulative_deaths" = Some s → no_missing s)).
Proof.
  do 8 (split; [vm_compute; reflexivity |]).
  apply (clean_no_missing iso_datetime gappy_table gappy_cleaned).
  vm_compute. reflexivity.
Defined.

Lemma forward_fill_then_zero_witness :
  identified iso_datetime gappy_table = inr gappy_kept ∧
  "New_cases" ∈ numeric_columns ∧
  columns gappy_kept !! "New_cases" = Some (float64 [None; Some 7; None]) ∧
  (clean iso_datetime gappy_table = inr (fill_numeric gappy_kept) ∧
   (∃ dates d c s0,
      columns gappy_table !! "Date_reported" = Some dates ∧
      to_datetime iso_datetime dates = inr d ∧
      columns gappy_table !! "Country_code" = Some c ∧
      columns gappy_table !! "New_cases" = Some s0 ∧
      float64 [None; Some 7; None] = series_take (kept_rows d c (nrows gappy_table)) s0) ∧
   ∃ s', columns (fill_numeric gappy_kept) !! "New_cases" = Some s' ∧
     (∀ i v, values (float64 [None; Some 7; None]) !! S i = Some None →
             values (float64 [None; Some 7; None]) !! i = Some (Some v) →
             values s' !! S i = Some (Some v)) ∧
     (∀ i, (∀ j, (j ≤ i)%nat → values (float64 [None; Some 7; None]) !! j = Some None) →
           values s' !! i = Some (Some (Num 0)))).
Proof.
  split; [vm_compute; reflexivity |].
  split; [repeat constructor |].
  split; [vm_compute; reflexivity |].
  apply (forward_fill_then_zero iso_datetime gappy_table gappy_kept "New_cases").
  - vm_compute. reflexivity.
  - repeat constructor.
  - vm_compute. reflexivity.
Defined.

Lemma clean_counts_witness :
  clean iso_datetime gappy_table = inr gappy_cleaned ∧
  "New_cases" ∈ numeric_columns ∧
  columns gappy_cleaned !! "New_cases" = Some (float64 [Some 0; Some 7; Some 7]) ∧
  (no_missing (float64 [Some 0; Some 7; Some 7]) ∧
   (∀ s0, columns gappy_table !! "New_cases" = Some s0 →
          Forall (λ c, c = None ∨ nonneg_count c) (values s0) →
          Forall nonneg_count (values (float64 [Some 0; Some 7; Some 7])))).
Proof.
  split; [vm_compute; reflexivity |].
  split; [repeat constructor |].
  split; [vm_compute; reflexivity |].
  apply (clean_counts iso_datetime gappy_table gappy_cleaned "New_cases").
  - vm_compute. reflexivity.
  - repeat constructor.
  - vm_compute. reflexivity.
Defined.

Lemma clean_frame_witness :
  clean iso_datetime gappy_table = inr gappy_cleaned ∧
  ∃ s d c,
    columns gappy_table !! "Date_reported" = Some s ∧
    to_datetime iso_datetime s = inr d ∧
    columns gappy_table !! "Country_code" = Some c ∧
    let keep := kept_rows d c (nrows gappy_table) in
    (∀ i, i ∈ keep ↔ (i < nrows gappy_table)%nat ∧ has_value d i ∧ has_value c i) ∧
    StronglySorted lt keep ∧
    index gappy_cleaned = omap (index gappy_table !!.) keep ∧
    columns gappy_cleaned !! "Date_reported" = Some (series_take keep d) ∧
    (∀ name, name ≠ "Date_reported" → name ∉ numeric_columns →
       columns gappy_cleaned !! name = series_take keep <$> columns gappy_table !! name) ∧
    (∀ name s0, name ∈ numeric_columns → columns gappy_table !! name = Some s0 →
       ∃ s', columns gappy_cleaned !! name = Some s' ∧
             len s' = len (series_take keep s0) ∧
             ∀ j v, values (series_take keep s0) !! j = Some (Some v) →
                    values s' !! j = Some (Some v)).
Proof.
  split; [vm_compute; reflexivity |].
  apply (clean_frame iso_datetime gappy_table gappy_cleaned).
  vm_compute. reflexivity.
Defined.

Lemma window_on_or_after_cutoff_witness :
  columns converted_table !! "Date_reported" =
    Some (datetime64 [Some 1735689600000000000; Some 1735603200000000000;
                      Some 1738368000000000000; Some 1738368000000000000]) ∧
  ∃ recent_df, since_2025 converted_table = inr recent_df ∧ on_or_after_cutoff recent_df.
Proof.
  split; [vm_compute; reflexivity |].
  apply (window_on_or_after_cutoff converted_table
           [Some 1735689600000000000; Some 1735603200000000000;
            Some 1738368000000000000; Some 1738368000000000000]).
  vm_compute. reflexivity.
Defined.

Lemma country_deaths_top10_witness :
  clean iso_datetime regional_table = inr regional_cleaned ∧
  since_2025 regional_cleaned = inr regional_window ∧
  columns regional_window !! "Cumulative_deaths" =
    Some (float64 [Some 4; Some 9; Some 12; Some 160; Some 120; Some 190; Some 700;
                   Some 220; Some 60; Some 530; Some 13; Some 71; Some 5; Some 161]) ∧
  adds_up_exactly [Some 4; Some 9; Some 12; Some 160; Some 120; Some 190; Some 700;
                   Some 220; Some 60; Some 530; Some 13; Some 71; Some 5; Some 161] ∧
  country_ranking regional_window = inr regional_ranking ∧
  country_deaths regional_window = inr regional_top ∧
  ∃ ranking keys xs,
    columns regional_window !! "Country" = Some keys ∧
    columns regional_window !! "Cumulative_deaths" = Some (float64 xs) ∧
    country_ranking regional_window = inr ranking ∧
    NoDup ranking.*1 ∧
    (∀ k, k ∈ ranking.*1 ↔ Some k ∈ values keys) ∧
    (adds_up_exactly xs →
     ∀ k m, (k, m) ∈ ranking → is_mean m (group_of k (zip (values keys) xs))) ∧
    (∀ i j a b, (i < j)%nat → ranking !! i = Some a → ranking !! j = Some b →
                no_smaller a.2 b.2) ∧
    regional_top = take 10 ranking ∧
    length regional_top = (length ranking `min` 10)%nat ∧
    (∀ a b, a ∈ regional_top → b ∈ drop 10 ranking → no_smaller a.2 b.2).
Proof.
  do 3 (split; [vm_compute; reflexivity |]).
  split; [vm_compute; reflexivity |].
  do 2 (split; [vm_compute; reflexivity |]).
  apply (country_deaths_top10 regional_window regional_top).
  vm_compute. reflexivity.
Defined.

Lemma regions_recover_grouped_mean_witness :
  clean iso_datetime regional_table = inr regional_cleaned ∧
  since_2025 regional_cleaned = inr regional_window ∧
  region_means regional_window = inr regional_regions ∧
  no_missing regional_region_column ∧
  well_formed regional_window ∧
  columns regional_window !! "WHO_region" = Some regional_region_column ∧
  columns regional_window !! "New_cases" = Some (float64 regional_new_cases) ∧
  Forall is_Some regional_new_cases ∧
  ∃ rs, region_means regional_window = inr rs ∧
    let in_a_region :=
      snd <$> filter (λ r, is_Some r.1)
                     (zip (values regional_region_column) regional_new_cases) in
    (in_a_region ≠ [] →
     ∃ m, is_mean (Some m) in_a_region ∧
          (weighted_total rs / inject_Z (Z.of_nat (length in_a_region)) == m)%Q) ∧
    (no_missing regional_region_column →
     in_a_region = regional_new_cases ∧ regions_recover_mean regional_window).
Proof.
  do 3 (split; [vm_compute; reflexivity |]).
  split; [repeat constructor; eauto |].
  split; [apply well_formed_check; vm_compute; reflexivity |].
  do 2 (split; [vm_compute; reflexivity |]).
  split; [repeat constructor; eauto |].
  apply (regions_recover_grouped_mean regional_window).
  - apply well_formed_check. vm_compute. reflexivity.
  - vm_compute. reflexivity.
  - vm_compute. reflexivity.
  - repeat constructor; eauto.
Defined.

Lemma analysis_deterministic_witness :
  g_df {| g_df := Some converted_table; stdout := [Line "one"]; figure := None;
          cwd := ∅; random_state := 7 |} =
  g_df {| g_df := Some converted_table; stdout := []; figure := Some Blank;
          cwd := {[scatter_file := Blank]}; random_state := 8 |} ∧
  (let w1 := {| g_df := Some converted_table; stdout := [Line "one"]; figure := None;
                cwd := ∅; random_state := 7 |} in
   let w2 := {| g_df := Some converted_table; stdout := []; figure := Some Blank;
                cwd := {[scatter_file := Blank]}; random_state := 8 |} in
   ((task2 w1).1 = (task2 w2).1 ∧
    ∃ out, appends w1 (task2 w1).2 out ∧ appends w2 (task2 w2).2 out) ∧
   (∃ v1 v2,
      g_df v1 = g_df v2 ∧ stdout v1 = stdout v2 ∧ figure v1 = figure v2 ∧
      cwd v1 = cwd v2 ∧
      cwd (task3 rotating_choice v1).2 !! scatter_file ≠
      cwd (task3 rotating_choice v2).2 !! scatter_file)).
Proof.
  split; [reflexivity |].
  apply (analysis_deterministic
           {| g_df := Some converted_table; stdout := [Line "one"]; figure := None;
              cwd := ∅; random_state := 7 |}
           {| g_df := Some converted_table; stdout := []; figure := Some Blank;
              cwd := {[scatter_file := Blank]}; random_state := 8 |}).
  reflexivity.
Defined.

Lemma failed_download_is_reported_witness :
  fetch (Response 503 (inr single_report)) = inl (RequestException "HTTPError") ∧
  run iso_datetime rotating_choice (Response 503 (inr single_report)) ∅ 0 =
  (inr (),
   {| g_df := None;
      stdout :=
        Error "Error: Failed to download dataset from URL. Please check internet connection or URL. Error: "
              (RequestException "HTTPError")
        :: Error "Error during analysis: " (NameError "df")
        :: Error "Error during visualization: " (NameError "df")
        :: (Line <$> observations);
      figure := None;
      cwd := ∅;
      random_state := 0%nat |}).
Proof.
  split; [vm_compute; reflexivity |].
  apply (failed_download_is_reported iso_datetime rotating_choice
           (Response 503 (inr single_report)) "HTTPError" ∅ 0%nat).
  vm_compute. reflexivity.
Defined.

(** * More of the script *)

(** ** The guards *)

Lemma emit_emit (w : world) (out out' : list output) :
  emit (emit w out) out' = emit w (out ++ out').
Proof. unfold emit. cbn. by rewrite app_assoc. Qed.

Lemma emit_nil (w : world) : emit w [] = w.
Proof. destruct w. unfold emit. cbn. by rewrite app_nil_r. Qed.

Lemma print_lines_emit (ls : list string) (w : world) :
  print_lines ls w = (inr (), emit w (Line <$> ls)).
Proof.
  revert w. induction ls as [|l ls IH]; intros w; cbn.
  - by rewrite emit_nil.
  - unfold mbind, py_bind, print. rewrite IH. f_equal. apply emit_emit.
Qed.

Lemma task1_completes (parse_datetime : string → option (option Z)) (net : download)
    (w : world) :
  (task1 parse_datetime net w).1 = inr ().
Proof.
  unfold task1, try_except.
  destruct (task1_body parse_datetime net w) as [[e|[]] w']; [|done].
  by destruct e.
Qed.

Lemma task2_completes (w : world) : (task2 w).1 = inr ().
Proof. unfold task2, try_except. by destruct (task2_body w) as [[e|[]] w']. Qed.

Lemma task3_completes (choice : nat → nat → nat → list nat * nat) (w : world) :
  (task3 choice w).1 = inr ().
Proof. unfold task3, try_except. by destruct (task3_body choice w) as [[e|[]] w']. Qed.

(** X1.  Whatever the network gives, whatever the table holds and whatever
    the generator draws, the script ends without an uncaught exception,
    and the last thing on the console is the closing observations of lines
    153-158. *)
Theorem script_always_completes (parse_datetime : string → option (option Z))
    (choice : nat → nat → nat → list nat * nat) (net : download)
    (dir : gmap string chart) (seed : nat) :
  (run parse_datetime choice net dir seed).1 = inr () ∧
  ∃ out, stdout (run parse_datetime choice net dir seed).2 = out ++ (Line <$> observations).
Proof.
  unfold run, script, mbind, py_bind.
  pose proof (task1_completes parse_datetime net (boot dir seed)) as H1.
  destruct (task1 parse_datetime net (boot dir seed)) as [[e|[]] w1]; [done |].
  pose proof (task2_completes w1) as H2.
  destruct (task2 w1) as [[e|[]] w2]; [done |].
  pose proof (task3_completes choice w2) as H3.
  destruct (task3 choice w2) as [[e|[]] w3]; [done |].
  rewrite print_lines_emit. split; [done |]. by exists (stdout w3).
Qed.

(** ** Task 1 when something fails *)

Section LoadingFailures.

Variable parse_datetime : string → option (option Z).

Lemma mapM_to_datetime_inl (xs : list (option scalar)) (e : exn) :
  mapM (to_datetime_cell parse_datetime) xs = inl e → ∃ s, e = ValueError s.
Proof.
  induction xs as [|c xs IH]; cbn; [discriminate |].
  destruct (to_datetime_cell parse_datetime c) as [e'|t] eqn:Hc; cbn.
  - intros [= <-]. destruct c as [[s|n|t]|]; cbn in Hc; try discriminate.
    destruct (parse_datetime s); [discriminate |]. injection Hc as <-. eauto.
  - destruct (mapM (to_datetime_cell parse_datetime) xs) as [e'|ts]; cbn; [|discriminate].
    intros [= <-]. by apply IH.
Qed.

Lemma convert_dates_inl (df : DataFrame) (e : exn) :
  convert_dates parse_datetime df = inl e →
  e = KeyError "Date_reported" ∨ ∃ s, e = ValueError s.
Proof.
  unfold convert_dates, getitem.
  destruct (columns df !! "Date_reported") as [s|]; cbn.
  - destruct (to_datetime parse_datetime s) as [e'|d] eqn:Hd; cbn; [|discriminate].
    intros [= <-]. right. destruct s as [xs|xs|xs]; cbn in Hd; try discriminate.
    destruct (mapM (to_datetime_cell parse_datetime) xs) as [e''|ts] eqn:Hm; [|discriminate].
    cbn in Hd. injection Hd as <-. by eapply mapM_to_datetime_inl.
  - intros [= <-]. by left.
Qed.

(** X2.  When the download or [read_csv] raises, Task 1 prints one line and
    binds nothing to [df]: the line of line 54 for an exception of the
    requests library, the line of line 58 for any other. *)
Theorem download_errors_are_told_apart (net : download) (e : exn) (w : world) :
  fetch net = inl e →
  task1 parse_datetime net w =
  (inr (),
   emit w [Error (if isinstance e cRequestException then download_failed else loading_failed) e]).
Proof.
  intros H. unfold task1, try_except, task1_body, mbind, py_bind, lift.
  rewrite H. by destruct e.
Qed.

(** X3.  When line 40 raises (no date column, or a date [pd.to_datetime]
    cannot read), the guard of line 57 prints the error after the preview,
    and [df] stays bound to the table as read: no date is converted, no
    row dropped, no gap filled. *)
Theorem failed_conversion_keeps_raw_table (net : download) (df : DataFrame) (e : exn)
    (w : world) :
  fetch net = inr df →
  convert_dates parse_datetime df = inl e →
  (e = KeyError "Date_reported" ∨ ∃ s, e = ValueError s) ∧
  task1 parse_datetime net w =
  (inr (), emit (rebind w df) (preview df ++ [Error loading_failed e])).
Proof.
  intros Hnet He. split; [by apply (convert_dates_inl df) |].
  unfold task1, try_except, task1_body, mbind, py_bind, lift.
  rewrite Hnet. cbn -[convert_dates head null_counts]. rewrite He.
  cbn -[head null_counts].
  destruct (convert_dates_inl df e He) as [->|[s ->]]; cbn -[head null_counts];
    unfold emit, rebind, print; cbn -[head null_counts];
    by rewrite <- !app_assoc.
Qed.

(** X4.  When the table has no country-code column, line 42 raises
    KeyError after line 40 has run: the guard prints it, and [df] stays
    bound to the table with its dates converted, every row still there and
    no gap filled. *)
Theorem missing_country_code_keeps_converted_table (net : download) (df df1 : DataFrame)
    (w : world) :
  fetch net = inr df →
  convert_dates parse_datetime df = inr df1 →
  columns df !! "Country_code" = None →
  index df1 = index df ∧
  task1 parse_datetime net w =
  (inr (), emit (rebind w df1) (preview df ++ [Error loading_failed (KeyError "Country_code")])).
Proof.
  intros Hnet H1 Hc.
  assert (drop_incomplete df1 = inl (KeyError "Country_code")) as Hdrop.
  { apply convert_dates_inr in H1 as (s & d & _ & _ & ->).
    unfold drop_incomplete, dropna, getitem. cbn.
    rewrite lookup_insert_eq, lookup_insert_ne, Hc by done. done. }
  split.
  { by apply convert_dates_inr in H1 as (s & d & _ & _ & ->). }
  unfold task1, try_except, task1_body, mbind, py_bind, lift.
  rewrite Hnet. cbn -[convert_dates drop_incomplete head null_counts]. rewrite H1.
  cbn -[drop_incomplete head null_counts]. rewrite Hdrop.
  cbn -[head null_counts]. unfold emit, rebind, print. cbn -[head null_counts].
  by rewrite <- !app_assoc.
Qed.

End LoadingFailures.

(** ** Task 1 when nothing fails *)

Lemma filter_complement_length {A} (P : A → Prop) `{!∀ x, Decision (P x)} (l : list A) :
  (length (filter P l) + length (filter (λ x, ¬ P x) l) = length l)%nat.
Proof. by rewrite <- length_app, filter_app_complement. Qed.

Lemma null_count_zero (s : series) : null_count s = 0%nat ↔ no_missing s.
Proof.
  unfold null_count, no_missing. induction (values s) as [|c cs IH]; [by split; [constructor |] |].
  rewrite filter_cons. destruct c as [v|].
  - rewrite decide_False by done. rewrite IH. split.
    + intros H. constructor; [eauto | done].
    + by intros H%Forall_inv_tail.
  - rewrite decide_True by done. cbn. split; [done |].
    intros H%Forall_inv. by destruct H.
Qed.

Lemma any_null_false (df : DataFrame) :
  any_null df = false ↔ ∀ name s, columns df !! name = Some s → no_missing s.
Proof.
  unfold any_null, null_counts. rewrite bool_decide_eq_false. split.
  - intros Hno name s Hs. apply null_count_zero.
    destruct (decide (null_count s = 0%nat)) as [|Hn]; [done |].
    destruct Hno. exists name, (null_count s). by rewrite lookup_fmap, Hs.
  - intros Hall (name & n & Hn & Hne). rewrite lookup_fmap in Hn.
    destruct (columns df !! name) as [s|] eqn:Hs; [|done].
    injection Hn as <-. by apply Hne, null_count_zero, (Hall name).
Qed.

Section LoadingSucceeds.

Variable parse_datetime : string → option (option Z).

(** What Task 1 leaves when cleaning completes. *)
Lemma task1_cleaned_world (net : download) (df df1 df2 : DataFrame) (w : world) :
  fetch net = inr df →
  convert_dates parse_datetime df = inr df1 →
  drop_incomplete df1 = inr df2 →
  task1 parse_datetime net w =
  (inr (),
   emit (rebind w (fill_numeric df2))
     (preview df ++
      Cleaned (Z.of_nat (nrows df1) - Z.of_nat (nrows (fill_numeric df2))) ::
      (if any_null (fill_numeric df2) then []
       else [Line "No remaining missing values in the dataset after cleaning."]))).
Proof.
  intros Hnet H1 H2.
  unfold task1, try_except, task1_body, mbind, py_bind, lift.
  rewrite Hnet. cbn -[convert_dates drop_incomplete fill_numeric any_null head null_counts].
  rewrite H1. cbn -[drop_incomplete fill_numeric any_null head null_counts].
  rewrite H2. cbn -[fill_numeric any_null head null_counts].
  destruct (any_null (fill_numeric df2));
    unfold emit, rebind, print; cbn -[fill_numeric head null_counts];
    by rewrite <- !app_assoc.
Qed.

Lemma clean_steps (df df' : DataFrame) :
  clean parse_datetime df = inr df' →
  ∃ df1 df2 dates d c,
    convert_dates parse_datetime df = inr df1 ∧
    drop_incomplete df1 = inr df2 ∧
    df' = fill_numeric df2 ∧
    nrows df1 = nrows df ∧
    columns df !! "Date_reported" = Some dates ∧
    to_datetime parse_datetime dates = inr d ∧
    columns df !! "Country_code" = Some c ∧
    df2 = df_take (kept_rows d c (nrows df)) (setitem df "Date_reported" d).
Proof.
  intros H. apply bind_inr in H as (df2 & H2 & [= <-]).
  pose proof H2 as H2'. apply bind_inr in H2' as (df1 & H1 & Hd).
  apply identified_take in H2 as (dates & d & c & Hdates & Hconv & Hc & ->).
  exists df1, (df_take (kept_rows d c (nrows df)) (setitem df "Date_reported" d)),
         dates, d, c.
  split_and!; try done.
  by apply convert_dates_inr in H1 as (? & ? & _ & _ & ->).
Qed.

(** X5.  When the download succeeds and cleaning completes, Task 1 prints
    the preview and then the number of dropped rows, and that number is
    the number of rows of the table as read that have no date (after the
    conversion of line 40) or no country code. *)
Theorem dropped_count_is_rows_without_identifiers (net : download) (df df' : DataFrame)
    (w : world) :
  fetch net = inr df →
  clean parse_datetime df = inr df' →
  ∃ dates d c tail,
    columns df !! "Date_reported" = Some dates ∧
    to_datetime parse_datetime dates = inr d ∧
    columns df !! "Country_code" = Some c ∧
    stdout (task1 parse_datetime net w).2 =
    stdout w ++ preview df ++
    Cleaned (Z.of_nat (length (filter (λ i, ¬ (has_value d i ∧ has_value c i))
                                      (seq 0 (nrows df))))) :: tail.
Proof.
  intros Hnet H.
  destruct (clean_steps df df' H) as
    (df1 & df2 & dates & d & c & H1 & H2 & -> & Hn & Hdates & Hd & Hc & ->).
  exists dates, d, c.
  eexists (if any_null (fill_numeric _) then []
           else [Line "No remaining missing values in the dataset after cleaning."]).
  split_and!; try done.
  rewrite (task1_cleaned_world net df df1 _ w Hnet H1 H2).
  cbn -[fill_numeric preview any_null]. do 4 f_equal.
  rewrite Hn. unfold nrows at 2. rewrite fill_numeric_index. cbn [index df_take].
  rewrite omap_lookup_length by apply kept_rows_in_range.
  pose proof (filter_complement_length (λ i, has_value d i ∧ has_value c i)
                (seq 0 (nrows df))) as Hsum.
  rewrite length_seq in Hsum. unfold kept_rows. lia.
Qed.

(** X6.  When the download succeeds and cleaning completes, the last line
    Task 1 prints is the one of line 51 exactly when no column of the
    cleaned table has a missing cell; a gap in a column cleaning does not
    fill (a WHO region, a country name) leaves the count of dropped rows
    as the last line. *)
Theorem no_missing_line_iff_table_full (net : download) (df df' : DataFrame) (w : world) :
  fetch net = inr df →
  clean parse_datetime df = inr df' →
  last (stdout (task1 parse_datetime net w).2) =
    Some (Line "No remaining missing values in the dataset after cleaning.") ↔
  ∀ name s, columns df' !! name = Some s → no_missing s.
Proof.
  intros Hnet H.
  destruct (clean_steps df df' H) as
    (df1 & df2 & dates & d & c & H1 & H2 & -> & _).
  rewrite (task1_cleaned_world net df df1 _ w Hnet H1 H2).
  rewrite <- any_null_false. cbn -[fill_numeric preview any_null].
  destruct (any_null (fill_numeric df2)).
  - rewrite app_assoc, last_snoc. split; discriminate.
  - match goal with
    | |- context [[Cleaned ?n; ?l]] => change [Cleaned n; l] with ([Cleaned n] ++ [l])
    end.
    rewrite !app_assoc, last_snoc. done.
Qed.

End LoadingSucceeds.

(** ** Cleaning a table twice *)

Lemma df_eq (a b : DataFrame) : index a = index b → columns a = columns b → a = b.
Proof. destruct a, b. cbn. by intros -> ->. Qed.

(** X7.  Cleaning keeps the table well formed: when every column of the
    table as read is as long as its index, so is every column of the
    cleaned table. *)
Theorem clean_well_formed (parse_datetime : string → option (option Z))
    (df df' : DataFrame) :
  well_formed df → clean parse_datetime df = inr df' → well_formed df'.
Proof.
  intros Hwf H. apply bind_inr in H as (df2 & H2 & [= <-]).
  by apply fill_numeric_well_formed, (identified_well_formed parse_datetime df).
Qed.

Lemma ffill_from_full {A} (last : option A) (xs : list (option A)) :
  Forall is_Some xs → ffill_from last xs = xs.
Proof.
  intros H. revert last. induction H as [|c xs [v ->] _ IH]; intros last; [done |].
  cbn. by rewrite IH.
Qed.

Lemma fillna_full {A} (v : A) (xs : list (option A)) :
  Forall is_Some xs → fillna v xs = xs.
Proof.
  unfold fillna. induction 1 as [|c xs [w ->] _ IH]; [done |]. cbn. by rewrite IH.
Qed.

Lemma fillna_is_full {A} (v : A) (xs : list (option A)) : Forall is_Some (fillna v xs).
Proof. unfold fillna. apply Forall_fmap, Forall_true. intros c. cbn. eauto. Qed.

(** Lines 45-46 change nothing in a column they have filled. *)
Lemma fill_fill (s : series) :
  series_fillna0 (series_ffill (series_fillna0 (series_ffill s))) =
  series_fillna0 (series_ffill s).
Proof.
  destruct s as [xs|xs|xs]; cbn; f_equal; unfold ffill.
  all: rewrite (ffill_from_full None (fillna _ _)) by apply fillna_is_full.
  all: by rewrite fillna_full by apply fillna_is_full.
Qed.

Lemma fill_numeric_twice (df : DataFrame) :
  fill_numeric (fill_numeric df) = fill_numeric df.
Proof.
  apply df_eq; [by rewrite !fill_numeric_index |].
  apply map_eq. intros name. rewrite !fill_numeric_lookup. case_decide; [|done].
  destruct (columns df !! name) as [s|]; [|done]. cbn. by rewrite fill_fill.
Qed.

Lemma compress_all {A} (xs : list A) (n : nat) :
  length xs = n → compress (replicate n true) xs = xs.
Proof.
  revert n. induction xs as [|x xs IH]; intros n <-; cbn; [done |].
  by rewrite IH.
Qed.

Lemma series_compress_all (s : series) (n : nat) :
  len s = n → series_compress (replicate n true) s = s.
Proof.
  unfold len. destruct s as [xs|xs|xs]; cbn; rewrite ?boxed_length; intros H.
  all: by rewrite compress_all.
Qed.

Lemma notna_full (s : series) : no_missing s → notna s = replicate (len s) true.
Proof.
  unfold notna, no_missing, len. induction 1 as [|c cs [v ->] _ IH]; [done |].
  cbn. by rewrite IH.
Qed.

Lemma zip_with_andb_all (n : nat) :
  zip_with andb (replicate n true) (replicate n true) = replicate n true.
Proof. induction n as [|n IH]; [done |]. cbn. by rewrite IH. Qed.

(** Line 42 drops nothing from a well-formed table whose dates and country
    codes are all there. *)
Lemma drop_incomplete_full (df : DataFrame) (d c : series) :
  well_formed df →
  columns df !! "Date_reported" = Some d → no_missing d →
  columns df !! "Country_code" = Some c → no_missing c →
  drop_incomplete df = inr df.
Proof.
  intros Hwf Hd Fd Hc Fc. unfold drop_incomplete, dropna, getitem. cbn.
  rewrite Hd, Hc. cbn. f_equal. unfold row_mask. cbn.
  rewrite (notna_full d Fd), (notna_full c Fc), (Hwf _ _ Hd), (Hwf _ _ Hc).
  rewrite !zip_with_andb_all. apply df_eq; cbn.
  - by apply compress_all.
  - apply map_eq. intros name. rewrite lookup_fmap.
    destruct (columns df !! name) as [s|] eqn:Hs; [|done]. cbn.
    by rewrite series_compress_all by apply (Hwf name s Hs).
Qed.

(** X8.  Cleaning is idempotent: on a well-formed table, cleaning the
    cleaned table again (with any date reader) completes and gives the
    cleaned table back, no date reparsed, no row dropped, no cell
    changed. *)
Theorem clean_idempotent (parse_datetime parse_again : string → option (option Z))
    (df df' : DataFrame) :
  well_formed df →
  clean parse_datetime df = inr df' →
  clean parse_again df' = inr df'.
Proof.
  intros Hwf H.
  destruct (clean_full parse_datetime df df' H) as ((d & Hd & Fd) & (c & Hc & Fc) & _).
  destruct (clean_dates_are_timestamps parse_datetime df df' H) as [ts Hts].
  assert (well_formed df') as Hwf'.
  { apply bind_inr in H as (df2 & H2 & [= <-]).
    by apply fill_numeric_well_formed, (identified_well_formed parse_datetime df). }
  apply bind_inr in H as (df2 & _ & [= Hdf']).
  assert (convert_dates parse_again df' = inr df') as Hconv.
  { unfold convert_dates, getitem. rewrite Hts. cbn. f_equal.
    apply df_eq; [done |]. cbn. by apply insert_id. }
  unfold clean, identified. rewrite Hconv. cbn -[drop_incomplete fill_numeric].
  rewrite (drop_incomplete_full df' d c) by done. cbn -[fill_numeric].
  f_equal. rewrite <- Hdf'. apply fill_numeric_twice.
Qed.

(** ** Runs of gaps *)

Lemma ffill_from_run {A} (last : option A) (xs : list (option A)) (j i : nat) (v : A) :
  (j ≤ i)%nat →
  xs !! j = Some (Some v) →
  (∀ k, (j < k ≤ i)%nat → xs !! k = Some None) →
  ffill_from last xs !! i = Some (Some v).
Proof.
  revert last j i. induction xs as [|c xs IH]; intros last j i Hji Hj Hgap; [done |].
  destruct j as [|j].
  - cbn in Hj. injection Hj as ->. destruct i as [|i]; [done |]. cbn.
    apply ffill_from_leading. intros k Hk. apply (Hgap (S k)). lia.
  - destruct i as [|i]; [lia |].
    assert (ffill_from (match c with Some w => Some w | None => last end) xs !! i
            = Some (Some v)) as Hrec.
    { apply (IH _ j i); [lia | done |]. intros k Hk. apply (Hgap (S k)). lia. }
    by destruct c.
Qed.

(** X9.  In each of the four numeric columns, a run of missing values of
    any length takes the last value before the run, whatever else the
    rows in between hold (the fill is over the whole column in row order,
    not per country); a value that is there stays. *)
Theorem gap_run_takes_last_value (parse_datetime : string → option (option Z))
    (df df2 : DataFrame) (name : string) (s : series) :
  identified parse_datetime df = inr df2 →
  name ∈ numeric_columns →
  columns df2 !! name = Some s →
  ∃ s', columns (fill_numeric df2) !! name = Some s' ∧
    ∀ j i v, (j ≤ i)%nat →
      values s !! j = Some (Some v) →
      (∀ k, (j < k ≤ i)%nat → values s !! k = Some None) →
      values s' !! i = Some (Some v).
Proof.
  intros _ Hn Hs. eexists. split.
  { rewrite fill_numeric_lookup, decide_True by done. by rewrite Hs. }
  intros j i v Hji Hj Hgap. rewrite values_fill, fillna_lookup. unfold ffill.
  by rewrite (ffill_from_run None _ j i v).
Qed.

(** ** Task 2 on tables it cannot or can summarise *)

Lemma mapM_getitem_missing (df : DataFrame) (names : list string) (name : string) :
  name ∈ names → columns df !! name = None →
  ∃ k, k ∈ names ∧ columns df !! k = None ∧
       mapM (getitem df) names = inl (KeyError k).
Proof.
  induction names as [|n names IH]; intros Hin Hnone; [by apply elem_of_nil in Hin |].
  change (mapM (getitem df) (n :: names))
    with (getitem df n ≫= λ y, mapM (getitem df) names ≫= λ ys, mret (y :: ys)).
  destruct (columns df !! n) as [s|] eqn:Hn.
  - assert (getitem df n = inr s) as -> by (unfold getitem; by rewrite Hn).
    apply elem_of_cons in Hin as [->|Hin]; [congruence |].
    destruct (IH Hin Hnone) as (k & Hk & Hknone & Hm).
    exists k. split_and!; [by right | done |]. cbn -[mapM]. by rewrite Hm.
  - assert (getitem df n = inl (KeyError n)) as -> by (unfold getitem; by rewrite Hn).
    exists n. split_and!; [left | done | done].
Qed.

(** X10.  Cleaning goes on without a numeric column (line 44), the
    analysis does not: when one of the four described columns is missing,
    line 65 raises KeyError, Task 2 prints the heading of the summary and
    then the error, and none of the statistics. *)
Theorem missing_numeric_column_stops_analysis (w : world) (df recent_df : DataFrame)
    (name : string) :
  g_df w = Some df →
  since_2025 df = inr recent_df →
  name ∈ described_columns →
  columns df !! name = None →
  ∃ k, k ∈ described_columns ∧ columns df !! k = None ∧
       task2 w =
       (inr (), emit w [Line "Summary Statistics (2025 Data):";
                        Error "Error during analysis: " (KeyError k)]).
Proof.
  intros Hdf Hwin Hin Hnone.
  destruct (since_2025_inr df recent_df Hwin) as (dates & mask & _ & _ & ->).
  destruct (mapM_getitem_missing (df_compress mask df) described_columns name Hin)
    as (k & Hk & Hknone & Hm).
  { cbn. by rewrite lookup_fmap, Hnone. }
  exists k. split_and!; [done | |].
  { cbn in Hknone. rewrite lookup_fmap in Hknone.
    by destruct (columns df !! k). }
  assert (describe (df_compress mask df)
            ["New_cases"; "New_deaths"; "Cumulative_cases"; "Cumulative_deaths"]
          = inl (KeyError k)) as Hd.
  { unfold describe. fold described_columns. by rewrite Hm. }
  unfold task2, try_except, task2_body, mbind, py_bind, lift, load_df.
  rewrite Hdf, Hwin. cbn -[describe]. rewrite Hd.
  unfold emit, print. cbn. by rewrite <- app_assoc.
Qed.

(** What Task 2 prints on such a window, in the exact arithmetic of the
    definitions. *)
Lemma task2_on_numeric_window (w : world) (df recent_df : DataFrame)
    (nc nd cc cd : list (option Z)) (regions countries : series) :
  g_df w = Some df →
  since_2025 df = inr recent_df →
  columns recent_df !! "New_cases" = Some (float64 nc) →
  columns recent_df !! "New_deaths" = Some (float64 nd) →
  columns recent_df !! "Cumulative_cases" = Some (float64 cc) →
  columns recent_df !! "Cumulative_deaths" = Some (float64 cd) →
  columns recent_df !! "WHO_region" = Some regions →
  columns recent_df !! "Country" = Some countries →
  task2 w =
  (inr (),
   emit w
     ([Line "Summary Statistics (2025 Data):";
       Described (NumericDescription
                    [("New_cases", describe_numeric nc);
                     ("New_deaths", describe_numeric nd);
                     ("Cumulative_cases", describe_numeric cc);
                     ("Cumulative_deaths", describe_numeric cd)]);
       Line "Mean New Cases by WHO Region (2025):";
       GroupMeans ((λ r, (rg_key r, round2 <$> rg_mean r, round2 (inject_Z (rg_sum r))))
                     <$> (region_agg <$> groupby (values regions) nc));
       Line "Top 10 Countries by Mean Cumulative Deaths (2025):";
       CountryDeaths
         ((λ r : scalar * option Q, (r.1, round2 <$> r.2))
            <$> take 10 (merge_sort by_mean_desc
                           ((λ g : scalar * list (option Z), (g.1, mean g.2))
                              <$> groupby (values countries) cd)))]
      ++ (Line <$> findings))).
Proof.
  intros Hdf Hwin Hnc Hnd Hcc Hcd Hreg Hcty.
  assert (describe recent_df
            ["New_cases"; "New_deaths"; "Cumulative_cases"; "Cumulative_deaths"] =
          inr (NumericDescription
                 [("New_cases", describe_numeric nc);
                  ("New_deaths", describe_numeric nd);
                  ("Cumulative_cases", describe_numeric cc);
                  ("Cumulative_deaths", describe_numeric cd)])) as Hdesc.
  { unfold describe, getitem. cbn -[describe_numeric]. by rewrite Hnc, Hnd, Hcc, Hcd. }
  assert (group_means recent_df =
          inr ((λ r, (rg_key r, round2 <$> rg_mean r, round2 (inject_Z (rg_sum r))))
                 <$> (region_agg <$> groupby (values regions) nc))) as Hgm.
  { unfold group_means, region_means, grouped, getitem. by rewrite Hreg, Hnc. }
  assert (country_deaths recent_df =
          inr (take 10 (merge_sort by_mean_desc
                          ((λ g : scalar * list (option Z), (g.1, mean g.2))
                             <$> groupby (values countries) cd)))) as Htop.
  { unfold country_deaths, country_ranking, grouped, getitem. by rewrite Hcty, Hcd. }
  unfold task2, try_except, task2_body, mbind, py_bind, lift, load_df.
  rewrite Hdf, Hwin. cbn -[describe group_means country_deaths print_lines].
  rewrite Hdesc. cbn -[group_means country_deaths print_lines].
  rewrite Hgm. cbn -[country_deaths print_lines].
  rewrite Htop. cbn -[print_lines merge_sort groupby round2 describe_numeric].
  rewrite print_lines_emit. unfold emit. cbn -[merge_sort groupby round2 describe_numeric findings].
  by rewrite <- !app_assoc.
Qed.

(** X11.  When the window has the four described columns as numbers, a
    WHO-region column and a country column, Task 2 raises nothing and
    prints, in this order: the summary of the four columns, each with the
    number of its values; one row per WHO region of the window, in the
    order of the regions; at most ten countries of the window, none twice,
    and ten when there are ten or more; the findings of lines 78-83. *)
Theorem analysis_completes_on_numeric_window (w : world) (df recent_df : DataFrame)
    (nc nd cc cd : list (option Z)) (regions countries : series) :
  g_df w = Some df →
  since_2025 df = inr recent_df →
  columns recent_df !! "New_cases" = Some (float64 nc) →
  columns recent_df !! "New_deaths" = Some (float64 nd) →
  columns recent_df !! "Cumulative_cases" = Some (float64 cc) →
  columns recent_df !! "Cumulative_deaths" = Some (float64 cd) →
  columns recent_df !! "WHO_region" = Some regions →
  columns recent_df !! "Country" = Some countries →
  ∃ d gm top,
    task2 w =
    (inr (),
     emit w
       ([Line "Summary Statistics (2025 Data):";
         Described (NumericDescription d);
         Line "Mean New Cases by WHO Region (2025):";
         GroupMeans gm;
         Line "Top 10 Countries by Mean Cumulative Deaths (2025):";
         CountryDeaths top]
        ++ (Line <$> findings))) ∧
    d.*1 = described_columns ∧
    st_count <$> d.*2 =
      [length (present nc); length (present nd); length (present cc); length (present cd)] ∧
    distinct_in_order gm.*1.*1 (values regions) ∧
    NoDup top.*1 ∧
    (∀ k, k ∈ top.*1 → Some k ∈ values countries) ∧
    ∃ ks, distinct_in_order ks (values countries) ∧
          length top = (length ks `min` 10)%nat.
Proof.
  intros Hdf Hwin Hnc Hnd Hcc Hcd Hreg Hcty.
  rewrite (task2_on_numeric_window w df recent_df nc nd cc cd regions countries) by done.
  assert (country_ranking recent_df =
          inr (merge_sort by_mean_desc
                 ((λ g : scalar * list (option Z), (g.1, mean g.2))
                    <$> groupby (values countries) cd))) as Hrank.
  { unfold country_ranking, grouped, getitem. by rewrite Hcty, Hcd. }
  destruct (country_ranking_inr recent_df _ Hrank)
    as (keys & xs & Hk & Hx & _ & Hnd' & Hin).
  rewrite Hcty in Hk. injection Hk as <-.
  set (ranking := merge_sort by_mean_desc _) in *.
  eexists _, _, _. split; [reflexivity |]. split_and!.
  - reflexivity.
  - reflexivity.
  - rewrite <- !list_fmap_compose.
    rewrite (list_fmap_ext _ fst (groupby (values regions) nc)) by done.
    rewrite groupby_keys. apply group_keys_in_order.
  - rewrite <- list_fmap_compose.
    rewrite (list_fmap_ext _ fst (take 10 ranking)) by done.
    rewrite fmap_take. eapply sublist_NoDup; [exact Hnd' | apply sublist_take].
  - intros k. rewrite <- list_fmap_compose.
    rewrite (list_fmap_ext _ fst (take 10 ranking)) by done.
    intros Hk. apply list_elem_of_fmap in Hk as ([k' m] & -> & Hk).
    apply elem_of_take in Hk as (i & Hk & _).
    apply list_elem_of_lookup_2 in Hk. by apply Hin in Hk as [Hk _].
  - exists (group_keys (values countries)). split; [apply group_keys_in_order |].
    rewrite length_fmap, length_take. unfold ranking.
    rewrite merge_sort_Permutation, length_fmap.
    rewrite <- (groupby_keys (values countries) cd), length_fmap. lia.
Qed.

Lemma empty_window_column (mask : list bool) (df : DataFrame) (name : string) (s : series) :
  well_formed df →
  nrows (df_compress mask df) = 0%nat →
  columns df !! name = Some s →
  values (series_compress mask s) = [].
Proof.
  intros Hwf Hn Hs. rewrite values_compress. apply nil_length_inv.
  rewrite (compress_length_eq mask (values s) (index df)); [done |].
  by apply (Hwf name).
Qed.

Lemma empty_window_numbers (mask : list bool) (df : DataFrame) (name : string)
    (xs : list (option Z)) :
  well_formed df →
  nrows (df_compress mask df) = 0%nat →
  columns df !! name = Some (float64 xs) →
  columns (df_compress mask df) !! name = Some (float64 []).
Proof.
  intros Hwf Hn Hs. cbn. rewrite lookup_fmap, Hs. cbn. do 2 f_equal.
  pose proof (empty_window_column mask df name (float64 xs) Hwf Hn Hs) as H.
  cbn in H. by apply fmap_nil_inv in H.
Qed.

(** X12.  When no row of a well-formed table is dated on or after
    2025-01-01, Task 2 does not fail: it prints, for each of the four
    columns, a count of 0 and no mean, spread, minimum, quartile or
    maximum (NaN), then an empty table of regions, an empty top-10, and
    the findings all the same. *)
Theorem empty_window_is_summarised (w : world) (df recent_df : DataFrame)
    (nc nd cc cd : list (option Z)) (regions countries : series) :
  g_df w = Some df →
  well_formed df →
  since_2025 df = inr recent_df →
  nrows recent_df = 0%nat →
  columns df !! "New_cases" = Some (float64 nc) →
  columns df !! "New_deaths" = Some (float64 nd) →
  columns df !! "Cumulative_cases" = Some (float64 cc) →
  columns df !! "Cumulative_deaths" = Some (float64 cd) →
  columns df !! "WHO_region" = Some regions →
  columns df !! "Country" = Some countries →
  task2 w =
  (inr (),
   emit w
     ([Line "Summary Statistics (2025 Data):";
       Described (NumericDescription ((λ name, (name, no_stats)) <$> described_columns));
       Line "Mean New Cases by WHO Region (2025):";
       GroupMeans [];
       Line "Top 10 Countries by Mean Cumulative Deaths (2025):";
       CountryDeaths []]
      ++ (Line <$> findings))).
Proof.
  intros Hdf Hwf Hwin Hn Hnc Hnd Hcc Hcd Hreg Hcty.
  destruct (since_2025_inr df recent_df Hwin) as (dates & mask & _ & _ & ->).
  rewrite (task2_on_numeric_window w df (df_compress mask df) [] [] [] []
             (series_compress mask regions) (series_compress mask countries));
    try done.
  - rewrite (empty_window_column mask df "WHO_region" regions) by done.
    rewrite (empty_window_column mask df "Country" countries) by done.
    reflexivity.
  - by apply (empty_window_numbers mask df "New_cases" nc).
  - by apply (empty_window_numbers mask df "New_deaths" nd).
  - by apply (empty_window_numbers mask df "Cumulative_cases" cc).
  - by apply (empty_window_numbers mask df "Cumulative_deaths" cd).
  - cbn. by rewrite lookup_fmap, Hreg.
  - cbn. by rewrite lookup_fmap, Hcty.
Qed.

(** ** The charts of Task 3 *)

(** *** The order of [sort_values(ascending=True)] *)

Lemma mean_leb_total (a b : option Q) : mean_leb a b = true ∨ mean_leb b a = true.
Proof.
  destruct a as [x|], b as [y|]; cbn; auto.
  destruct (Qlt_le_dec x y) as [H|H].
  - left. apply Qle_bool_iff. by apply Qlt_le_weak.
  - right. by apply Qle_bool_iff.
Qed.

Lemma mean_leb_trans (a b c : option Q) :
  mean_leb a b = true → mean_leb b c = true → mean_leb a c = true.
Proof.
  destruct a as [x|], b as [y|], c as [z|]; cbn; try done.
  rewrite !Qle_bool_iff. intros H1 H2. by apply Qle_trans with y.
Qed.

#[global] Instance by_mean_asc_total : Total by_mean_asc.
Proof.
  intros a b. unfold by_mean_asc.
  destruct (mean_leb_total a.2 b.2) as [H|H]; rewrite H; cbn; auto.
Qed.

#[global] Instance by_mean_asc_trans : Transitive by_mean_asc.
Proof.
  intros a b c. unfold by_mean_asc. rewrite !Is_true_true. apply mean_leb_trans.
Qed.

Lemma mean_leb_no_larger (a b : option Q) : mean_leb a b = true → no_larger a b.
Proof. destruct a as [x|], b as [y|]; cbn; try done. by rewrite Qle_bool_iff. Qed.

Lemma keys_of_entries {B} (l : list (scalar * B)) (keys : list (option scalar))
    (f : scalar → B) :
  (∀ k m, (k, m) ∈ l ↔ Some k ∈ keys ∧ m = f k) →
  ∀ k, k ∈ l.*1 ↔ Some k ∈ keys.
Proof.
  intros H k. rewrite list_elem_of_fmap. split.
  - intros ([k' m] & -> & Hin). by apply H in Hin as [Hin _].
  - intros Hin. exists (k, f k). split; [done |]. by apply H.
Qed.

(** What the series of line 109 holds. *)
Lemma region_bars_inr (df : DataFrame) (bars : list (scalar * option Q)) :
  region_bars df = inr bars →
  ∃ regions nc,
    columns df !! "WHO_region" = Some regions ∧
    columns df !! "New_cases" = Some (float64 nc) ∧
    StronglySorted by_mean_asc bars ∧
    NoDup bars.*1 ∧
    (∀ k m, (k, m) ∈ bars ↔
            Some k ∈ values regions ∧ m = mean (group_of k (zip (values regions) nc))).
Proof.
  intros H. apply bind_inr in H as (gs & Hgs & [= <-]).
  apply grouped_inr in Hgs as (regions & nc & Hreg & Hnc & ->).
  exists regions, nc. split_and!; try done.
  - apply StronglySorted_merge_sort; apply _.
  - rewrite merge_sort_Permutation, <- list_fmap_compose.
    rewrite (list_fmap_ext _ fst (groupby (values regions) nc)) by done.
    rewrite groupby_keys. apply group_keys_NoDup.
  - intros k m. rewrite merge_sort_Permutation. unfold groupby.
    rewrite <- list_fmap_compose, list_elem_of_fmap. split.
    + intros (k' & [= -> ->] & Hk'). by apply group_keys_spec in Hk'.
    + intros [Hk' ->]. exists k. split; [done | by apply group_keys_spec].
Qed.

(** What the series of line 95 holds for a numeric new-cases column. *)
Lemma global_trend_numbers (df : DataFrame) (dates : series) (nc : list (option Z)) :
  columns df !! "Date_reported" = Some dates →
  columns df !! "New_cases" = Some (float64 nc) →
  global_trend df =
  inr ((λ g : scalar * list (option Z), (g.1, Num (total g.2))) <$> groupby (values dates) nc).
Proof. intros Hd Hn. unfold global_trend, getitem. by rewrite Hd, Hn. Qed.

Lemma present_boxed {A} (f : A → scalar) (xs : list (option A)) :
  present (boxed f xs) = f <$> present xs.
Proof.
  unfold present, boxed. induction xs as [|[x|] xs IH]; cbn; [done | by rewrite IH | done].
Qed.

(** Line 122 bins a numeric column that has a value. *)
Lemma hist_numbers (nd : list (option Z)) :
  present nd ≠ [] → hist (float64 nd) = inr (values (float64 nd)).
Proof.
  intros Hne. unfold hist. cbn [values]. rewrite present_boxed.
  destruct (present nd) as [|v vs]; [done |]. cbn [fmap list_fmap forallb is_text andb].
  cbn [existsb is_text orb].
  assert (existsb is_text (Num <$> vs) = false) as ->; [|done].
  clear. induction vs as [|u vs IH]; [done |]. cbn. exact IH.
Qed.

(** The two series Task 3 plots from a window with dates, regions and
    numeric new cases. *)
Lemma series_of_window (viz_df : DataFrame) (dates regions : series) (nc : list (option Z)) :
  columns viz_df !! "Date_reported" = Some dates →
  columns viz_df !! "WHO_region" = Some regions →
  columns viz_df !! "New_cases" = Some (float64 nc) →
  ∃ trend bars,
    global_trend viz_df = inr trend ∧
    region_bars viz_df = inr bars ∧
    distinct_in_order trend.*1 (values dates) ∧
    NoDup bars.*1 ∧
    (∀ k, k ∈ bars.*1 ↔ Some k ∈ values regions).
Proof.
  intros Hdates Hreg Hnc.
  assert (region_bars viz_df =
          inr (merge_sort by_mean_asc
                 ((λ g : scalar * list (option Z), (g.1, mean g.2))
                    <$> groupby (values regions) nc))) as Hbars.
  { unfold region_bars, grouped, getitem. by rewrite Hreg, Hnc. }
  destruct (region_bars_inr viz_df _ Hbars) as (regions' & nc' & Hreg' & _ & _ & Hnd & Hin).
  rewrite Hreg in Hreg'. injection Hreg' as <-.
  eexists _, _. split; [by apply (global_trend_numbers viz_df dates nc) |].
  split; [exact Hbars |]. split_and!.
  - rewrite <- list_fmap_compose.
    rewrite (list_fmap_ext _ fst (groupby (values dates) nc)) by done.
    rewrite groupby_keys. apply group_keys_in_order.
  - exact Hnd.
  - by apply (keys_of_entries _ _ _ Hin).
Qed.

(** ** Task 3 on windows of 1000 rows and more, and on any window *)

Lemma scatter_points_take (rows : list nat) (df : DataFrame) (x y hue : series) :
  columns df !! "New_cases" = Some x →
  columns df !! "New_deaths" = Some y →
  columns df !! "WHO_region" = Some hue →
  scatter_points (df_take rows df) =
  inr (zip (zip (values (series_take rows x)) (values (series_take rows y)))
           (values (series_take rows hue))).
Proof.
  intros Hx Hy Hh. unfold scatter_points, plot_variable. cbn.
  by rewrite !lookup_fmap, Hx, Hy, Hh.
Qed.

(** X13.  On a window of 1000 rows or more that has a date column, a
    region column, numeric new cases and numeric new deaths with at least
    one value, Task 3 raises nothing: it saves the four charts under their
    four names (one point per date in the order of the dates, one bar per
    region, the new-deaths cells in 50 bins, the 1000 rows drawn), closes
    the figure, prints the manifest of lines 143-147 and advances the
    generator once. *)
Theorem large_window_saves_four_files (choice : nat → nat → nat → list nat * nat)
    (w : world) (df viz_df : DataFrame) (dates regions : series)
    (nc nd : list (option Z)) :
  g_df w = Some df →
  since_2025 df = inr viz_df →
  (1000 ≤ nrows viz_df)%nat →
  columns viz_df !! "Date_reported" = Some dates →
  columns viz_df !! "WHO_region" = Some regions →
  columns viz_df !! "New_cases" = Some (float64 nc) →
  columns viz_df !! "New_deaths" = Some (float64 nd) →
  present nd ≠ [] →
  let drawn := choice (random_state w) (nrows viz_df) 1000%nat in
  ∃ trend bars,
    task3 choice w =
    (inr (),
     {| g_df := g_df w;
        stdout := stdout w ++ (Line <$> saved_files);
        figure := None;
        cwd :=
          <["cases_deaths_scatter.png" :=
              ScatterChart
                (zip (zip (values (series_take drawn.1 (float64 nc)))
                          (values (series_take drawn.1 (float64 nd))))
                     (values (series_take drawn.1 regions)))]>
          (<["deaths_histogram.png" := Histogram 50 (values (float64 nd))]>
           (<["region_cases_bar.png" := BarChart bars]>
            (<["global_cases_line.png" := LineChart trend]> (cwd w))));
        random_state := drawn.2 |}) ∧
    distinct_in_order trend.*1 (values dates) ∧
    NoDup bars.*1 ∧
    (∀ k, k ∈ bars.*1 ↔ Some k ∈ values regions).
Proof.
  intros Hdf Hviz Hbig Hdates Hreg Hnc Hdeaths Hvalue drawn.
  destruct (series_of_window viz_df dates regions nc Hdates Hreg Hnc)
    as (trend & bars & Htrend & Hbars & Hkeys & Hnodup & Hin).
  exists trend, bars. split; [|done].
  assert (getitem viz_df "New_deaths" = inr (float64 nd)) as Hget.
  { unfold getitem. by rewrite Hdeaths. }
  unfold task3, try_except, task3_body, mbind, py_bind, lift, load_df.
  rewrite Hdf, Hviz.
  cbn -[global_trend region_bars getitem hist sample scatter_points print_lines].
  rewrite Htrend. cbn -[region_bars getitem hist sample scatter_points print_lines].
  rewrite Hbars. cbn -[getitem hist sample scatter_points print_lines].
  rewrite Hget. cbn -[hist sample scatter_points print_lines].
  rewrite (hist_numbers nd Hvalue). cbn -[sample scatter_points print_lines values].
  unfold sample. rewrite bool_decide_false by lia. rewrite bool_decide_true by done.
  cbn -[scatter_points print_lines values]. fold drawn.
  destruct drawn as [rows g] eqn:Hdrawn.
  cbn -[scatter_points print_lines values].
  rewrite (scatter_points_take rows viz_df _ _ _ Hnc Hdeaths Hreg).
  cbn -[print_lines values]. rewrite print_lines_emit. unfold emit.
  cbn -[values]. by rewrite Hdf.
Qed.

(** X14.  The manifest of lines 143-147 is never printed for files that
    are not there: on every table and every state, Task 3 either prints
    one error line and no manifest, or prints the manifest with the four
    files saved and the figure closed; it never rebinds [df]. *)
Theorem manifest_only_with_four_files (choice : nat → nat → nat → list nat * nat)
    (w : world) :
  g_df (task3 choice w).2 = g_df w ∧
  ((∃ e, stdout (task3 choice w).2 =
         stdout w ++ [Error "Error during visualization: " e]) ∨
   (stdout (task3 choice w).2 = stdout w ++ (Line <$> saved_files) ∧
    figure (task3 choice w).2 = None ∧
    ∀ name, name ∈ chart_files → is_Some (cwd (task3 choice w).2 !! name))).
Proof.
  unfold task3, try_except, task3_body, mbind, py_bind, lift, load_df.
  destruct (g_df w) as [df|] eqn:Hdf; [|split; [done | left; by eexists]].
  destruct (since_2025 df) as [e|viz_df]; [split; [done | left; by eexists] |].
  cbn -[global_trend region_bars getitem sample scatter_points print_lines].
  destruct (global_trend viz_df) as [e|trend];
    cbn -[region_bars getitem sample scatter_points print_lines];
    [split; [done | left; by eexists] |].
  destruct (region_bars viz_df) as [e|bars];
    cbn -[getitem sample scatter_points print_lines];
    [split; [done | left; by eexists] |].
  destruct (getitem viz_df "New_deaths") as [e|deaths];
    cbn -[hist sample scatter_points print_lines];
    [split; [done | left; by eexists] |].
  destruct (hist deaths) as [e|binned];
    cbn -[sample scatter_points print_lines];
    [split; [done | left; by eexists] |].
  unfold sample. case_bool_decide;
    cbn -[scatter_points print_lines]; [split; [done | left; by eexists] |].
  case_bool_decide;
    cbn -[scatter_points print_lines]; [|split; [done | left; by eexists]].
  destruct (choice (random_state w) (nrows viz_df) 1000%nat) as [rows g].
  cbn -[scatter_points print_lines].
  destruct (scatter_points (df_take rows viz_df)) as [e|points];
    cbn -[print_lines]; [split; [done | left; by eexists] |].
  rewrite print_lines_emit. cbn. split; [done |]. right. split_and!; try done.
  intros name Hin. unfold chart_files in Hin.
  repeat (apply elem_of_cons in Hin as [->|Hin]); [..|by apply elem_of_nil in Hin].
  all: by simplify_map_eq.
Qed.

(** ** What the groups add up to *)

Lemma groupby_total (keys : list (option scalar)) (xs : list (option Z)) :
  Zsum ((λ g : scalar * list (option Z), total g.2) <$> groupby keys xs) =
  total (snd <$> filter (λ r, is_Some r.1) (zip keys xs)).
Proof.
  unfold groupby. rewrite <- list_fmap_compose.
  rewrite <- (groups_partition (group_keys keys)); [done | apply group_keys_NoDup |].
  intros k Hk. apply group_keys_spec. by apply zip_fst_elem in Hk.
Qed.

Lemma rows_with_key_all (keys : list (option scalar)) (xs : list (option Z)) :
  Forall is_Some keys → length keys = length xs →
  snd <$> filter (λ r : option scalar * option Z, is_Some r.1) (zip keys xs) = xs.
Proof.
  intros Hkeys Hlen. rewrite filter_all.
  - apply (snd_zip keys xs). lia.
  - apply Forall_forall. intros [k c] Hr. cbn.
    rewrite Forall_forall in Hkeys. apply Hkeys. by apply elem_of_zip_l in Hr.
Qed.

(** X15.  The table of line 69 has one row per WHO region that occurs in
    the window, in the order of the regions.  For new cases that pandas
    adds up exactly, the sum of a row is the sum of the new cases of that
    region's rows, and the sums of the rows add up to the sum of new cases
    over the rows that have a region: to the sum over the whole window
    when every row has one. *)
Theorem region_sums_add_up (df : DataFrame) (rs : list region_row) :
  region_means df = inr rs →
  ∃ regions nc,
    columns df !! "WHO_region" = Some regions ∧
    columns df !! "New_cases" = Some (float64 nc) ∧
    distinct_in_order (rg_key <$> rs) (values regions) ∧
    (adds_up_exactly nc →
     (∀ r, r ∈ rs →
           rg_sum r = Zsum (present (group_of (rg_key r) (zip (values regions) nc)))) ∧
     Zsum (rg_sum <$> rs) =
       Zsum (present (snd <$> filter (λ r, is_Some r.1) (zip (values regions) nc))) ∧
     (no_missing regions → len regions = length nc →
      Zsum (rg_sum <$> rs) = Zsum (present nc))).
Proof.
  intros H. apply bind_inr in H as (gs & Hgs & [= <-]).
  apply grouped_inr in Hgs as (regions & nc & Hreg & Hnc & ->).
  exists regions, nc.
  assert ((rg_key <$> (region_agg <$> groupby (values regions) nc)) =
          group_keys (values regions)) as Hkeys.
  { rewrite <- list_fmap_compose, <- (groupby_keys (values regions) nc).
    by apply list_fmap_ext. }
  assert (Zsum (rg_sum <$> (region_agg <$> groupby (values regions) nc)) =
          total (snd <$> filter (λ r, is_Some r.1) (zip (values regions) nc))) as Hsum.
  { rewrite <- groupby_total, <- list_fmap_compose. f_equal. }
  split; [done |]. split; [done |]. split.
  { rewrite Hkeys. apply group_keys_in_order. }
  intros _. split_and!.
  - intros r Hr. unfold groupby in Hr. rewrite <- list_fmap_compose in Hr.
    apply list_elem_of_fmap in Hr as (k & -> & _). reflexivity.
  - exact Hsum.
  - intros Hfull Hlen. rewrite Hsum. by rewrite rows_with_key_all.
Qed.

(** X16.  With numeric new cases, the series of line 95 has one point per
    date that occurs in the window, the points in the order of their
    dates, each a number.  For new cases that pandas adds up exactly, the
    value of a point is the sum of the new cases of that date's rows, and
    the values add up to the sum of new cases over the rows that have a
    date: to the sum over the whole window when every row has one, as
    after cleaning. *)
Theorem daily_totals_add_up (df : DataFrame) (nc : list (option Z))
    (points : list (scalar * scalar)) :
  columns df !! "New_cases" = Some (float64 nc) →
  global_trend df = inr points →
  ∃ dates totals,
    columns df !! "Date_reported" = Some dates ∧
    distinct_in_order points.*1 (values dates) ∧
    points.*2 = Num <$> totals ∧
    (adds_up_exactly nc →
     (∀ k v, (k, v) ∈ points →
             v = Num (Zsum (present (group_of k (zip (values dates) nc))))) ∧
     Zsum totals =
       Zsum (present (snd <$> filter (λ r, is_Some r.1) (zip (values dates) nc))) ∧
     (no_missing dates → len dates = length nc → Zsum totals = Zsum (present nc))).
Proof.
  intros Hnc H.
  destruct (columns df !! "Date_reported") as [dates|] eqn:Hdates.
  2: { unfold global_trend, getitem in H. by rewrite Hdates in H. }
  rewrite (global_trend_numbers df dates nc Hdates Hnc) in H. injection H as <-.
  exists dates, ((λ g : scalar * list (option Z), total g.2) <$> groupby (values dates) nc).
  assert (Zsum ((λ g : scalar * list (option Z), total g.2) <$> groupby (values dates) nc) =
          total (snd <$> filter (λ r, is_Some r.1) (zip (values dates) nc))) as Hsum.
  { apply groupby_total. }
  split; [done |]. split_and!.
  - rewrite <- list_fmap_compose.
    rewrite (list_fmap_ext _ fst (groupby (values dates) nc)) by done.
    rewrite groupby_keys. apply group_keys_in_order.
  - by rewrite <- !list_fmap_compose.
  - intros _. split_and!.
    + intros k v Hin. unfold groupby in Hin. rewrite <- list_fmap_compose in Hin.
      apply list_elem_of_fmap in Hin as (k' & [= -> ->] & _). reflexivity.
    + exact Hsum.
    + intros Hfull Hlen. rewrite Hsum. by rewrite rows_with_key_all.
Qed.

(** X17.  The series of line 109 has one entry per WHO region that occurs
    in the window; no entry comes before one with a smaller mean, and a
    region without a value comes last.  For new cases that pandas adds up
    exactly, the entry of a region is the mean of the new cases of that
    region's rows: their sum over their number. *)
Theorem region_bars_ascend (df : DataFrame) (bars : list (scalar * option Q)) :
  region_bars df = inr bars →
  ∃ regions nc,
    columns df !! "WHO_region" = Some regions ∧
    columns df !! "New_cases" = Some (float64 nc) ∧
    NoDup bars.*1 ∧
    (∀ k, k ∈ bars.*1 ↔ Some k ∈ values regions) ∧
    (∀ i j a b, (i < j)%nat → bars !! i = Some a → bars !! j = Some b →
                no_larger a.2 b.2) ∧
    (adds_up_exactly nc →
     ∀ k m, (k, m) ∈ bars → is_mean m (group_of k (zip (values regions) nc))).
Proof.
  intros H.
  destruct (region_bars_inr df bars H) as (regions & nc & Hreg & Hnc & Hs & Hnd & Hin).
  exists regions, nc. split_and!; try done.
  - by apply (keys_of_entries _ _ _ Hin).
  - intros i j a b Hij Ha Hb. apply mean_leb_no_larger, Is_true_true.
    by apply (sorted_lookup_le by_mean_asc bars i j).
  - intros _ k m Hk. apply Hin in Hk as [_ ->]. apply mean_is_mean.
Qed.

(** ** The summary of a column *)

Lemma present_elem {A} (xs : list (option A)) (v : A) : v ∈ present xs ↔ Some v ∈ xs.
Proof.
  unfold present. rewrite list_elem_of_omap. split.
  - intros (c & Hc & Hv). cbn in Hv. by subst.
  - intros H. by exists (Some v).
Qed.

Lemma Zsum_bounds (a b : Z) (vs : list Z) :
  Forall (λ v, a ≤ v ≤ b) vs →
  Z.of_nat (length vs) * a ≤ Zsum vs ≤ Z.of_nat (length vs) * b.
Proof.
  induction 1 as [|v vs Hv _ IH]; [cbn; lia |].
  rewrite Zsum_cons. cbn [length]. lia.
Qed.

Lemma quartile_first (xs : list (option Z)) (a : Z) :
  merge_sort Z.le (present xs) !! 0%nat = Some a →
  ∃ q, quartile 0 xs = Some q ∧ (q == inject_Z a)%Q.
Proof.
  intros Ha. unfold quartile.
  destruct (length (merge_sort Z.le (present xs))) as [|m] eqn:Hlen.
  { apply nil_length_inv in Hlen. by rewrite Hlen in Ha. }
  rewrite Nat.mul_0_r. cbn -[merge_sort]. rewrite Ha. cbn -[merge_sort].
  eexists. split; [done |]. unfold Qeq, Qplus, Qmult, inject_Z. cbn. lia.
Qed.

Lemma quartile_last (xs : list (option Z)) (m : nat) (b : Z) :
  length (merge_sort Z.le (present xs)) = S m →
  merge_sort Z.le (present xs) !! m = Some b →
  ∃ q, quartile 4 xs = Some q ∧ (q == inject_Z b)%Q.
Proof.
  intros Hlen Hb. unfold quartile. rewrite Hlen.
  replace ((m * 4) `div` 4)%nat with m by (symmetry; apply Nat.div_mul; lia).
  replace ((m * 4) `mod` 4)%nat with 0%nat by (symmetry; apply Nat.Div0.mod_mul).
  rewrite Hb. cbn -[merge_sort]. eexists. split; [done |].
  unfold Qeq, Qplus, Qmult, inject_Z. cbn. lia.
Qed.

(** X18.  For a column with at least one value, the minimum and the
    maximum that [describe] reports are values of the column, every value
    of the column lies between them, and so does the mean; missing cells
    are left out of all three. *)
Theorem describe_min_mean_max (xs : list (option Z)) (v0 : Z) :
  Some v0 ∈ xs →
  ∃ a b lo m hi,
    Some a ∈ xs ∧ Some b ∈ xs ∧
    st_min (describe_numeric xs) = Some lo ∧ (lo == inject_Z a)%Q ∧
    st_max (describe_numeric xs) = Some hi ∧ (hi == inject_Z b)%Q ∧
    st_mean (describe_numeric xs) = Some m ∧ (lo <= m)%Q ∧ (m <= hi)%Q ∧
    ∀ v, Some v ∈ xs → a ≤ v ≤ b.
Proof.
  intros Hv0.
  pose proof (StronglySorted_merge_sort Z.le (present xs)) as Hsorted.
  pose proof (merge_sort_Permutation Z.le (present xs)) as Hperm.
  set (sorted := merge_sort Z.le (present xs)) in *.
  assert (v0 ∈ sorted) as Hin by (rewrite Hperm; by apply present_elem).
  destruct (length sorted) as [|n] eqn:Hlen.
  { apply nil_length_inv in Hlen. rewrite Hlen in Hin. by apply elem_of_nil in Hin. }
  destruct (lookup_lt_is_Some_2 sorted 0) as [a Ha]; [lia |].
  destruct (lookup_lt_is_Some_2 sorted n) as [b Hb]; [lia |].
  assert (∀ v, Some v ∈ xs → a ≤ v ≤ b) as Hbounds.
  { intros v Hv. apply present_elem in Hv. rewrite <- Hperm in Hv.
    apply list_elem_of_lookup_1 in Hv as [i Hi].
    pose proof (lookup_lt_Some _ _ _ Hi) as Hlt. split.
    - destruct (decide (i = 0%nat)) as [->|]; [by simplify_eq |].
      apply (sorted_lookup_le Z.le sorted 0 i); [done | lia | done | done].
    - destruct (decide (i = n)) as [->|]; [by simplify_eq |].
      apply (sorted_lookup_le Z.le sorted i n); [done | lia | done | done]. }
  destruct (quartile_first xs a Ha) as (lo & Hlo & Hloa).
  destruct (quartile_last xs n b Hlen Hb) as (hi & Hhi & Hhib).
  assert (∃ m, mean xs = Some m ∧ (inject_Z a <= m)%Q ∧ (m <= inject_Z b)%Q)
    as (m & Hm & Ham & Hmb).
  { unfold mean. destruct (present xs) as [|v vs] eqn:Hp.
    { apply present_elem in Hv0. rewrite Hp in Hv0. by apply elem_of_nil in Hv0. }
    eexists. split; [done |].
    assert (Forall (λ v, a ≤ v ≤ b) (v :: vs)) as Hall.
    { apply Forall_forall. intros u Hu. apply Hbounds, present_elem. by rewrite Hp. }
    apply Zsum_bounds in Hall.
    assert (Z.pos (Pos.of_nat (length (v :: vs))) = Z.of_nat (length (v :: vs))) as Hpos.
    { cbn [length]. rewrite <- Pos.of_nat_succ. lia. }
    unfold Qle, inject_Z. cbn [Qnum Qden]. rewrite Hpos. lia. }
  exists a, b, lo, m, hi. split_and!; try done.
  - apply present_elem. rewrite <- Hperm. by eapply list_elem_of_lookup_2.
  - apply present_elem. rewrite <- Hperm. by eapply list_elem_of_lookup_2.
  - by rewrite Hloa.
  - by rewrite Hhib.
Qed.

(** ** Rounding to two decimals *)

Lemma round_half_even_close (x : Q) :
  (inject_Z (round_half_even x) - x <= 1 # 2)%Q ∧
  (x - inject_Z (round_half_even x) <= 1 # 2)%Q.
Proof.
  unfold round_half_even.
  pose proof (Qfloor_le x) as Hlo. pose proof (Qlt_floor x) as Hhi.
  rewrite inject_Z_plus in Hhi. change (inject_Z 1) with 1%Q in Hhi.
  destruct (x - inject_Z (Qfloor x) ?= 1 # 2)%Q eqn:Hcmp.
  - apply Qeq_alt in Hcmp. destruct (Z.even (Qfloor x));
      rewrite ?inject_Z_plus; change (inject_Z 1) with 1%Q; split; lra.
  - apply Qlt_alt in Hcmp. split; lra.
  - apply Qgt_alt in Hcmp. rewrite inject_Z_plus. change (inject_Z 1) with 1%Q.
    split; lra.
Qed.

(** X19.  A number printed with [round(2)] (the means and sums of line 69,
    the means of line 75) is within 0.005 of the number computed. *)
Theorem round2_within_half_a_hundredth (q : Q) :
  (round2 q - q <= 1 # 200)%Q ∧ (q - round2 q <= 1 # 200)%Q.
Proof.
  destruct (round_half_even_close (q * 100)) as [H1 H2].
  assert (round2 q == inject_Z (round_half_even (q * 100)) / 100)%Q as ->.
  { unfold round2. rewrite (Qmake_Qdiv _ 100). reflexivity. }
  generalize dependent (inject_Z (round_half_even (q * 100))). intros n H1 H2.
  unfold Qdiv. change (/ 100)%Q with (1 # 100)%Q. split; lra.
Qed.

(** X20.  On a window of at least one and fewer than 1000 rows that has
    the columns the first three charts need (numeric new deaths with at
    least one value among them), Task 3 saves those three charts, then
    [sample(1000)] raises: the guard prints the ValueError and no manifest,
    the fourth file is not written, the figure opened at line 133 is left
    open, and the generator is not advanced. *)
Theorem small_window_leaves_figure_open (choice : nat → nat → nat → list nat * nat)
    (w : world) (df viz_df : DataFrame) (dates regions : series)
    (nc nd : list (option Z)) :
  g_df w = Some df →
  since_2025 df = inr viz_df →
  (0 < nrows viz_df < 1000)%nat →
  columns viz_df !! "Date_reported" = Some dates →
  columns viz_df !! "WHO_region" = Some regions →
  columns viz_df !! "New_cases" = Some (float64 nc) →
  columns viz_df !! "New_deaths" = Some (float64 nd) →
  present nd ≠ [] →
  ∃ trend bars,
    task3 choice w =
    (inr (),
     {| g_df := g_df w;
        stdout :=
          stdout w ++
          [Error "Error during visualization: "
                 (ValueError "Cannot take a larger sample than population when 'replace=False'")];
        figure := Some Blank;
        cwd :=
          <["deaths_histogram.png" := Histogram 50 (values (float64 nd))]>
          (<["region_cases_bar.png" := BarChart bars]>
           (<["global_cases_line.png" := LineChart trend]> (cwd w)));
        random_state := random_state w |}) ∧
    distinct_in_order trend.*1 (values dates) ∧
    NoDup bars.*1 ∧
    (∀ k, k ∈ bars.*1 ↔ Some k ∈ values regions).
Proof.
  intros Hdf Hviz Hsmall Hdates Hreg Hnc Hdeaths Hvalue.
  destruct (series_of_window viz_df dates regions nc Hdates Hreg Hnc)
    as (trend & bars & Htrend & Hbars & Hkeys & Hnodup & Hin).
  exists trend, bars. split; [|done].
  assert (getitem viz_df "New_deaths" = inr (float64 nd)) as Hget.
  { unfold getitem. by rewrite Hdeaths. }
  unfold task3, try_except, task3_body, mbind, py_bind, lift, load_df.
  rewrite Hdf, Hviz.
  cbn -[global_trend region_bars getitem hist sample scatter_points print_lines].
  rewrite Htrend. cbn -[region_bars getitem hist sample scatter_points print_lines].
  rewrite Hbars. cbn -[getitem hist sample scatter_points print_lines].
  rewrite Hget. cbn -[hist sample scatter_points print_lines].
  rewrite (hist_numbers nd Hvalue). cbn -[sample scatter_points print_lines values].
  unfold sample. rewrite !bool_decide_false by lia.
  cbn -[values]. by rewrite Hdf.
Qed.

(** ** The further theorems at concrete tables *)

Lemma download_errors_are_told_apart_witness :
  fetch (Response 200 (inl (ParserError "Error tokenizing data"))) =
    inl (ParserError "Error tokenizing data") ∧
  task1 iso_datetime (Response 200 (inl (ParserError "Error tokenizing data"))) (boot ∅ 0) =
  (inr (),
   emit (boot ∅ 0)
     [Error (if isinstance (ParserError "Error tokenizing data") cRequestException
             then download_failed else loading_failed)
            (ParserError "Error tokenizing data")]).
Proof.
  split; [vm_compute; reflexivity |].
  apply (download_errors_are_told_apart iso_datetime).
  vm_compute. reflexivity.
Defined.

Lemma failed_conversion_keeps_raw_table_witness :
  fetch (Response 200 (inr stale_table)) = inr stale_table ∧
  convert_dates iso_datetime stale_table = inl (ValueError "unknown") ∧
  ((ValueError "unknown" = KeyError "Date_reported" ∨ ∃ s, ValueError "unknown" = ValueError s) ∧
   task1 iso_datetime (Response 200 (inr stale_table)) (boot ∅ 0) =
   (inr (),
    emit (rebind (boot ∅ 0) stale_table)
      (preview stale_table ++ [Error loading_failed (ValueError "unknown")]))).
Proof.
  split; [vm_compute; reflexivity |].
  split; [vm_compute; reflexivity |].
  apply (failed_conversion_keeps_raw_table iso_datetime).
  - vm_compute. reflexivity.
  - vm_compute. reflexivity.
Defined.

Lemma missing_country_code_keeps_converted_table_witness :
  fetch (Response 200 (inr no_code_table)) = inr no_code_table ∧
  convert_dates iso_datetime no_code_table = inr no_code_converted ∧
  columns no_code_table !! "Country_code" = None ∧
  (index no_code_converted = index no_code_table ∧
   task1 iso_datetime (Response 200 (inr no_code_table)) (boot ∅ 0) =
   (inr (),
    emit (rebind (boot ∅ 0) no_code_converted)
      (preview no_code_table ++ [Error loading_failed (KeyError "Country_code")]))).
Proof.
  split; [vm_compute; reflexivity |].
  split; [vm_compute; reflexivity |].
  split; [vm_compute; reflexivity |].
  apply (missing_country_code_keeps_converted_table iso_datetime).
  - vm_compute. reflexivity.
  - vm_compute. reflexivity.
  - vm_compute. reflexivity.
Defined.

Lemma dropped_count_is_rows_without_identifiers_witness :
  fetch (Response 200 (inr gappy_table)) = inr gappy_table ∧
  clean iso_datetime gappy_table = inr gappy_cleaned ∧
  ∃ dates d c tail,
    columns gappy_table !! "Date_reported" = Some dates ∧
    to_datetime iso_datetime dates = inr d ∧
    columns gappy_table !! "Country_code" = Some c ∧
    stdout (task1 iso_datetime (Response 200 (inr gappy_table)) (boot ∅ 0)).2 =
    stdout (boot ∅ 0) ++ preview gappy_table ++
    Cleaned (Z.of_nat (length (filter (λ i, ¬ (has_value d i ∧ has_value c i))
                                      (seq 0 (nrows gappy_table))))) :: tail.
Proof.
  split; [vm_compute; reflexivity |].
  split; [vm_compute; reflexivity |].
  apply (dropped_count_is_rows_without_identifiers iso_datetime
           (Response 200 (inr gappy_table)) gappy_table gappy_cleaned).
  - vm_compute. reflexivity.
  - vm_compute. reflexivity.
Defined.

Lemma no_missing_line_iff_table_full_witness :
  fetch (Response 200 (inr gappy_table)) = inr gappy_table ∧
  clean iso_datetime gappy_table = inr gappy_cleaned ∧
  (last (stdout (task1 iso_datetime (Response 200 (inr gappy_table)) (boot ∅ 0)).2) =
     Some (Line "No remaining missing values in the dataset after cleaning.") ↔
   ∀ name s, columns gappy_cleaned !! name = Some s → no_missing s).
Proof.
  split; [vm_compute; reflexivity |].
  split; [vm_compute; reflexivity |].
  apply (no_missing_line_iff_table_full iso_datetime
           (Response 200 (inr gappy_table)) gappy_table gappy_cleaned).
  - vm_compute. reflexivity.
  - vm_compute. reflexivity.
Defined.

Lemma clean_well_formed_witness :
  well_formed gappy_table ∧
  clean iso_datetime gappy_table = inr gappy_cleaned ∧
  well_formed gappy_cleaned.
Proof.
  split; [apply well_formed_check; vm_compute; reflexivity |].
  split; [vm_compute; reflexivity |].
  apply (clean_well_formed iso_datetime gappy_table gappy_cleaned).
  - apply well_formed_check. vm_compute. reflexivity.
  - vm_compute. reflexivity.
Defined.

Lemma clean_idempotent_witness :
  well_formed gappy_table ∧
  clean iso_datetime gappy_table = inr gappy_cleaned ∧
  clean (λ _, None) gappy_cleaned = inr gappy_cleaned.
Proof.
  split; [apply well_formed_check; vm_compute; reflexivity |].
  split; [vm_compute; reflexivity |].
  apply (clean_idempotent iso_datetime (λ _, None) gappy_table gappy_cleaned).
  - apply well_formed_check. vm_compute. reflexivity.
  - vm_compute. reflexivity.
Defined.

Lemma gap_run_takes_last_value_witness :
  identified iso_datetime gappy_table = inr gappy_kept ∧
  "New_deaths" ∈ numeric_columns ∧
  columns gappy_kept !! "New_deaths" = Some (float64 [Some 1; None; None]) ∧
  ∃ s', columns (fill_numeric gappy_kept) !! "New_deaths" = Some s' ∧
    ∀ j i v, (j ≤ i)%nat →
      values (float64 [Some 1; None; None]) !! j = Some (Some v) →
      (∀ k, (j < k ≤ i)%nat → values (float64 [Some 1; None; None]) !! k = Some None) →
      values s' !! i = Some (Some v).
Proof.
  split; [vm_compute; reflexivity |].
  split; [repeat constructor |].
  split; [vm_compute; reflexivity |].
  apply (gap_run_takes_last_value iso_datetime gappy_table gappy_kept "New_deaths").
  - vm_compute. reflexivity.
  - repeat constructor.
  - vm_compute. reflexivity.
Defined.

Lemma missing_numeric_column_stops_analysis_witness :
  g_df (world_with no_deaths_table) = Some no_deaths_table ∧
  since_2025 no_deaths_table = inr no_deaths_table ∧
  "New_deaths" ∈ described_columns ∧
  columns no_deaths_table !! "New_deaths" = None ∧
  ∃ k, k ∈ described_columns ∧ columns no_deaths_table !! k = None ∧
       task2 (world_with no_deaths_table) =
       (inr (), emit (world_with no_deaths_table)
                  [Line "Summary Statistics (2025 Data):";
                   Error "Error during analysis: " (KeyError k)]).
Proof.
  split; [reflexivity |].
  split; [vm_compute; reflexivity |].
  split; [repeat constructor |].
  split; [vm_compute; reflexivity |].
  apply (missing_numeric_column_stops_analysis (world_with no_deaths_table)
           no_deaths_table no_deaths_table "New_deaths").
  - reflexivity.
  - vm_compute. reflexivity.
  - repeat constructor.
  - vm_compute. reflexivity.
Defined.

Lemma empty_window_is_summarised_witness :
  g_df (world_with old_table) = Some old_table ∧
  well_formed old_table ∧
  since_2025 old_table = inr (df_compress [false; false] old_table) ∧
  nrows (df_compress [false; false] old_table) = 0%nat ∧
  columns old_table !! "New_cases" = Some (float64 [Some 3; Some 5]) ∧
  columns old_table !! "New_deaths" = Some (float64 [Some 0; Some 1]) ∧
  columns old_table !! "Cumulative_cases" = Some (float64 [Some 30; Some 27]) ∧
  columns old_table !! "Cumulative_deaths" = Some (float64 [Some 4; Some 4]) ∧
  columns old_table !! "WHO_region" = Some (object [Some (Str "AFRO"); Some (Str "AFRO")]) ∧
  columns old_table !! "Country" = Some (object [Some (Str "Kenya"); Some (Str "Uganda")]) ∧
  task2 (world_with old_table) =
  (inr (),
   emit (world_with old_table)
     ([Line "Summary Statistics (2025 Data):";
       Described (NumericDescription ((λ name, (name, no_stats)) <$> described_columns));
       Line "Mean New Cases by WHO Region (2025):";
       GroupMeans [];
       Line "Top 10 Countries by Mean Cumulative Deaths (2025):";
       CountryDeaths []]
      ++ (Line <$> findings))).
Proof.
  split; [reflexivity |].
  split; [apply well_formed_check; vm_compute; reflexivity |].
  do 8 (split; [vm_compute; reflexivity |]).
  apply (empty_window_is_summarised (world_with old_table) old_table
           (df_compress [false; false] old_table)
           [Some 3; Some 5] [Some 0; Some 1] [Some 30; Some 27] [Some 4; Some 4]
           (object [Some (Str "AFRO"); Some (Str "AFRO")])
           (object [Some (Str "Kenya"); Some (Str "Uganda")])).
  - reflexivity.
  - apply well_formed_check. vm_compute. reflexivity.
  - vm_compute. reflexivity.
  - vm_compute. reflexivity.
  - vm_compute. reflexivity.
  - vm_compute. reflexivity.
  - vm_compute. reflexivity.
  - vm_compute. reflexivity.
  - vm_compute. reflexivity.
  - vm_compute. reflexivity.
Defined.

Lemma describe_min_mean_max_witness :
  Some 3 ∈ [Some 3; None; Some 8] ∧
  ∃ a b lo m hi,
    Some a ∈ [Some 3; None; Some 8] ∧ Some b ∈ [Some 3; None; Some 8] ∧
    st_min (describe_numeric [Some 3; None; Some 8]) = Some lo ∧ (lo == inject_Z a)%Q ∧
    st_max (describe_numeric [Some 3; None; Some 8]) = Some hi ∧ (hi == inject_Z b)%Q ∧
    st_mean (describe_numeric [Some 3; None; Some 8]) = Some m ∧
    (lo <= m)%Q ∧ (m <= hi)%Q ∧
    ∀ v, Some v ∈ [Some 3; None; Some 8] → a ≤ v ≤ b.
Proof.
  split; [repeat constructor |].
  apply (describe_min_mean_max [Some 3; None; Some 8] 3).
  repeat constructor.
Defined.

Lemma analysis_completes_on_numeric_window_witness :
  g_df (world_with regional_cleaned) = Some regional_cleaned ∧
  since_2025 regional_cleaned = inr regional_window ∧
  columns regional_window !! "New_cases" = Some (float64 regional_new_cases) ∧
  columns regional_window !! "New_deaths" = Some (float64 regional_new_deaths) ∧
  columns regional_window !! "Cumulative_cases" = Some (float64 regional_cumulative_cases) ∧
  columns regional_window !! "Cumulative_deaths" = Some (float64 regional_cumulative_deaths) ∧
  columns regional_window !! "WHO_region" = Some regional_region_column ∧
  columns regional_window !! "Country" = Some regional_country_column ∧
  ∃ d gm top,
    task2 (world_with regional_cleaned) =
    (inr (),
     emit (world_with regional_cleaned)
       ([Line "Summary Statistics (2025 Data):";
         Described (NumericDescription d);
         Line "Mean New Cases by WHO Region (2025):";
         GroupMeans gm;
         Line "Top 10 Countries by Mean Cumulative Deaths (2025):";
         CountryDeaths top]
        ++ (Line <$> findings))) ∧
    d.*1 = described_columns ∧
    st_count <$> d.*2 =
      [length (present regional_new_cases); length (present regional_new_deaths);
       length (present regional_cumulative_cases);
       length (present regional_cumulative_deaths)] ∧
    distinct_in_order gm.*1.*1 (values regional_region_column) ∧
    NoDup top.*1 ∧
    (∀ k, k ∈ top.*1 → Some k ∈ values regional_country_column) ∧
    ∃ ks, distinct_in_order ks (values regional_country_column) ∧
          length top = (length ks `min` 10)%nat.
Proof.
  split; [reflexivity |].
  do 7 (split; [vm_compute; reflexivity |]).
  apply (analysis_completes_on_numeric_window (world_with regional_cleaned)
           regional_cleaned regional_window).
  - reflexivity.
  - vm_compute. reflexivity.
  - vm_compute. reflexivity.
  - vm_compute. reflexivity.
  - vm_compute. reflexivity.
  - vm_compute. reflexivity.
  - vm_compute. reflexivity.
  - vm_compute. reflexivity.
Defined.

Lemma large_window_saves_four_files_witness :
  g_df (world_with crowded_table) = Some crowded_table ∧
  since_2025 crowded_table = inr crowded_table ∧
  (1000 ≤ nrows crowded_table)%nat ∧
  columns crowded_table !! "Date_reported" = Some crowded_dates ∧
  columns crowded_table !! "WHO_region" = Some crowded_regions ∧
  columns crowded_table !! "New_cases" = Some (float64 crowded_new_cases) ∧
  columns crowded_table !! "New_deaths" = Some (float64 crowded_new_deaths) ∧
  present crowded_new_deaths ≠ [] ∧
  (let w := world_with crowded_table in
   let drawn := rotating_choice (random_state w) (nrows crowded_table) 1000%nat in
   ∃ trend bars,
     task3 rotating_choice w =
     (inr (),
      {| g_df := g_df w;
         stdout := stdout w ++ (Line <$> saved_files);
         figure := None;
         cwd :=
           <["cases_deaths_scatter.png" :=
               ScatterChart
                 (zip (zip (values (series_take drawn.1 (float64 crowded_new_cases)))
                           (values (series_take drawn.1 (float64 crowded_new_deaths))))
                      (values (series_take drawn.1 crowded_regions)))]>
           (<["deaths_histogram.png" := Histogram 50 (values (float64 crowded_new_deaths))]>
            (<["region_cases_bar.png" := BarChart bars]>
             (<["global_cases_line.png" := LineChart trend]> (cwd w))));
         random_state := drawn.2 |}) ∧
     distinct_in_order trend.*1 (values crowded_dates) ∧
     NoDup bars.*1 ∧
     (∀ k, k ∈ bars.*1 ↔ Some k ∈ values crowded_regions)).
Proof.
  split; [reflexivity |].
  split; [vm_compute; reflexivity |].
  split; [apply Nat.leb_le; vm_compute; reflexivity |].
  do 4 (split; [vm_compute; reflexivity |]).
  split; [intros H; vm_compute in H; discriminate H |].
  apply (large_window_saves_four_files rotating_choice (world_with crowded_table)
           crowded_table crowded_table crowded_dates crowded_regions
           crowded_new_cases crowded_new_deaths).
  - reflexivity.
  - vm_compute. reflexivity.
  - apply Nat.leb_le. vm_compute. reflexivity.
  - vm_compute. reflexivity.
  - vm_compute. reflexivity.
  - vm_compute. reflexivity.
  - vm_compute. reflexivity.
  - intros H. vm_compute in H. discriminate H.
Defined.

Lemma small_window_leaves_figure_open_witness :
  g_df (world_with regional_cleaned) = Some regional_cleaned ∧
  since_2025 regional_cleaned = inr regional_window ∧
  (0 < nrows regional_window < 1000)%nat ∧
  columns regional_window !! "Date_reported" = Some regional_dates ∧
  columns regional_window !! "WHO_region" = Some regional_region_column ∧
  columns regional_window !! "New_cases" = Some (float64 regional_new_cases) ∧
  columns regional_window !! "New_deaths" = Some (float64 regional_new_deaths) ∧
  present regional_new_deaths ≠ [] ∧
  (let w := world_with regional_cleaned in
   ∃ trend bars,
     task3 rotating_choice w =
     (inr (),
      {| g_df := g_df w;
         stdout :=
           stdout w ++
           [Error "Error during visualization: "
                  (ValueError "Cannot take a larger sample than population when 'replace=False'")];
         figure := Some Blank;
         cwd :=
           <["deaths_histogram.png" := Histogram 50 (values (float64 regional_new_deaths))]>
           (<["region_cases_bar.png" := BarChart bars]>
            (<["global_cases_line.png" := LineChart trend]> (cwd w)));
         random_state := random_state w |}) ∧
     distinct_in_order trend.*1 (values regional_dates) ∧
     NoDup bars.*1 ∧
     (∀ k, k ∈ bars.*1 ↔ Some k ∈ values regional_region_column)).
Proof.
  assert (nrows regional_window = 14%nat) as Hrows by (vm_compute; reflexivity).
  split; [reflexivity |].
  split; [vm_compute; reflexivity |].
  split; [rewrite Hrows; lia |].
  do 4 (split; [vm_compute; reflexivity |]).
  split; [intros H; vm_compute in H; discriminate H |].
  apply (small_window_leaves_figure_open rotating_choice (world_with regional_cleaned)
           regional_cleaned regional_window regional_dates regional_region_column
           regional_new_cases regional_new_deaths).
  - reflexivity.
  - vm_compute. reflexivity.
  - rewrite Hrows. lia.
  - vm_compute. reflexivity.
  - vm_compute. reflexivity.
  - vm_compute. reflexivity.
  - vm_compute. reflexivity.
  - intros H. vm_compute in H. discriminate H.
Defined.

Lemma region_sums_add_up_witness :
  region_means regional_window = inr regional_regions ∧
  adds_up_exactly regional_new_cases ∧
  ∃ regions nc,
    columns regional_window !! "WHO_region" = Some regions ∧
    columns regional_window !! "New_cases" = Some (float64 nc) ∧
    distinct_in_order (rg_key <$> regional_regions) (values regions) ∧
    (adds_up_exactly nc →
     (∀ r, r ∈ regional_regions →
           rg_sum r = Zsum (present (group_of (rg_key r) (zip (values regions) nc)))) ∧
     Zsum (rg_sum <$> regional_regions) =
       Zsum (present (snd <$> filter (λ r, is_Some r.1) (zip (values regions) nc))) ∧
     (no_missing regions → len regions = length nc →
      Zsum (rg_sum <$> regional_regions) = Zsum (present nc))).
Proof.
  split; [vm_compute; reflexivity |].
  split; [vm_compute; reflexivity |].
  apply (region_sums_add_up regional_window regional_regions).
  vm_compute. reflexivity.
Defined.

Lemma daily_totals_add_up_witness :
  columns regional_window !! "New_cases" = Some (float64 regional_new_cases) ∧
  global_trend regional_window = inr regional_trend ∧
  adds_up_exactly regional_new_cases ∧
  ∃ dates totals,
    columns regional_window !! "Date_reported" = Some dates ∧
    distinct_in_order regional_trend.*1 (values dates) ∧
    regional_trend.*2 = Num <$> totals ∧
    (adds_up_exactly regional_new_cases →
     (∀ k v, (k, v) ∈ regional_trend →
             v = Num (Zsum (present (group_of k (zip (values dates) regional_new_cases))))) ∧
     Zsum totals =
       Zsum (present (snd <$> filter (λ r, is_Some r.1)
                                     (zip (values dates) regional_new_cases))) ∧
     (no_missing dates → len dates = length regional_new_cases →
      Zsum totals = Zsum (present regional_new_cases))).
Proof.
  split; [vm_compute; reflexivity |].
  split; [vm_compute; reflexivity |].
  split; [vm_compute; reflexivity |].
  apply (daily_totals_add_up regional_window regional_new_cases regional_trend).
  - vm_compute. reflexivity.
  - vm_compute. reflexivity.
Defined.

Lemma region_bars_ascend_witness :
  region_bars regional_window = inr regional_bars ∧
  adds_up_exactly regional_new_cases ∧
  ∃ regions nc,
    columns regional_window !! "WHO_region" = Some regions ∧
    columns regional_window !! "New_cases" = Some (float64 nc) ∧
    NoDup regional_bars.*1 ∧
    (∀ k, k ∈ regional_bars.*1 ↔ Some k ∈ values regions) ∧
    (∀ i j a b, (i < j)%nat → regional_bars !! i = Some a → regional_bars !! j = Some b →
                no_larger a.2 b.2) ∧
    (adds_up_exactly nc →
     ∀ k m, (k, m) ∈ regional_bars → is_mean m (group_of k (zip (values regions) nc))).
Proof.
  split; [vm_compute; reflexivity |].
  split; [vm_compute; reflexivity |].
  apply (region_bars_ascend regional_window regional_bars).
  vm_compute. reflexivity.
Defined.
